(** * The ML service of zemfyre-sensor: anomaly scoring, windowing, forecasting,
      model persistence and the detect endpoint, as a shallow embedding.

    Python floats are IEEE binary64 values: they are Rocq's primitive floats,
    so every numeric definition below runs on the same values as the code.
    The cells of a float32 array are the binary64 values that [Np.float32]
    returns, and an operation on them rounds its result with [Np.float32].
    Python ints are [Z].  Exceptions are values of [pyexn]; a method that can
    raise returns a [result].  The fitted scikit-learn and Keras objects are
    records of the functions the code calls on them; the fitting routines
    themselves are the fields of the classes [Sklearn] and [Keras]. *)

From Stdlib Require Import ZArith List String Bool Lia Floats Uint63.
From stdpp Require Import base option list gmap strings.

Set Warnings "-inexact-float".
Set Default Proof Using "Type".

Local Open Scope string_scope.
Local Open Scope list_scope.
Local Open Scope Z_scope.

(* ===================================================================== *)
(** ** Python values, exceptions and results *)
(* ===================================================================== *)

Module Py.

(** The messages of the [ValueError]s the service raises itself. *)
Inductive value_error : Type :=
| NotTrainedMsg                              (* "Model not trained. Call train() first." *)
| NotEnoughDataMsg (need got : Z)            (* "Not enough data. Need {need}+, got {got}" *)
| MissingFeaturesMsg (missing : list string) (* "Missing features: {missing}" *)
| NeedRecentPointsMsg (need got : Z)         (* "Need {need} recent points, got {got}" *)
| InvalidIsoformatMsg.                       (* datetime.fromisoformat on a non-ISO string *)

(** Exceptions other than [HTTPException].  [LibraryError] stands for any
    exception raised inside scikit-learn, Keras, pandas or the database
    driver; the routers only ever catch it with [except Exception]. *)
Inductive pyexn : Type :=
| ValueError (m : value_error)
| FileNotFoundError (path : string)
| KeyError (key : string)
| TypeError
| AttributeError
| IndexError
| LibraryError (what : string).

Inductive result (A : Type) : Type :=
| Ok (a : A)
| Raise (e : pyexn).
Arguments Ok {A} a.
Arguments Raise {A} e.

Definition bind {A B} (r : result A) (k : A -> result B) : result B :=
  match r with
  | Ok a => k a
  | Raise e => Raise e
  end.

(** A library call that either returns or raises inside the library. *)
Definition lib {A} (what : string) (o : option A) : result A :=
  match o with
  | Some a => Ok a
  | None => Raise (LibraryError what)
  end.

(** The dynamically typed values that travel through model metadata.
    [PyIso t] is the string [datetime.isoformat()] gives for the instant
    [t], [PyDatetime t] the datetime object itself. *)
Inductive pyval : Type :=
| PyNone
| PyBool (b : bool)
| PyInt (z : Z)
| PyFloat (x : float)
| PyStr (s : string)
| PyStrList (l : list string)
| PyDatetime (t : Z)
| PyIso (t : Z).

(** Truthiness, as [x or y] and [if x:] use it. *)
Definition truthy (v : pyval) : bool :=
  match v with
  | PyNone => false
  | PyBool b => b
  | PyInt z => negb (z =? 0)
  | PyFloat x => negb (PrimFloat.eqb x 0%float)
  | PyStr s => negb (String.eqb s "")
  | PyStrList l => match l with [] => false | _ => true end
  | PyDatetime _ => true
  | PyIso _ => true
  end.

(** [x or y] *)
Definition py_or (x y : pyval) : pyval := if truthy x then x else y.

(** [d.get(key)] and [d.get(key, default)] on a dict with string keys. *)
Definition dict_get (d : gmap string pyval) (key : string) (default : pyval) : pyval :=
  match d !! key with
  | Some v => v
  | None => default
  end.

(** [t.isoformat() if t else None] *)
Definition isoformat_or_none (t : pyval) : pyval :=
  match t with
  | PyDatetime z => PyIso z
  | _ => PyNone
  end.

(** [datetime.fromisoformat(s)] *)
Definition fromisoformat (s : pyval) : result pyval :=
  match s with
  | PyIso z => Ok (PyDatetime z)
  | PyStr _ => Raise (ValueError InvalidIsoformatMsg)
  | _ => Raise TypeError
  end.

(** An index of a slice bound, as Python normalises it for a sequence of
    length [n]: a negative bound counts from the end, and the result is
    clamped to [0 .. n]. *)
Definition slice_bound (n i : Z) : Z :=
  let j := if i <? 0 then i + n else i in
  Z.max 0 (Z.min n j).

(** [l[start:stop]] *)
Definition slice {A} (l : list A) (start stop : Z) : list A :=
  let n := Z.of_nat (length l) in
  let a := slice_bound n start in
  let b := slice_bound n stop in
  firstn (Z.to_nat (b - a)) (skipn (Z.to_nat a) l).

(** [l[start:]] *)
Definition slice_from {A} (l : list A) (start : Z) : list A :=
  let n := Z.of_nat (length l) in
  skipn (Z.to_nat (slice_bound n start)) l.

(** [range(n)] *)
Definition range (n : Z) : list Z :=
  map Z.of_nat (seq 0 (Z.to_nat n)).

(** [len(l)] *)
Definition len {A} (l : list A) : Z := Z.of_nat (length l).

End Py.
Export Py.

(** [result] is a monad: [x ← c; k] runs [c] and stops at its exception. *)
#[export] Instance result_ret : MRet result := fun A a => Ok a.
#[export] Instance result_bind : MBind result := fun A B k r => Py.bind r k.

(* ===================================================================== *)
(** ** config.py *)
(* ===================================================================== *)

Record Settings : Type := {
  MODEL_DIR : string;
  MIN_TRAINING_SAMPLES : Z;
  ISOLATION_FOREST_CONTAMINATION : float;
  ISOLATION_FOREST_N_ESTIMATORS : Z;
  LSTM_SEQUENCE_LENGTH : Z;
  LSTM_FORECAST_HORIZON : Z;
  LSTM_EPOCHS : Z;
  LSTM_BATCH_SIZE : Z
}.

(** The values of [Settings()] when the environment overrides none. *)
Definition settings : Settings := {|
  MODEL_DIR := "./models/saved";
  MIN_TRAINING_SAMPLES := 100;
  ISOLATION_FOREST_CONTAMINATION := 0.01%float;
  ISOLATION_FOREST_N_ESTIMATORS := 100;
  LSTM_SEQUENCE_LENGTH := 50;
  LSTM_FORECAST_HORIZON := 12;
  LSTM_EPOCHS := 50;
  LSTM_BATCH_SIZE := 32
|}.

(* ===================================================================== *)
(** ** The numpy and pandas routines the models call *)
(* ===================================================================== *)

Module Np.

Local Open Scope float_scope.

(** [float(z)] of an integer below 2^63 in absolute value. *)
Definition float_of_Z (z : Z) : float :=
  if (z <? 0)%Z then - PrimFloat.of_uint63 (Uint63.of_Z (- z))
  else PrimFloat.of_uint63 (Uint63.of_Z z).

(** [int(floor(x))] of a finite float. *)
Definition floor_to_Z (x : float) : Z :=
  match Prim2SF x with
  | S754_finite s m e => Z.shiftl (if s then Z.neg m else Z.pos m) e
  | _ => 0%Z
  end.

Definition is_nan (x : float) : bool := negb (PrimFloat.eqb x x).

(** [np.isinf(x)] and [np.isfinite(x)] *)
Definition is_inf (x : float) : bool := PrimFloat.eqb (abs x) infinity.
Definition is_finite (x : float) : bool := PrimFloat.ltb (abs x) infinity.

(** [np.float32(x)], read back as a Python float: [x] rounded to the nearest
    binary32 value, ties to even; beyond the binary32 range the result is
    an infinity. *)
Definition float32 (x : float) : float :=
  match Prim2SF x with
  | S754_finite s m e => SF2Prim (binary_round 24 128 s m e)
  | _ => x
  end.

(** Whether [column + scalar] stays a float32 column, for a float32 column
    and a float64 scalar, under the value-based casting of NumPy 1: it
    does unless the scalar is a finite value outside [(-3.4e38, 3.4e38)]. *)
Definition keeps_float32 (scalar : float) : bool :=
  negb (is_finite scalar)
  || (PrimFloat.ltb (-3.4e38) scalar && PrimFloat.ltb scalar 3.4e38).

(** One cell [x] of a float32 column plus or minus a float64 scalar: in
    float32, on the scalar cast to float32, when the column stays float32. *)
Definition add_scalar32 (x scalar : float) : float :=
  if keeps_float32 scalar then float32 (x + float32 scalar) else x + scalar.

Definition sub_scalar32 (x scalar : float) : float :=
  if keeps_float32 scalar then float32 (x - float32 scalar) else x - scalar.

Fixpoint insert_sorted (x : float) (l : list float) : list float :=
  match l with
  | [] => [x]
  | y :: l' => if PrimFloat.leb x y then x :: l else y :: insert_sorted x l'
  end.

(** [np.sort(a)] *)
Definition sort (a : list float) : list float :=
  fold_right insert_sorted [] a.

(** [arr[i]] with numpy's reading of a negative index. *)
Definition item (arr : list float) (i : Z) : float :=
  let n := Z.of_nat (length arr) in
  nth (Z.to_nat (if (i <? 0)%Z then i + n else i)%Z) arr nan.

(** numpy's [_lerp(a, b, t)]. *)
Definition lerp (a b t : float) : float :=
  let diff_b_a := b - a in
  if PrimFloat.leb 0.5 t then b - diff_b_a * (1 - t) else a + diff_b_a * t.

(** [np.percentile(a, q)] of a non-empty one-dimensional array with the
    default method (linear interpolation between the two nearest ranks):
    the virtual index is [(n - 1) * (q / 100)]; an index at or above the
    last one reads the maximum; any NaN in the input makes the result NaN. *)
Definition percentile (a : list float) (q : float) : float :=
  let arr := sort a in
  let n := Z.of_nat (length arr) in
  let quantile := q / 100 in
  let virtual_index := float_of_Z (n - 1) * quantile in
  let above := PrimFloat.leb (float_of_Z (n - 1)) virtual_index in
  let below := PrimFloat.ltb virtual_index 0 in
  let floor_index := floor_to_Z virtual_index in
  let previous_index := if above then (-1)%Z else if below then 0%Z else floor_index in
  let next_index := if above then (-1)%Z else if below then 0%Z else (floor_index + 1)%Z in
  let gamma := virtual_index - float_of_Z previous_index in
  if existsb is_nan a then nan
  else lerp (item arr previous_index) (item arr next_index) gamma.

(** The eight running sums of numpy's unrolled summation loop, after
    [chunks] further blocks of eight values. *)
Fixpoint sum_blocks (chunks : nat) (r rest : list float) : list float * list float :=
  match chunks with
  | O => (r, rest)
  | S k => sum_blocks k (zip_with PrimFloat.add r (firstn 8 rest)) (skipn 8 rest)
  end.

(** numpy's [pairwise_sum] of at least 8 and at most 128 values: eight
    running sums over the blocks of eight, added in pairs, then the
    remaining values one by one. *)
Definition sum_unrolled (a : list float) : float :=
  let '(r, rest) := sum_blocks (length a / 8 - 1) (firstn 8 a) (skipn 8 a) in
  let res :=
    match r with
    | [r0; r1; r2; r3; r4; r5; r6; r7] =>
        ((r0 + r1) + (r2 + r3)) + ((r4 + r5) + (r6 + r7))
    | _ => nan
    end in
  fold_left PrimFloat.add rest res.

(** numpy's [pairwise_sum]: plain accumulation below 8 values, the unrolled
    loop up to 128, and above that the two halves (the first a multiple of
    8 long) summed separately.  [fuel] bounds the halvings; the length of
    the array is enough. *)
Fixpoint pairwise_sum (fuel : nat) (a : list float) : float :=
  let n := length a in
  if (n <? 8)%nat then fold_left PrimFloat.add a 0
  else if (n <=? 128)%nat then sum_unrolled a
  else
    match fuel with
    | O => nan
    | S fuel' =>
        let n2 := (n / 2 - (n / 2) mod 8)%nat in
        pairwise_sum fuel' (firstn n2 a) + pairwise_sum fuel' (skipn n2 a)
    end.

(** [a.sum()] of a contiguous float64 array: the reduction starts from 0
    and adds what [pairwise_sum] returns. *)
Definition sum (a : list float) : float := 0 + pairwise_sum (length a) a.

(** pandas' [Series.std()] (sample standard deviation, [ddof = 1],
    [skipna = True]), as [nanops.nanvar] computes it: the NaN entries are
    left out of the count and count as 0 in both sums; with fewer than two
    values left the result is NaN.  Otherwise it is
    [sqrt(sum((avg - x)**2) / (count - 1))] with [avg = sum(x) / count]. *)
Definition std (values : list float) : float :=
  let count := Z.of_nat (length (filter (fun x => negb (is_nan x)) values)) in
  if (count <=? 1)%Z then nan
  else
    let filled := map (fun x => if is_nan x then 0 else x) values in
    let avg := sum filled / float_of_Z count in
    let sqr := map (fun x => if is_nan x then 0 else (avg - x) * (avg - x)) values in
    PrimFloat.sqrt (sum sqr / float_of_Z (count - 1)).

(** [Series.clip(lower=lo)]: values below [lo] become [lo]; NaN stays. *)
Definition clip_lower (lo x : float) : float :=
  if PrimFloat.ltb x lo then lo else x.

End Np.

(* ===================================================================== *)
(** ** pandas tables *)
(* ===================================================================== *)

(** A table of floats: the column names in order and the rows, each row
    holding one cell per column.  The [timestamp] column holds the instant
    in seconds.  Column names are looked up by first occurrence. *)
Record DataFrame : Type := {
  df_columns : list string;
  df_rows : list (list float)
}.

Definition matrix : Type := list (list float).

Module Pd.

(** [f in df.columns] *)
Definition in_columns (df : DataFrame) (f : string) : bool :=
  existsb (String.eqb f) (df_columns df).

Fixpoint index_of (f : string) (cols : list string) : option nat :=
  match cols with
  | [] => None
  | c :: cols' => if String.eqb f c then Some 0%nat else S <$> index_of f cols'
  end.

(** The cell of column [f] in a row of [df]. *)
Definition cell (df : DataFrame) (row : list float) (f : string) : option float :=
  i ← index_of f (df_columns df); row !! i.

(** [df[f].values], when the column exists. *)
Definition column (df : DataFrame) (f : string) : option (list float) :=
  if in_columns df f
  then Some (map (fun row => default nan (cell df row f)) (df_rows df))
  else None.

(** The array of the columns [features], row by row. *)
Definition values (df : DataFrame) (features : list string) : matrix :=
  map (fun row => map (fun f => default nan (cell df row f)) features) (df_rows df).

(** [df[features].values]: [KeyError] when a name is not a column. *)
Definition select (df : DataFrame) (features : list string) : result matrix :=
  match filter (fun f => negb (in_columns df f)) features with
  | [] => Ok (values df features)
  | f :: _ => Raise (KeyError f)
  end.

(** [len(df)] *)
Definition nrows (df : DataFrame) : Z := len (df_rows df).

End Pd.

(* ===================================================================== *)
(** ** scikit-learn and Keras objects *)
(* ===================================================================== *)

(** A fitted [StandardScaler]: it standardises each row on its own. *)
Record StandardScaler : Type := {
  ss_transform_row : list float -> list float
}.

(** A fitted [IsolationForest]: the score of a sample (lower = more
    anomalous) and the threshold [offset_] that fitting derived from the
    contamination rate. *)
Record IsolationForest : Type := {
  if_score_sample : list float -> float;
  offset_ : float
}.

(** A fitted [MinMaxScaler] on one column. *)
Record MinMaxScaler : Type := {
  mm_scale_ : float;
  mm_min_ : float
}.

(** A compiled Keras network: one forward pass on one window. *)
Record KerasModel : Type := {
  forward : list float -> list float
}.

(** What one [model.fit] returns: the per-epoch losses. *)
Record History : Type := {
  loss : list float;
  val_loss : list float
}.

(** The fitting routines, which the service calls and does not implement.
    [None] is an exception raised inside the library.  The ensemble is a
    function of the state of the random generator it is given:
    [RandomState seed] is the state an integer seed produces. *)
Class Sklearn : Type := {
  rng_state : Type;
  RandomState : Z -> rng_state;
  StandardScaler_fit : matrix -> option StandardScaler;
  IsolationForest_fit :
    forall (n_estimators : Z) (contamination : pyval) (rng : rng_state),
      matrix -> option IsolationForest;
  MinMaxScaler_fit : list float -> option MinMaxScaler
}.

Class Keras : Type := {
  Sequential_fit :
    forall (sequence_length forecast_horizon epochs batch_size : Z)
           (X_train y_train X_val y_val : matrix),
      option (KerasModel * History)
}.

Module Sk.

Local Open Scope float_scope.

(** [check_random_state(random_state)]: an integer seeds a fresh
    generator, [None] takes the process-wide one. *)
Definition check_random_state `{Sklearn} (random_state : option Z)
    (global_rng : rng_state) : rng_state :=
  match random_state with
  | Some seed => RandomState seed
  | None => global_rng
  end.

(** [check_array(X, force_all_finite="allow-nan")], the validation of the
    scalers: the array needs at least one row and one column, and no cell
    may be infinite; NaN passes. *)
Definition check_array_allow_nan (X : matrix) : bool :=
  match X with
  | [] => false
  | [] :: _ => false
  | _ => forallb (forallb (fun x => negb (Np.is_inf x))) X
  end.

(** [check_array(X, dtype=np.float32)], the validation of the ensemble: the
    array needs at least one row and one column, and every cell must be
    finite once cast to float32 (no NaN, no infinity, no value too large
    for float32). *)
Definition check_array_float32 (X : matrix) : bool :=
  match X with
  | [] => false
  | [] :: _ => false
  | _ => forallb (forallb (fun x => Np.is_finite (Np.float32 x))) X
  end.

(** The same validation as [check_array_allow_nan] for an array of one
    column, given as the list of its cells. *)
Definition check_column (values : list float) : bool :=
  match values with
  | [] => false
  | _ => forallb (fun x => negb (Np.is_inf x)) values
  end.

(** The contamination rates [IsolationForest] accepts as a number: the
    reals of [(0, 0.5]]. *)
Definition valid_contamination (contamination : pyval) : bool :=
  match contamination with
  | PyFloat x => PrimFloat.ltb 0 x && PrimFloat.leb x 0.5
  | _ => false
  end.

(** [scaler.transform(X)]: an unfitted scaler is refused, and so is an
    input that [check_array] refuses.  The number of columns is taken to
    be the one the scaler was fitted on. *)
Definition transform (scaler : option StandardScaler) (X : matrix) : result matrix :=
  match scaler with
  | None => Raise (LibraryError "NotFittedError")
  | Some s =>
      if check_array_allow_nan X then Ok (map (ss_transform_row s) X)
      else Raise (LibraryError "StandardScaler.transform")
  end.

(** The scores and the labels (-1 where [score - offset_] is negative,
    else 1) of the rows of an input the ensemble accepts. *)
Definition scores (m : IsolationForest) (X : matrix) : list float :=
  map (if_score_sample m) X.

Definition labels (m : IsolationForest) (X : matrix) : list Z :=
  map (fun s => if PrimFloat.ltb (s - offset_ m) 0 then (-1)%Z else 1%Z) (scores m X).

(** [model.score_samples(X)]: the input is validated first. *)
Definition score_samples (m : IsolationForest) (X : matrix) : result (list float) :=
  if check_array_float32 X then Ok (scores m X)
  else Raise (LibraryError "IsolationForest.score_samples").

(** [model.decision_function(X)]: [score_samples(X) - offset_] *)
Definition decision_function (m : IsolationForest) (X : matrix) : result (list float) :=
  s ← score_samples m X; Ok (map (fun s => s - offset_ m) s).

(** [model.predict(X)]: -1 where the decision function is negative, else 1. *)
Definition predict (m : IsolationForest) (X : matrix) : result (list Z) :=
  d ← decision_function m X;
  Ok (map (fun d => if PrimFloat.ltb d 0 then (-1)%Z else 1%Z) d).

(** [MinMaxScaler.transform] on one cell of a float64 column. *)
Definition minmax_transform (s : MinMaxScaler) (x : float) : float :=
  x * mm_scale_ s + mm_min_ s.

(** [MinMaxScaler.inverse_transform] on one cell of a float32 column: the
    two in-place steps [X -= min_] and [X /= scale_] each compute in
    float64 and store the result as float32. *)
Definition minmax_inverse_transform32 (s : MinMaxScaler) (x : float) : float :=
  Np.float32 (Np.float32 (x - mm_min_ s) / mm_scale_ s).

End Sk.

(** What the fitting routines of scikit-learn accept: the scalers exactly
    the arrays their validation accepts; the ensemble no array its
    validation refuses, and every array it accepts when the number of
    estimators is positive and the contamination is a rate of [(0, 0.5]]. *)
Class SklearnLaws `{Sklearn} : Prop := {
  StandardScaler_fit_accepts :
    forall X, is_Some (StandardScaler_fit X) <-> Sk.check_array_allow_nan X = true;
  IsolationForest_fit_validates :
    forall n_estimators contamination rng X m,
      IsolationForest_fit n_estimators contamination rng X = Some m ->
      Sk.check_array_float32 X = true;
  IsolationForest_fit_accepts :
    forall n_estimators contamination rng X,
      1 <= n_estimators ->
      Sk.valid_contamination contamination = true ->
      Sk.check_array_float32 X = true ->
      is_Some (IsolationForest_fit n_estimators contamination rng X);
  MinMaxScaler_fit_accepts :
    forall values, is_Some (MinMaxScaler_fit values) <-> Sk.check_column values = true
}.

(* ===================================================================== *)
(** ** The model directory *)
(* ===================================================================== *)

(** What [joblib.dump] and [model.save] write: one object per file. *)
Inductive blob : Type :=
| BlobIsolationForest (m : option IsolationForest)
| BlobStandardScaler (s : option StandardScaler)
| BlobMinMaxScaler (s : option MinMaxScaler)
| BlobKeras (m : KerasModel)
| BlobDict (d : gmap string pyval).

(** The files under [MODEL_DIR], by path. *)
Abbreviation filesystem := (gmap string blob).

Module Path.

(** [Path(a) / b]: an absolute right operand replaces the left one.  The
    result is the path as a string; for a right operand without a slash it
    names one file under [a], and two such names give the same file only
    when they are equal. *)
Definition join (a b : string) : string :=
  match b with
  | String c _ => if Ascii.eqb c (Ascii.ascii_of_nat 47) then b else a +:+ "/" +:+ b
  | _ => a +:+ "/" +:+ b
  end.

(** [p.exists()] *)
Definition exists_ (fs : filesystem) (p : string) : bool :=
  bool_decide (is_Some (fs !! p)).

End Path.

(** The ambient state a call can observe: the clock and the process-wide
    random generator. *)
Record Env `{Sklearn} : Type := {
  now : Z;
  global_rng : rng_state
}.

(* ===================================================================== *)
(** ** models/isolation_forest.py *)
(* ===================================================================== *)

Inductive Severity : Type := normal | warning | critical.

Module IsolationForestAnomalyDetector.

Section WithLibraries.
Context `{Sklearn}.
Variable cfg : Settings.

(** The attributes of a detector object. *)
Record t : Type := {
  contamination : pyval;
  model : option IsolationForest;      (* [None] until trained or loaded *)
  scaler : option StandardScaler;      (* [None] is the unfitted [StandardScaler()] *)
  feature_names : pyval;
  trained_at : pyval;
  training_samples : pyval
}.

(** One row of the table [predict] returns.  [severity] is [None] when the
    column was not added; [feature_values] are the echoed feature columns.
    The feature names are taken to differ from the four result columns. *)
Record ResultRow : Type := {
  timestamp : option float;
  is_anomaly : bool;
  anomaly_score : float;
  severity : option Severity;
  feature_values : list (string * float)
}.

(** [__init__(contamination)] *)
Definition init (contamination : pyval) : t := {|
  contamination := py_or contamination (PyFloat (ISOLATION_FOREST_CONTAMINATION cfg));
  model := None;
  scaler := None;
  feature_names := PyNone;
  trained_at := PyNone;
  training_samples := PyInt 0
|}.

(** [train(df, features)].  The result is the detector after the call; when
    the call raises, the caller's object is left as the routers leave it:
    dropped. *)
Definition train (env : Env) (self : t) (df : DataFrame) (features : list string)
    : result t :=
  if Pd.nrows df <? MIN_TRAINING_SAMPLES cfg then
    Raise (ValueError (NotEnoughDataMsg (MIN_TRAINING_SAMPLES cfg) (Pd.nrows df)))
  else
    X ← Pd.select df features;
    fitted_scaler ← lib "StandardScaler.fit_transform" (StandardScaler_fit X);
    let X_scaled := map (ss_transform_row fitted_scaler) X in
    fitted ← lib "IsolationForest.fit"
               (IsolationForest_fit (ISOLATION_FOREST_N_ESTIMATORS cfg)
                  (contamination self)
                  (Sk.check_random_state (Some 42) (global_rng env))
                  X_scaled);
    Ok {| contamination := contamination self;
          model := Some fitted;
          scaler := Some fitted_scaler;
          feature_names := PyStrList features;
          trained_at := PyDatetime (now env);
          training_samples := PyInt (Pd.nrows df) |}.

(** The names an iteration over [self.feature_names] visits. *)
Definition iter_feature_names (self : t) : result (list string) :=
  match feature_names self with
  | PyStrList l => Ok l
  | _ => Raise TypeError
  end.

(** The lambda of the severity column. *)
Definition severity_of (score_threshold_critical : float) (anomaly_score : float)
    (is_anomaly : bool) : Severity :=
  if PrimFloat.ltb anomaly_score score_threshold_critical then critical
  else if is_anomaly then warning
  else normal.

(** Row [i] of [result_df], from the columns [predict] assigns in turn:
    [timestamp] (when the input has it), [is_anomaly], [anomaly_score],
    [severity] (when there is at least one score) and the feature columns. *)
Definition result_row (timestamps : option (list float)) (names : list string)
    (X : matrix) (predictions : list Z) (scores : list float) (i : nat) : ResultRow :=
  let score := nth i scores nan in
  let flag := (nth i predictions 1 =? -1) in
  {| timestamp := c ← timestamps; c !! i;
     is_anomaly := flag;
     anomaly_score := score;
     severity :=
       if 0 <? len scores
       then Some (severity_of (Np.percentile scores 1%float) score flag)
       else None;
     feature_values := combine names (nth i X []) |}.

(** [predict(df)] *)
Definition predict (self : t) (df : DataFrame) : result (list ResultRow) :=
  match model self with
  | None => Raise (ValueError NotTrainedMsg)
  | Some m =>
      names ← iter_feature_names self;
      if negb (forallb (Pd.in_columns df) names) then
        let missing := filter (fun f => negb (Pd.in_columns df f)) names in
        Raise (ValueError (MissingFeaturesMsg missing))
      else
        X ← Pd.select df names;
        X_scaled ← Sk.transform (scaler self) X;
        predictions ← Sk.predict m X_scaled;
        scores ← Sk.score_samples m X_scaled;
        let timestamps := Pd.column df "timestamp" in
        Ok (map (result_row timestamps names X predictions scores)
                (seq 0 (length (df_rows df))))
  end.

Definition model_path (device_uuid : string) : string :=
  Path.join (Path.join (MODEL_DIR cfg) "isolation_forest") (device_uuid +:+ "_model.joblib").
Definition scaler_path (device_uuid : string) : string :=
  Path.join (Path.join (MODEL_DIR cfg) "isolation_forest") (device_uuid +:+ "_scaler.joblib").
Definition metadata_path (device_uuid : string) : string :=
  Path.join (Path.join (MODEL_DIR cfg) "isolation_forest") (device_uuid +:+ "_metadata.joblib").

(** The metadata dict [save] writes. *)
Definition metadata_of (self : t) : gmap string pyval :=
  <["training_samples" := training_samples self]>
    (<["trained_at" := isoformat_or_none (trained_at self)]>
       (<["contamination" := contamination self]>
          (<["feature_names" := feature_names self]> ∅))).

(** [save(device_uuid)]: three [joblib.dump]s, the metadata last. *)
Definition save (self : t) (device_uuid : string) (fs : filesystem) : filesystem :=
  <[metadata_path device_uuid := BlobDict (metadata_of self)]>
    (<[scaler_path device_uuid := BlobStandardScaler (scaler self)]>
       (<[model_path device_uuid := BlobIsolationForest (model self)]> fs)).

(** [joblib.load(path)] where the code expects an ensemble, a scaler or a
    dict.  A file that holds an object of another class is refused here;
    [save] never produces one. *)
Definition load_model (fs : filesystem) (p : string) : result (option IsolationForest) :=
  match fs !! p with
  | Some (BlobIsolationForest m) => Ok m
  | Some _ => Raise (LibraryError "unexpected object in file")
  | None => Raise (FileNotFoundError p)
  end.

Definition load_scaler (fs : filesystem) (p : string) : result (option StandardScaler) :=
  match fs !! p with
  | Some (BlobStandardScaler s) => Ok s
  | Some _ => Raise (LibraryError "unexpected object in file")
  | None => Raise (FileNotFoundError p)
  end.

Definition load_dict (fs : filesystem) (p : string) : result (gmap string pyval) :=
  match fs !! p with
  | Some (BlobDict d) => Ok d
  | Some _ => Raise (LibraryError "unexpected object in file")
  | None => Raise (FileNotFoundError p)
  end.

(** [load(device_uuid)].  The last [print] joins [self.feature_names], so a
    detector without a name list ends the call with [TypeError]. *)
Definition load (self : t) (device_uuid : string) (fs : filesystem) : result t :=
  if negb (Path.exists_ fs (model_path device_uuid)) then
    Raise (FileNotFoundError (model_path device_uuid))
  else
    m ← load_model fs (model_path device_uuid);
    s ← load_scaler fs (scaler_path device_uuid);
    self ←
      (if Path.exists_ fs (metadata_path device_uuid) then
         metadata ← load_dict fs (metadata_path device_uuid);
         let trained_at_str := dict_get metadata "trained_at" PyNone in
         trained ←
           (if truthy trained_at_str then fromisoformat trained_at_str
            else Ok (trained_at self));
         Ok {| contamination := dict_get metadata "contamination" PyNone;
               model := m;
               scaler := s;
               feature_names := dict_get metadata "feature_names" PyNone;
               trained_at := trained;
               training_samples := dict_get metadata "training_samples" (PyInt 0) |}
       else
         Ok {| contamination := contamination self;
               model := m;
               scaler := s;
               feature_names := feature_names self;
               trained_at := trained_at self;
               training_samples := training_samples self |});
    _ ← iter_feature_names self;
    Ok self.

(** [get_model_info()] *)
Definition get_model_info (self : t) : gmap string pyval :=
  <["n_estimators" := PyInt (ISOLATION_FOREST_N_ESTIMATORS cfg)]>
    (<["contamination" := contamination self]>
       (<["features" := feature_names self]>
          (<["training_samples" := training_samples self]>
             (<["trained_at" := isoformat_or_none (trained_at self)]>
                (<["trained" := PyBool (bool_decide (is_Some (model self)))]> ∅))))).

End WithLibraries.

End IsolationForestAnomalyDetector.

(* ===================================================================== *)
(** ** models/lstm_forecast.py *)
(* ===================================================================== *)

Module LSTMForecaster.

Section WithLibraries.
Context `{Sklearn} `{Keras}.
Variable cfg : Settings.

(** The attributes of a forecaster object. *)
Record t : Type := {
  sequence_length : pyval;
  forecast_horizon : pyval;
  model : option KerasModel;           (* [None] until trained or loaded *)
  scaler : option MinMaxScaler;        (* [None] is the unfitted [MinMaxScaler()] *)
  trained_at : pyval;
  training_samples : pyval;
  history : option History
}.

(** One row of the table [predict] returns. *)
Record ForecastRow : Type := {
  timestamp : float;
  predicted_value : float;
  confidence_lower : float;
  confidence_upper : float
}.

(** The integer an attribute holds, where the code does arithmetic on it. *)
Definition as_int (v : pyval) : result Z :=
  match v with
  | PyInt z => Ok z
  | PyBool b => Ok (if b then 1 else 0)
  | _ => Raise TypeError
  end.

(** [__init__(sequence_length, forecast_horizon)] *)
Definition init (sequence_length forecast_horizon : pyval) : t := {|
  sequence_length := py_or sequence_length (PyInt (LSTM_SEQUENCE_LENGTH cfg));
  forecast_horizon := py_or forecast_horizon (PyInt (LSTM_FORECAST_HORIZON cfg));
  model := None;
  scaler := None;
  trained_at := PyNone;
  training_samples := PyInt 0;
  history := None
|}.

(** [prepare_sequences(data)]: the lists [X] and [y] the loop appends to.
    With a sequence length and a horizon that are not negative all windows
    of [X] are equally long, and so are those of [y], which is what the
    closing [np.array] calls need. *)
Definition prepare_sequences {A} (self : t) (data : list A)
    : result (list (list A) * list (list A)) :=
  L ← as_int (sequence_length self);
  Hz ← as_int (forecast_horizon self);
  let indices := range (len data - L - Hz) in
  Ok (map (fun i => slice data i (i + L)) indices,
      map (fun i => slice data (i + L) (i + L + Hz)) indices).

(** [int(x)] of a finite float: truncation towards zero. *)
Definition int_of_float (x : float) : Z :=
  match Prim2SF x with
  | S754_finite s m e =>
      let v := Z.shiftl (Z.pos m) e in if s then - v else v
  | _ => 0
  end.

(** [l[-1]] *)
Definition last_item {A} (l : list A) : result A :=
  match last l with
  | Some a => Ok a
  | None => Raise IndexError
  end.

(** [train(df, value_column)].  As for the detector, the result is the
    forecaster after a call that returns. *)
Definition train (env : Env) (self : t) (df : DataFrame) (value_column : string)
    : result t :=
  values ← match Pd.column df value_column with
           | Some c => Ok c
           | None => Raise (KeyError value_column)
           end;
  fitted_scaler ← lib "MinMaxScaler.fit_transform" (MinMaxScaler_fit values);
  let scaled_values := map (Sk.minmax_transform fitted_scaler) values in
  '(X, y) ← prepare_sequences self scaled_values;
  if len X <? MIN_TRAINING_SAMPLES cfg then
    Raise (ValueError (NotEnoughDataMsg (MIN_TRAINING_SAMPLES cfg) (len X)))
  else
    let split_idx := int_of_float (Np.float_of_Z (len X) * 0.8)%float in
    let X_train := slice X 0 split_idx in
    let X_val := slice_from X split_idx in
    let y_train := slice y 0 split_idx in
    let y_val := slice_from y split_idx in
    L ← as_int (sequence_length self);
    Hz ← as_int (forecast_horizon self);
    '(network, hist) ← lib "Sequential.fit"
                         (Sequential_fit L Hz (LSTM_EPOCHS cfg) (LSTM_BATCH_SIZE cfg)
                            X_train y_train X_val y_val);
    _ ← last_item (loss hist);
    _ ← last_item (val_loss hist);
    Ok {| sequence_length := sequence_length self;
          forecast_horizon := forecast_horizon self;
          model := Some network;
          scaler := Some fitted_scaler;
          trained_at := PyDatetime (now env);
          training_samples := PyInt (len X);
          history := Some hist |}.

(** The band of one forecast step.  [predicted_value] is a cell of a
    float32 column; [1.96 * recent_std] is a float64 scalar. *)
Definition confidence_band (predicted_value recent_std : float) : float * float :=
  let half_width := (1.96 * recent_std)%float in
  (Np.clip_lower 0 (Np.sub_scalar32 predicted_value half_width),
   Np.add_scalar32 predicted_value half_width).

(** [predict(recent_data, value_column)] *)
Definition predict (self : t) (recent_data : DataFrame) (value_column : string)
    : result (list ForecastRow) :=
  match model self with
  | None => Raise (ValueError NotTrainedMsg)
  | Some network =>
      column ← match Pd.column recent_data value_column with
               | Some c => Ok c
               | None => Raise (KeyError value_column)
               end;
      L ← as_int (sequence_length self);
      let values := slice_from column (- L) in
      if len values <? L then
        Raise (ValueError (NeedRecentPointsMsg L (len values)))
      else
        fitted ← lib "NotFittedError" (scaler self);
        scaled_values ←
          (if Sk.check_column values then Ok (map (Sk.minmax_transform fitted) values)
           else Raise (LibraryError "MinMaxScaler.transform"));
        (* reshape(1, sequence_length, 1) *)
        X ← (if len scaled_values =? L then Ok scaled_values
             else Raise (LibraryError "cannot reshape array"));
        (* the network returns a float32 array *)
        let scaled_predictions := map Np.float32 (forward network X) in
        predictions ←
          (if Sk.check_column scaled_predictions
           then Ok (map (Sk.minmax_inverse_transform32 fitted) scaled_predictions)
           else Raise (LibraryError "MinMaxScaler.inverse_transform"));
        stamps ← match Pd.column recent_data "timestamp" with
                 | Some c => Ok c
                 | None => Raise (KeyError "timestamp")
                 end;
        last_timestamp ← last_item stamps;
        Hz ← as_int (forecast_horizon self);
        periods ← (if Hz + 1 <? 0 then Raise (LibraryError "negative number of periods")
                   else Ok (Hz + 1));
        (* date_range(start, periods, freq='60S')[1:] *)
        let future_timestamps :=
          map (fun k => (last_timestamp + Np.float_of_Z (60 * k))%float)
              (slice_from (range periods) 1) in
        (* pd.DataFrame({...}): the two columns must be equally long *)
        if negb (len future_timestamps =? len predictions) then
          Raise (LibraryError "All arrays must be of the same length")
        else
          let recent_std := Np.std column in
          Ok (map (fun '(ts, p) =>
                     {| timestamp := ts;
                        predicted_value := p;
                        confidence_lower := fst (confidence_band p recent_std);
                        confidence_upper := snd (confidence_band p recent_std) |})
                  (combine future_timestamps predictions))
  end.

(** [field.replace('.', '_')] *)
Fixpoint sanitize (field : string) : string :=
  match field with
  | EmptyString => EmptyString
  | String c rest =>
      String (if Ascii.eqb c (Ascii.ascii_of_nat 46) then Ascii.ascii_of_nat 95 else c)
             (sanitize rest)
  end.

Definition artifact_path (device_uuid field suffix : string) : string :=
  Path.join (Path.join (MODEL_DIR cfg) "lstm")
            (device_uuid +:+ "_" +:+ sanitize field +:+ suffix).

Definition model_path (device_uuid field : string) : string :=
  artifact_path device_uuid field "_lstm.h5".
Definition scaler_path (device_uuid field : string) : string :=
  artifact_path device_uuid field "_scaler.joblib".
Definition metadata_path (device_uuid field : string) : string :=
  artifact_path device_uuid field "_metadata.joblib".

(** The metadata dict [save] writes. *)
Definition metadata_of (self : t) (field : string) : gmap string pyval :=
  <["field" := PyStr field]>
    (<["training_samples" := training_samples self]>
       (<["trained_at" := isoformat_or_none (trained_at self)]>
          (<["forecast_horizon" := forecast_horizon self]>
             (<["sequence_length" := sequence_length self]> ∅)))).

(** [save(device_uuid, field)]: [self.model.save] comes first and needs a
    network. *)
Definition save (self : t) (device_uuid field : string) (fs : filesystem)
    : result filesystem :=
  match model self with
  | None => Raise AttributeError
  | Some network =>
      Ok (<[metadata_path device_uuid field := BlobDict (metadata_of self field)]>
            (<[scaler_path device_uuid field := BlobMinMaxScaler (scaler self)]>
               (<[model_path device_uuid field := BlobKeras network]> fs)))
  end.

Definition load_network (fs : filesystem) (p : string) : result KerasModel :=
  match fs !! p with
  | Some (BlobKeras m) => Ok m
  | Some _ => Raise (LibraryError "unexpected object in file")
  | None => Raise (FileNotFoundError p)
  end.

Definition load_scaler (fs : filesystem) (p : string) : result (option MinMaxScaler) :=
  match fs !! p with
  | Some (BlobMinMaxScaler s) => Ok s
  | Some _ => Raise (LibraryError "unexpected object in file")
  | None => Raise (FileNotFoundError p)
  end.

(** [load(device_uuid, field)] *)
Definition load (self : t) (device_uuid field : string) (fs : filesystem) : result t :=
  if negb (Path.exists_ fs (model_path device_uuid field)) then
    Raise (FileNotFoundError (model_path device_uuid field))
  else
    network ← load_network fs (model_path device_uuid field);
    s ← load_scaler fs (scaler_path device_uuid field);
    if Path.exists_ fs (metadata_path device_uuid field) then
      metadata ← IsolationForestAnomalyDetector.load_dict fs
                   (metadata_path device_uuid field);
      let trained_at_str := dict_get metadata "trained_at" PyNone in
      trained ←
        (if truthy trained_at_str then fromisoformat trained_at_str
         else Ok (trained_at self));
      Ok {| sequence_length := dict_get metadata "sequence_length" (sequence_length self);
            forecast_horizon := dict_get metadata "forecast_horizon" (forecast_horizon self);
            model := Some network;
            scaler := s;
            trained_at := trained;
            training_samples := dict_get metadata "training_samples" (PyInt 0);
            history := history self |}
    else
      Ok {| sequence_length := sequence_length self;
            forecast_horizon := forecast_horizon self;
            model := Some network;
            scaler := s;
            trained_at := trained_at self;
            training_samples := training_samples self;
            history := history self |}.

(** [get_model_info()] *)
Definition get_model_info (self : t) : gmap string pyval :=
  <["batch_size" := PyInt (LSTM_BATCH_SIZE cfg)]>
    (<["epochs" := PyInt (LSTM_EPOCHS cfg)]>
       (<["forecast_horizon" := forecast_horizon self]>
          (<["sequence_length" := sequence_length self]>
             (<["training_samples" := training_samples self]>
                (<["trained_at" := isoformat_or_none (trained_at self)]>
                   (<["trained" := PyBool (bool_decide (is_Some (model self)))]> ∅)))))).

End WithLibraries.

End LSTMForecaster.

(* ===================================================================== *)
(** ** services/data_fetcher.py, as the routers see it *)
(* ===================================================================== *)

(** The telemetry store behind a [DataFetcher]: whether [connect()] returns,
    and the table each query method returns for its arguments. *)
Record DataFetcher : Type := {
  connect : result unit;
  fetch_device_history :
    forall (device_uuid field : string) (hours : Z), result DataFrame;
  fetch_multi_metric_history :
    forall (device_uuid : string) (hours : Z), result DataFrame
}.

(* ===================================================================== *)
(** ** The routers *)
(* ===================================================================== *)

Module Http.

(** The [detail] of the [HTTPException]s the routers raise. *)
Inductive detail : Type :=
| NotEnoughSamples (got : Z)           (* "Not enough data. Need 100+ samples, got {got}" *)
| NoDataForPeriod                      (* "No data found for specified time period" *)
| ModelNotTrained                      (* "Model not trained. Call ... train endpoint first." *)
| NotEnoughRecentData (need : pyval) (got : Z)
| TrainingFailed (e : pyexn)           (* "Training failed: {e}" *)
| DetectionFailed (e : pyexn)          (* "Detection failed: {e}" *)
| PredictionFailed (e : pyexn).        (* "Prediction failed: {e}" *)

(** How the body of a handler ends: it returns, or an exception leaves it. *)
Inductive outcome (A : Type) : Type :=
| Returned (a : A)
| Raised (e : pyexn)
| RaisedHTTP (status_code : Z) (d : detail).
Arguments Returned {A} a.
Arguments Raised {A} e.
Arguments RaisedHTTP {A} status_code d.

#[export] Instance outcome_ret : MRet outcome := fun A a => Returned a.
#[export] Instance outcome_bind : MBind outcome := fun A B k o =>
  match o with
  | Returned a => k a
  | Raised e => Raised e
  | RaisedHTTP s d => RaisedHTTP s d
  end.

(** A call of model or fetcher code inside a handler. *)
Definition call {A} (r : result A) : outcome A :=
  match r with
  | Ok a => Returned a
  | Raise e => Raised e
  end.

(** What the client receives. *)
Inductive response (A : Type) : Type :=
| Http200 (body : A)
| HttpError (status_code : Z) (d : detail).
Arguments Http200 {A} body.
Arguments HttpError {A} status_code d.

Definition status {A} (r : response A) : Z :=
  match r with
  | Http200 _ => 200
  | HttpError s _ => s
  end.

End Http.
Export Http.

(** routers/anomalies.py *)
Module Anomalies.

Import IsolationForestAnomalyDetector.

Section WithSettings.
Variable cfg : Settings.

Record AnomalyPoint : Type := {
  ap_timestamp : float;
  ap_is_anomaly : bool;
  ap_anomaly_score : float;
  ap_severity : Severity;
  cpu_usage : float;
  memory_usage_percent : float;
  disk_usage_percent : float;
  network_total : float
}.

Record DetectResponse : Type := {
  device_uuid : string;
  analyzed_points : Z;
  anomalies_detected : Z;
  anomalies : list AnomalyPoint;
  model_info : gmap string pyval
}.

(** [row[key]] on the two columns that may be absent. *)
Definition required {A} (key : string) (o : option A) : result A :=
  match o with
  | Some a => Ok a
  | None => Raise (KeyError key)
  end.

(** [float(row.get(key, 0))] *)
Definition row_get (row : ResultRow) (key : string) : float :=
  match list_find (fun kv => String.eqb key (fst kv) = true) (feature_values row) with
  | Some (_, (_, v)) => v
  | None => 0%float
  end.

(** The [AnomalyPoint(...)] built from one row of [anomalies_df]. *)
Definition anomaly_point (row : ResultRow) : result AnomalyPoint :=
  ts ← required "timestamp" (timestamp row);
  sev ← required "severity" (severity row);
  Ok {| ap_timestamp := ts;
        ap_is_anomaly := is_anomaly row;
        ap_anomaly_score := anomaly_score row;
        ap_severity := sev;
        cpu_usage := row_get row "cpu_usage";
        memory_usage_percent := row_get row "memory_usage_percent";
        disk_usage_percent := row_get row "disk_usage_percent";
        network_total := row_get row "network_total" |}.

(** The [try] block of [detect_anomalies]. *)
Definition detect_body (fs : filesystem) (fetcher : DataFetcher)
    (device_uuid : string) (hours : Z) : outcome DetectResponse :=
  detector ← call (load cfg (init cfg PyNone) device_uuid fs);
  _ ← call (connect fetcher);
  df ← call (fetch_multi_metric_history fetcher device_uuid hours);
  if Pd.nrows df =? 0 then RaisedHTTP 404 NoDataForPeriod
  else
    results ← call (predict detector df);
    let anomalies_df := filter (fun row => is_anomaly row = true) results in
    anomalies ← call (mapM anomaly_point (firstn 100 anomalies_df));
    Returned {| device_uuid := device_uuid;
                analyzed_points := len results;
                anomalies_detected := len anomalies_df;
                anomalies := anomalies;
                model_info := get_model_info cfg detector |}.

(** [detect_anomalies(device_uuid, hours)] with its [except] clauses, in
    their order. *)
Definition detect_anomalies (fs : filesystem) (fetcher : DataFetcher)
    (device_uuid : string) (hours : Z) : response DetectResponse :=
  match detect_body fs fetcher device_uuid hours with
  | Returned r => Http200 r
  | Raised (FileNotFoundError _) => HttpError 404 ModelNotTrained
  | RaisedHTTP s d => HttpError s d
  | Raised e => HttpError 500 (DetectionFailed e)
  end.

End WithSettings.

End Anomalies.

(** routers/forecasts.py *)
Module Forecasts.

Import LSTMForecaster.

Section WithLibraries.
Context `{Sklearn} `{Keras}.
Variable cfg : Settings.

Record TrainForecastResponse : Type := {
  tf_device_uuid : string;
  tf_field : string;
  tf_training_samples : pyval;
  tf_sequence_length : pyval;
  tf_forecast_horizon : pyval
}.

(** The [try] block of [train_forecaster]; the new file system is part of
    what a returning call leaves behind. *)
Definition train_body (env : Env) (fs : filesystem) (fetcher : DataFetcher)
    (device_uuid field : string) (hours : Z)
    : outcome (TrainForecastResponse * filesystem) :=
  _ ← call (connect fetcher);
  df ← call (fetch_device_history fetcher device_uuid field hours);
  if Pd.nrows df <? 100 then RaisedHTTP 400 (NotEnoughSamples (Pd.nrows df))
  else
    forecaster ← call (train cfg env (init cfg PyNone PyNone) df "value");
    fs' ← call (save cfg forecaster device_uuid field fs);
    Returned ({| tf_device_uuid := device_uuid;
                 tf_field := field;
                 tf_training_samples := training_samples forecaster;
                 tf_sequence_length := sequence_length forecaster;
                 tf_forecast_horizon := forecast_horizon forecaster |}, fs').

(** [train_forecaster(device_uuid, field, hours)] with its [except] clauses. *)
Definition train_forecaster (env : Env) (fs : filesystem) (fetcher : DataFetcher)
    (device_uuid field : string) (hours : Z)
    : response (TrainForecastResponse * filesystem) :=
  match train_body env fs fetcher device_uuid field hours with
  | Returned r => Http200 r
  | RaisedHTTP s d => HttpError s d
  | Raised e => HttpError 500 (TrainingFailed e)
  end.

Record Prediction : Type := {
  p_timestamp : float;
  p_predicted_value : float;
  p_confidence_lower : float;
  p_confidence_upper : float
}.

Record ForecastResponse : Type := {
  fr_device_uuid : string;
  fr_field : string;
  predictions : list Prediction;
  fr_model_info : gmap string pyval
}.

(** The [try] block of [predict_future]: the handler asks the store for at
    least two hours of history and hands the whole table to [predict]. *)
Definition predict_body (fs : filesystem) (fetcher : DataFetcher)
    (device_uuid field : string) : outcome ForecastResponse :=
  forecaster ← call (load cfg (init cfg PyNone PyNone) device_uuid field fs);
  L ← call (as_int (sequence_length forecaster));
  let hours_needed := Z.max 2 (L / 60 + 1) in
  _ ← call (connect fetcher);
  df ← call (fetch_device_history fetcher device_uuid field hours_needed);
  if Pd.nrows df <? L then
    RaisedHTTP 400 (NotEnoughRecentData (sequence_length forecaster) (Pd.nrows df))
  else
    predictions_df ← call (predict forecaster df "value");
    Returned {| fr_device_uuid := device_uuid;
                fr_field := field;
                predictions :=
                  map (fun row =>
                         {| p_timestamp := timestamp row;
                            p_predicted_value := predicted_value row;
                            p_confidence_lower := confidence_lower row;
                            p_confidence_upper := confidence_upper row |})
                      predictions_df;
                fr_model_info := get_model_info cfg forecaster |}.

(** [predict_future(device_uuid, field)] with its [except] clauses. *)
Definition predict_future (fs : filesystem) (fetcher : DataFetcher)
    (device_uuid field : string) : response ForecastResponse :=
  match predict_body fs fetcher device_uuid field with
  | Returned r => Http200 r
  | Raised (FileNotFoundError _) => HttpError 404 ModelNotTrained
  | RaisedHTTP s d => HttpError s d
  | Raised e => HttpError 500 (PredictionFailed e)
  end.

End WithLibraries.

End Forecasts.

(* ===================================================================== *)
(** ** Concrete libraries, models and tables for the examples *)
(* ===================================================================== *)

Module Examples.

Local Open Scope float_scope.

(** A small stand-in for scikit-learn.  The generator state is an integer;
    the fits refuse what [check_array] refuses, and the ensemble also a
    number of estimators below 1 and a contamination outside (0, 0.5]; the
    fitted scalers leave the values as they are; the fitted ensemble scores
    a sample by its first feature divided by -100, shifted by the generator
    state it was built from, and flags the scores below -0.6. *)
Definition toy_sklearn : Sklearn := {|
  rng_state := Z;
  RandomState := fun seed => seed;
  StandardScaler_fit := fun X =>
    if Sk.check_array_allow_nan X
    then Some {| ss_transform_row := fun row => row |}
    else None;
  IsolationForest_fit := fun n_estimators contamination rng X =>
    if (1 <=? n_estimators)%Z && Sk.valid_contamination contamination
       && Sk.check_array_float32 X
    then Some {| if_score_sample := fun row =>
                   nth 0 row nan / (-100) + Np.float_of_Z (rng - 42);
                 offset_ := -0.6 |}
    else None;
  MinMaxScaler_fit := fun values =>
    if Sk.check_column values
    then Some {| mm_scale_ := 1; mm_min_ := 0 |}
    else None
|}.

(** A stand-in for Keras: the fitted network answers 0.5 at every step. *)
Definition toy_keras : Keras := {|
  Sequential_fit := fun L Hz epochs batch_size X_train y_train X_val y_val =>
    Some ({| forward := fun _ => repeat 0.5 (Z.to_nat Hz) |},
          {| loss := [0.1]; val_loss := [0.1] |})
|}.

Definition features : list string := ["cpu_usage"; "memory_usage_percent"].

(** A fitted detector: sample score = first feature / -100, flagged below
    [offset]. *)
Definition detector_with_offset (offset : float) : IsolationForestAnomalyDetector.t := {|
  IsolationForestAnomalyDetector.contamination := PyFloat 0.01;
  IsolationForestAnomalyDetector.model :=
    Some {| if_score_sample := fun row => nth 0 row nan / (-100); offset_ := offset |};
  IsolationForestAnomalyDetector.scaler := Some {| ss_transform_row := fun row => row |};
  IsolationForestAnomalyDetector.feature_names := PyStrList features;
  IsolationForestAnomalyDetector.trained_at := PyDatetime 1700000000;
  IsolationForestAnomalyDetector.training_samples := PyInt 100
|}.

(** Two readings, scored -0.5 and -0.4. *)
Definition two_readings : DataFrame := {|
  df_columns := ["timestamp"; "cpu_usage"; "memory_usage_percent"];
  df_rows := [[0; 50; 61]; [60; 40; 62]]
|}.

(** [n] readings, one a minute, with cpu usage 1, 2, ..., n. *)
Definition readings (n : nat) : DataFrame := {|
  df_columns := ["timestamp"; "cpu_usage"; "memory_usage_percent"];
  df_rows := map (fun k => [Np.float_of_Z (60 * Z.of_nat k); Np.float_of_Z (Z.of_nat k); 50])
                 (seq 1 n)
|}.

(** The model directory after the detector that flags every negative score
    was saved for device "dev-1". *)
Definition saved_models : filesystem :=
  IsolationForestAnomalyDetector.save settings (detector_with_offset 0) "dev-1" ∅.

(** A telemetry store that answers every multi-metric query with [df]. *)
Definition store_with (df : DataFrame) : DataFetcher := {|
  connect := Ok tt;
  fetch_device_history := fun _ _ _ => Ok df;
  fetch_multi_metric_history := fun _ _ => Ok df
|}.

(** A series [v(k) = k] for [k = 1 .. n], one point a minute. *)
Definition series (n : nat) : DataFrame := {|
  df_columns := ["timestamp"; "value"];
  df_rows := map (fun k => [Np.float_of_Z (60 * Z.of_nat k); Np.float_of_Z (Z.of_nat k)])
                 (seq 1 n)
|}.

(** A fitted forecaster with [L = 2] and [Hz = 1] that answers 0.5. *)
Definition small_forecaster : LSTMForecaster.t := {|
  LSTMForecaster.sequence_length := PyInt 2;
  LSTMForecaster.forecast_horizon := PyInt 1;
  LSTMForecaster.model := Some {| forward := fun _ => [0.5] |};
  LSTMForecaster.scaler := Some {| mm_scale_ := 1; mm_min_ := 0 |};
  LSTMForecaster.trained_at := PyDatetime 1700000000;
  LSTMForecaster.training_samples := PyInt 100;
  LSTMForecaster.history := None
|}.

(** Three recent points 0, 1, 1: one more than the forecaster's window. *)
Definition three_points : DataFrame := {|
  df_columns := ["timestamp"; "value"];
  df_rows := [[0; 0]; [60; 1]; [120; 1]]
|}.

Definition windower_example : LSTMForecaster.t :=
  LSTMForecaster.init settings (PyInt 2) (PyInt 1).

Definition env_a : @Env toy_sklearn :=
  @Build_Env toy_sklearn 1700000000%Z (7%Z : @rng_state toy_sklearn).
Definition env_b : @Env toy_sklearn :=
  @Build_Env toy_sklearn 1700003600%Z (8%Z : @rng_state toy_sklearn).

End Examples.

(* ===================================================================== *)
(** ** The remaining handlers of the routers *)
(* ===================================================================== *)

(** The handlers below raise further [HTTPException]s; their ends and
    responses are those of [Http], over this larger set of details. *)
Module Handlers.

Inductive detail : Type :=
| NotEnoughSamples (got : Z)             (* "Not enough data. Need 100+ samples, got {got}" *)
| NotEnoughFeatures (got : Z) (features : list string)
                                          (* "Not enough features available. Need at least 2, ..." *)
| NotTrainedForDevice                    (* "Model not trained for this device" *)
| NotTrainedForDeviceField               (* "Model not trained for this device/field" *)
| TrainingFailed (e : pyexn)             (* "Training failed: {e}" *)
| Str (e : pyexn).                       (* str(e) *)

Inductive outcome (A : Type) : Type :=
| Returned (a : A)
| Raised (e : pyexn)
| RaisedHTTP (status_code : Z) (d : detail).
Arguments Returned {A} a.
Arguments Raised {A} e.
Arguments RaisedHTTP {A} status_code d.

#[export] Instance outcome_ret : MRet outcome := fun A a => Returned a.
#[export] Instance outcome_bind : MBind outcome := fun A B k o =>
  match o with
  | Returned a => k a
  | Raised e => Raised e
  | RaisedHTTP s d => RaisedHTTP s d
  end.

Definition call {A} (r : result A) : outcome A :=
  match r with
  | Ok a => Returned a
  | Raise e => Raised e
  end.

Inductive response (A : Type) : Type :=
| Http200 (body : A)
| HttpError (status_code : Z) (d : detail).
Arguments Http200 {A} body.
Arguments HttpError {A} status_code d.

Definition status {A} (r : response A) : Z :=
  match r with
  | Http200 _ => 200
  | HttpError s _ => s
  end.

End Handlers.

(** routers/anomalies.py: [train_anomaly_detector] and [get_model_info] *)
Module AnomalyRouter.

Import IsolationForestAnomalyDetector.
Import Handlers.

Section WithLibraries.
Context `{Sklearn}.
Variable cfg : Settings.

Record TrainResponse : Type := {
  tr_device_uuid : string;
  tr_training_samples : Z;
  tr_features : list string;
  tr_contamination : pyval
}.

Record ModelInfoResponse : Type := {
  mi_device_uuid : string;
  mi_model_info : gmap string pyval
}.

Definition all_possible_features : list string :=
  ["cpu_usage"; "memory_usage_percent"; "disk_usage_percent"; "uptime"; "temperature"].

(** [df[f].notna().sum() > 0] for a column of the table. *)
Definition has_value (df : DataFrame) (f : string) : bool :=
  match Pd.column df f with
  | Some c => existsb (fun x => negb (Np.is_nan x)) c
  | None => false
  end.

(** [[f for f in all_possible_features
      if f in df.columns and df[f].notna().sum() > 0]] *)
Definition available_features (df : DataFrame) : list string :=
  filter (fun f => Pd.in_columns df f && has_value df f) all_possible_features.

(** The [try] block of [train_anomaly_detector]; the new model directory is
    part of what a returning call leaves behind.  [contamination] is the
    query parameter: a float or [None]. *)
Definition train_body (env : Env) (fs : filesystem) (fetcher : DataFetcher)
    (device_uuid : string) (hours : Z) (contamination : option float)
    : outcome (TrainResponse * filesystem) :=
  _ ← call (connect fetcher);
  df ← call (fetch_multi_metric_history fetcher device_uuid hours);
  if Pd.nrows df <? 100 then
    RaisedHTTP 400 (NotEnoughSamples (Pd.nrows df))
  else
    let features := available_features df in
    if len features <? 2 then
      RaisedHTTP 400 (NotEnoughFeatures (len features) features)
    else
      let detector :=
        init cfg (match contamination with Some c => PyFloat c | None => PyNone end) in
      detector ← call (train cfg env detector df features);
      Returned
        ({| tr_device_uuid := device_uuid;
            tr_training_samples := Pd.nrows df;
            tr_features := features;
            tr_contamination := IsolationForestAnomalyDetector.contamination detector |},
         save cfg detector device_uuid fs).

(** [train_anomaly_detector(device_uuid, hours, contamination)] with its
    [except] clauses. *)
Definition train_anomaly_detector (env : Env) (fs : filesystem) (fetcher : DataFetcher)
    (device_uuid : string) (hours : Z) (contamination : option float)
    : response (TrainResponse * filesystem) :=
  match train_body env fs fetcher device_uuid hours contamination with
  | Returned r => Http200 r
  | RaisedHTTP s d => HttpError s d
  | Raised e => HttpError 500 (TrainingFailed e)
  end.

(** [get_model_info(device_uuid)] *)
Definition get_model_info (fs : filesystem) (device_uuid : string)
    : response ModelInfoResponse :=
  match load cfg (init cfg PyNone) device_uuid fs with
  | Ok detector =>
      Http200
        {| mi_device_uuid := device_uuid;
           mi_model_info := IsolationForestAnomalyDetector.get_model_info cfg detector |}
  | Raise (FileNotFoundError _) => HttpError 404 NotTrainedForDevice
  | Raise e => HttpError 500 (Str e)
  end.

End WithLibraries.

End AnomalyRouter.

(** routers/forecasts.py: [get_model_info] *)
Module ForecastRouter.

Import LSTMForecaster.
Import Handlers.

Section WithSettings.
Variable cfg : Settings.

Record ModelInfoResponse : Type := {
  mi_device_uuid : string;
  mi_field : string;
  mi_model_info : gmap string pyval
}.

(** [get_model_info(device_uuid, field)] *)
Definition get_model_info (fs : filesystem) (device_uuid field : string)
    : response ModelInfoResponse :=
  match load cfg (init cfg PyNone PyNone) device_uuid field fs with
  | Ok forecaster =>
      Http200
        {| mi_device_uuid := device_uuid;
           mi_field := field;
           mi_model_info := LSTMForecaster.get_model_info cfg forecaster |}
  | Raise (FileNotFoundError _) => HttpError 404 NotTrainedForDeviceField
  | Raise e => HttpError 500 (Str e)
  end.

End WithSettings.

End ForecastRouter.

(* ===================================================================== *)
(** ** services/data_fetcher.py *)
(* ===================================================================== *)

Module Fetcher.

Local Open Scope float_scope.

(** The two history queries, by what they are parameterised with. *)
Inductive query : Type :=
| DeviceHistory (jsonb_path device_uuid : string) (hours : Z)
| MultiMetricHistory (device_uuid : string) (hours : Z).

(** An open database connection: what [pd.read_sql_query] returns for a
    query, [None] when the driver raises. *)
Record Connection : Type := {
  read_sql_query : query -> option DataFrame
}.

(** The attribute of a [DataFetcher] object. *)
Record t : Type := {
  connection : option Connection
}.

(** How a fetch ends: with a table, with the [RuntimeError] of a fetcher
    that is not connected, or with another exception. *)
Inductive fetched (A : Type) : Type :=
| Fetched (a : A)
| NotConnected
| Failed (e : pyexn).
Arguments Fetched {A} a.
Arguments NotConnected {A}.
Arguments Failed {A} e.

(** [__init__()] *)
Definition init : t := {| connection := None |}.

(** [connect()], given what [psycopg2.connect] does: it returns a
    connection or raises. *)
Definition connect (self : t) (db : option Connection) : result t :=
  match db with
  | Some c => Ok {| connection := Some c |}
  | None => Raise (LibraryError "psycopg2.connect")
  end.

(** [s.split('.')]: never empty; an empty string splits into one empty part. *)
Fixpoint split_dots (s : string) : list string :=
  match s with
  | EmptyString => [EmptyString]
  | String c rest =>
      if Ascii.eqb c (Ascii.ascii_of_nat 46) then EmptyString :: split_dots rest
      else match split_dots rest with
           | part :: parts => String c part :: parts
           | [] => [String c EmptyString]
           end
  end.

(** ['{' + ','.join(field.split('.')) + '}'] *)
Definition jsonb_path (field : string) : string :=
  "{" +:+ String.concat "," (split_dots field) +:+ "}".

(** [fetch_device_history(device_uuid, field, hours)] *)
Definition fetch_device_history (self : t) (device_uuid field : string) (hours : Z)
    : fetched DataFrame :=
  match connection self with
  | None => NotConnected
  | Some c =>
      match read_sql_query c (DeviceHistory (jsonb_path field) device_uuid hours) with
      | Some df => Fetched df
      | None => Failed (LibraryError "pd.read_sql_query")
      end
  end.

(** [df[name] = values]: an existing column is overwritten in place, a new
    one is appended on the right. *)
Definition assign (df : DataFrame) (name : string) (values : list float) : DataFrame :=
  match Pd.index_of name (df_columns df) with
  | Some i =>
      {| df_columns := df_columns df;
         df_rows := zip_with (fun row v => <[i := v]> row) (df_rows df) values |}
  | None =>
      {| df_columns := df_columns df ++ [name];
         df_rows := zip_with (fun row v => row ++ [v]) (df_rows df) values |}
  end.

(** [(df[a] / df[b]) * 100] *)
Definition percent_of (df : DataFrame) (a b : string) : list float :=
  map (fun row => default nan (Pd.cell df row a) / default nan (Pd.cell df row b) * 100)
      (df_rows df).

(** The two [if ... else] blocks that compute a usage percentage. *)
Definition with_percent (df : DataFrame) (name used total : string) : DataFrame :=
  if Pd.in_columns df used && Pd.in_columns df total
  then assign df name (percent_of df used total)
  else assign df name (map (fun _ => 0) (df_rows df)).

(** [df.dropna(subset=[name])] *)
Definition dropna (df : DataFrame) (name : string) : result DataFrame :=
  if Pd.in_columns df name then
    Ok {| df_columns := df_columns df;
          df_rows := filter (fun row => negb (Np.is_nan (default nan (Pd.cell df row name))))
                            (df_rows df) |}
  else Raise (KeyError name).

(** [fetch_multi_metric_history(device_uuid, hours)] *)
Definition fetch_multi_metric_history (self : t) (device_uuid : string) (hours : Z)
    : fetched DataFrame :=
  match connection self with
  | None => NotConnected
  | Some c =>
      match read_sql_query c (MultiMetricHistory device_uuid hours) with
      | None => Failed (LibraryError "pd.read_sql_query")
      | Some df =>
          let df := with_percent df "memory_usage_percent" "memory_used" "memory_total" in
          let df := with_percent df "disk_usage_percent" "disk_used" "disk_total" in
          match dropna df "cpu_usage" with
          | Ok df => Fetched df
          | Raise e => Failed e
          end
      end
  end.

End Fetcher.

(* ===================================================================== *)
(** ** max31855/max31855_reader.py *)
(* ===================================================================== *)

Module MAX31855.

Local Open Scope float_scope.

(** The attributes of a reader that the conversions use: the unit letter
    and the 32-bit frame last read ([None] before the first [read]). *)
Record t : Type := {
  units : string;
  data : option Z
}.

(** How [checkErrors] and [get] end: they return, or raise [MAX31855Error]
    with a message, or fail on a missing attribute or an unread frame. *)
Inductive ended (A : Type) : Type :=
| Done (a : A)
| MAX31855Error (value : string)
| OtherError (e : pyexn).
Arguments Done {A} a.
Arguments MAX31855Error {A} value.
Arguments OtherError {A} e.

(** [read()]: 32 clock pulses; [level i] is the data pin at pulse [i].  Each
    pulse shifts the frame left and sets the low bit from the pin. *)
Definition read_frame (level : nat -> bool) : Z :=
  fold_left (fun bytesin i =>
               let bytesin := Z.shiftl bytesin 1 in
               if level i then Z.lor bytesin 1 else bytesin)
            (seq 0 32) 0%Z.

Definition read (self : t) (level : nat -> bool) : t :=
  {| units := units self; data := Some (read_frame level) |}.

(** [checkErrors(data_32)]: what it prints, when it returns. *)
Definition checkErrors (data_32 : Z) : ended (option string) :=
  if negb (Z.land data_32 65536 =? 0)%Z then
    if negb (Z.land data_32 1 =? 0)%Z then
      Done (Some "MAX31855Error(No Connection)")
    else if negb (Z.land data_32 2 =? 0)%Z then
      Done (Some "Thermocouple reports short to ground")
    else if negb (Z.land data_32 4 =? 0)%Z then
      MAX31855Error "Thermocouple short to VCC"
    else
      MAX31855Error "Unknown Error"
  else Done None.

(** The count [convert_tc_data] multiplies by 0.25. *)
Definition tc_counts (tc_data : Z) : Z :=
  if negb (Z.land tc_data 8192 =? 0)%Z
  then (Z.land (Z.lnot tc_data) 8191 + 1) * -1
  else tc_data.

(** [convert_tc_data(tc_data)] *)
Definition convert_tc_data (tc_data : Z) : float :=
  Np.float_of_Z (tc_counts tc_data) * 0.25.

(** The count [convert_rj_data] multiplies by 0.0625. *)
Definition rj_counts (rj_data : Z) : Z :=
  if negb (Z.land rj_data 2048 =? 0)%Z
  then (Z.land (Z.lnot rj_data) 2047 + 1) * -1
  else rj_data.

(** [convert_rj_data(rj_data)] *)
Definition convert_rj_data (rj_data : Z) : float :=
  Np.float_of_Z (rj_counts rj_data) * 0.0625.

(** [data_to_tc_temperature(data_32)] *)
Definition data_to_tc_temperature (data_32 : Z) : float :=
  convert_tc_data (Z.land (Z.shiftr data_32 18) 16383).

(** [data_to_rj_temperature(data_32)] *)
Definition data_to_rj_temperature (data_32 : Z) : float :=
  convert_rj_data (Z.land (Z.shiftr data_32 4) 4095).

Definition to_c (celsius : float) : float := celsius.
Definition to_k (celsius : float) : float := celsius + 273.15.
Definition to_f (celsius : float) : float := celsius * 9.0 / 5.0 + 32.

(** [getattr(self, "to_" + self.units)] *)
Definition to_units (self : t) : ended (float -> float) :=
  if String.eqb (units self) "c" then Done to_c
  else if String.eqb (units self) "k" then Done to_k
  else if String.eqb (units self) "f" then Done to_f
  else OtherError AttributeError.

(** [get()]: read, check, convert the thermocouple field. *)
Definition get (self : t) (level : nat -> bool) : ended float :=
  let frame := read_frame level in
  match checkErrors frame with
  | Done _ =>
      match to_units self with
      | Done convert => Done (convert (data_to_tc_temperature frame))
      | MAX31855Error v => MAX31855Error v
      | OtherError e => OtherError e
      end
  | MAX31855Error v => MAX31855Error v
  | OtherError e => OtherError e
  end.

(** [get_rj()]: read, convert the reference-junction field; no check. *)
Definition get_rj (self : t) (level : nat -> bool) : ended float :=
  let frame := read_frame level in
  match to_units self with
  | Done convert => Done (convert (data_to_rj_temperature frame))
  | MAX31855Error v => MAX31855Error v
  | OtherError e => OtherError e
  end.

End MAX31855.

(* ===================================================================== *)
(** ** sensors/canbus-simulator/canbus_simulator.py: [CANMessage] *)
(* ===================================================================== *)

Module CANMessage.

(** A message: identifier and data, a list of Python ints. *)
Record t : Type := {
  can_id : Z;
  data : list Z;
  extended : bool
}.

(** How [to_bytes] ends: with the bytes, with the [ValueError] of
    [bytes(data)] on an element outside 0..255, or with [struct.error]. *)
Inductive packed : Type :=
| Bytes (b : list Z)
| BytesValueError
| StructError.

(** [n.to_bytes(4, 'little')] for [0 <= n < 2^32], as [struct.pack('<I')]
    lays it out. *)
Definition le32 (n : Z) : list Z :=
  [Z.land n 255; Z.land (Z.shiftr n 8) 255;
   Z.land (Z.shiftr n 16) 255; Z.land (Z.shiftr n 24) 255].

(** [b.ljust(8, b'\x00')] followed by the truncation of the ['8s'] field. *)
Definition field_8s (b : list Z) : list Z :=
  firstn 8 (b ++ repeat 0 (8 - length b)).

(** [to_bytes()]: [struct.pack('<I B 8s', can_id, dlc, bytes(data).ljust(8))]. *)
Definition to_bytes (self : t) : packed :=
  let dlc := len (data self) in
  if negb (forallb (fun x => (0 <=? x) && (x <? 256)) (data self)) then BytesValueError
  else if negb ((0 <=? can_id self) && (can_id self <? 4294967296)) then StructError
  else if negb (dlc <? 256) then StructError
  else Bytes (le32 (can_id self) ++ [dlc] ++ field_8s (data self)).

End CANMessage.

(* ===================================================================== *)
(** ** Device ids *)
(* ===================================================================== *)

(** A device id that does not start with a slash: joined to a directory it
    stays below it. *)
Definition relative (key : string) : Prop :=
  match key with
  | EmptyString => True
  | String c _ => Ascii.eqb c (Ascii.ascii_of_nat 47) = false
  end.

(** A device id without any slash, as one segment of the request path is:
    the file names built from it are single path components. *)
Definition no_slash (key : string) : Prop :=
  forallb (fun c => negb (Ascii.eqb c (Ascii.ascii_of_nat 47)))
    (list_ascii_of_string key) = true.

(* ===================================================================== *)
(** ** More example data *)
(* ===================================================================== *)

Module MoreExamples.

(** The answer of the anomaly training endpoint for "dev-1" on one hundred
    readings, with an empty model directory. *)
Definition training_answer
    : Handlers.response (AnomalyRouter.TrainResponse * filesystem) :=
  @AnomalyRouter.train_anomaly_detector Examples.toy_sklearn settings Examples.env_a ∅
    (Examples.store_with (Examples.readings 100)) "dev-1" 168 None.

(** Its body and the model directory it leaves. *)
Definition trained_response : AnomalyRouter.TrainResponse :=
  match training_answer with
  | Handlers.Http200 (r, _) => r
  | Handlers.HttpError _ _ =>
      {| AnomalyRouter.tr_device_uuid := ""; AnomalyRouter.tr_training_samples := 0;
         AnomalyRouter.tr_features := []; AnomalyRouter.tr_contamination := PyNone |}
  end.

Definition trained_models : filesystem :=
  match training_answer with
  | Handlers.Http200 (_, fs) => fs
  | Handlers.HttpError _ _ => ∅
  end.

(** The model directory after the small forecaster was saved for "dev-1"
    and the field "system.cpuUsage". *)
Definition saved_forecasters : filesystem :=
  match LSTMForecaster.save settings Examples.small_forecaster "dev-1" "system.cpuUsage" ∅ with
  | Ok fs => fs
  | Raise _ => ∅
  end.

(** One hundred readings, the first without a memory value. *)
Definition readings_with_gap : DataFrame := {|
  df_columns := df_columns (Examples.readings 100);
  df_rows := [0; 100; nan]%float :: df_rows (Examples.readings 99)
|}.

(** A series of 120 points, one a minute, the last of them infinite. *)
Definition series_with_infinity : DataFrame := {|
  df_columns := df_columns (Examples.series 120);
  df_rows := df_rows (Examples.series 119) ++ [[7200; infinity]%float]
|}.

(** A result of the multi-metric query: three rows, the second without a
    cpu usage. *)
Definition telemetry : DataFrame := {|
  df_columns := ["timestamp"; "cpu_usage"; "memory_used"; "memory_total";
                 "disk_used"; "disk_total"; "uptime"; "temperature"];
  df_rows := [[0; 50; 2; 8; 10; 40; 3600; 45];
              [60; nan; 2; 8; 10; 40; 3660; 45];
              [120; 40; 4; 8; 20; 40; 3720; 46]]%float
|}.

(** A database that answers the multi-metric query with [telemetry] and the
    single-field query with the three points of the examples. *)
Definition database : Fetcher.Connection := {|
  Fetcher.read_sql_query := fun q =>
    match q with
    | Fetcher.MultiMetricHistory _ _ => Some telemetry
    | Fetcher.DeviceHistory _ _ _ => Some Examples.three_points
    end
|}.

Definition connected : Fetcher.t := {| Fetcher.connection := Some database |}.

(** A reader in degrees Celsius, and a data pin that is high at pulses 15
    and 31 only: the fault bit and the open-circuit bit of the frame. *)
Definition celsius_reader : MAX31855.t :=
  {| MAX31855.units := "c"; MAX31855.data := None |}.

Definition open_circuit (pulse : nat) : bool :=
  Nat.eqb pulse 15 || Nat.eqb pulse 31.

(** The engine-speed message of the simulator at 2000 rpm:
    [CANMessage(0x100, list(rpm.to_bytes(2, 'big') + b'\x00' * 6))]. *)
Definition engine_rpm : CANMessage.t := {|
  CANMessage.can_id := 256;
  CANMessage.data := [7; 208; 0; 0; 0; 0; 0; 0];
  CANMessage.extended := false
|}.

End MoreExamples.

(* ===================================================================== *)
(** * Properties *)
(* ===================================================================== *)

(** ** Slices and ranges *)

Lemma slice_bound_inside (n i : Z) : 0 <= i <= n -> slice_bound n i = i.
Proof.
  intros Hi. unfold slice_bound.
  destruct (Z.ltb_spec i 0); lia.
Qed.

Lemma slice_inside {A} (l : list A) (a b : Z) :
  0 <= a -> a <= b -> b <= len l ->
  slice l a b = firstn (Z.to_nat (b - a)) (skipn (Z.to_nat a) l).
Proof.
  intros Ha Hab Hb. unfold slice, len in *.
  rewrite !slice_bound_inside by lia. reflexivity.
Qed.

Lemma len_slice_inside {A} (l : list A) (a b : Z) :
  0 <= a -> a <= b -> b <= len l -> len (slice l a b) = b - a.
Proof.
  intros Ha Hab Hb. rewrite slice_inside by assumption.
  unfold len in *. rewrite length_take, length_drop. lia.
Qed.

Lemma length_range (n : Z) : length (range n) = Z.to_nat n.
Proof. unfold range. now rewrite length_map, length_seq. Qed.

Lemma len_range (n : Z) : len (range n) = Z.max 0 n.
Proof. unfold len. rewrite length_range. lia. Qed.

Lemma lookup_range (n i : Z) :
  0 <= i < n -> range n !! Z.to_nat i = Some i.
Proof.
  intros Hi. unfold range.
  rewrite list_lookup_fmap, lookup_seq_lt by lia.
  simpl. f_equal. lia.
Qed.

(** ** The sequence windower *)

(** C2.  With sequence length [L >= 0] and horizon [Hz >= 0], the windower
    returns on every series; it produces [max(0, N - L - Hz)] inputs and as
    many targets, and for each index [i] below that count the [i]-th input
    is [series[i : i+L]], of length exactly [L], and the [i]-th target is
    [series[i+L : i+L+Hz]], of length exactly [Hz]. *)
Theorem prepare_sequences_windows {A} (self : LSTMForecaster.t) (data : list A)
    (L Hz : Z) :
  LSTMForecaster.sequence_length self = PyInt L ->
  LSTMForecaster.forecast_horizon self = PyInt Hz ->
  0 <= L -> 0 <= Hz ->
  exists X y,
    LSTMForecaster.prepare_sequences self data = Ok (X, y) /\
    len X = Z.max 0 (len data - L - Hz) /\
    len y = Z.max 0 (len data - L - Hz) /\
    forall i, 0 <= i < len data - L - Hz ->
      X !! Z.to_nat i = Some (slice data i (i + L)) /\
      slice data i (i + L) = firstn (Z.to_nat L) (skipn (Z.to_nat i) data) /\
      len (slice data i (i + L)) = L /\
      y !! Z.to_nat i = Some (slice data (i + L) (i + L + Hz)) /\
      slice data (i + L) (i + L + Hz)
        = firstn (Z.to_nat Hz) (skipn (Z.to_nat (i + L)) data) /\
      len (slice data (i + L) (i + L + Hz)) = Hz.
Proof.
  intros HL HH HL0 HH0.
  unfold LSTMForecaster.prepare_sequences. rewrite HL, HH. cbn.
  eexists _, _. split; [reflexivity|].
  split; [unfold len at 1; rewrite length_map; apply len_range|].
  split; [unfold len at 1; rewrite length_map; apply len_range|].
  intros i Hi.
  rewrite !list_lookup_fmap, !lookup_range by lia. cbn.
  rewrite !len_slice_inside by lia.
  rewrite !slice_inside by lia.
  replace (i + L - i) with L by lia.
  replace (i + L + Hz - (i + L)) with Hz by lia.
  repeat split; lia.
Qed.

(** The windower at [L = 2], [Hz = 1] on a series of five points. *)
Lemma prepare_sequences_windows_witness :
  exists X y,
    LSTMForecaster.prepare_sequences Examples.windower_example [10; 11; 12; 13; 14] = Ok (X, y) /\
    len X = 2 /\ len y = 2 /\
    X = [[10; 11]; [11; 12]] /\ y = [[12]; [13]].
Proof.
  destruct (prepare_sequences_windows Examples.windower_example [10; 11; 12; 13; 14] 2 1
              eq_refl eq_refl ltac:(lia) ltac:(lia))
    as (X & y & Hrun & HX & Hy & _).
  exists X, y. vm_compute in Hrun. injection Hrun as <- <-.
  repeat split; reflexivity.
Defined.


(** ** The anomaly detector *)

Import IsolationForestAnomalyDetector.

Ltac run_result :=
  unfold mbind, result_bind, Py.bind, lib in *.

Lemma select_ok (df : DataFrame) (names : list string) (X : matrix) :
  Pd.select df names = Ok X ->
  X = Pd.values df names.
Proof.
  unfold Pd.select.
  destruct (filter _ names); [|discriminate].
  now intros [= <-].
Qed.

Lemma select_present (df : DataFrame) (names : list string) :
  forallb (Pd.in_columns df) names = true ->
  Pd.select df names
  = Ok (Pd.values df names).
Proof.
  intros Hall. unfold Pd.select.
  replace (filter (fun f => negb (Pd.in_columns df f)) names) with (@nil string);
    [reflexivity|].
  symmetry. induction names as [|f names IH]; [reflexivity|].
  cbn in Hall. apply andb_prop in Hall as [Hf Hrest].
  rewrite filter_cons. rewrite decide_False; [now apply IH|].
  rewrite Hf. cbn. intros [].
Qed.

Lemma transform_ok (scaler : option StandardScaler) (X X_scaled : matrix) :
  Sk.transform scaler X = Ok X_scaled ->
  exists s, scaler = Some s /\ X <> [] /\ X_scaled = map (ss_transform_row s) X.
Proof.
  unfold Sk.transform. destruct scaler as [s|]; [|discriminate].
  destruct (Sk.check_array_allow_nan X) eqn:Hcheck; [|discriminate].
  intros [= <-]. exists s. repeat split.
  intros ->. discriminate Hcheck.
Qed.

Lemma transform_checked (scaler : option StandardScaler) (X X_scaled : matrix) :
  Sk.transform scaler X = Ok X_scaled -> Sk.check_array_allow_nan X = true.
Proof.
  unfold Sk.transform. destruct scaler as [s|]; [|discriminate].
  now destruct (Sk.check_array_allow_nan X).
Qed.

Lemma in_columns_elem_of (df : DataFrame) (f : string) :
  Pd.in_columns df f = true <-> f ∈ df_columns df.
Proof.
  unfold Pd.in_columns. rewrite existsb_exists. split.
  - intros (c & Hin & Heq). apply String.eqb_eq in Heq as ->.
    now apply list_elem_of_In.
  - intros Hin. exists f. split; [now apply list_elem_of_In|apply String.eqb_refl].
Qed.

(** [predict] and [score_samples] of the ensemble validate the same input
    in the same way. *)
Lemma predict_checked (m : IsolationForest) (X : matrix) :
  Sk.predict m X
  = if Sk.check_array_float32 X then Ok (Sk.labels m X)
    else Raise (LibraryError "IsolationForest.score_samples").
Proof.
  unfold Sk.predict, Sk.decision_function, Sk.score_samples, Sk.labels.
  unfold mbind, result_bind, Py.bind.
  destruct (Sk.check_array_float32 X); [|reflexivity].
  now rewrite map_map.
Qed.

(** What a returning [predict] has computed. *)
Lemma predict_ok (self : t) (df : DataFrame) (rows : list ResultRow) :
  predict self df = Ok rows ->
  exists m s names,
    model self = Some m /\ scaler self = Some s /\
    feature_names self = PyStrList names /\
    forallb (Pd.in_columns df) names = true /\
    df_rows df <> [] /\
    let X := Pd.values df names in
    let X_scaled := map (ss_transform_row s) X in
    rows = map (result_row (Pd.column df "timestamp") names X
                  (Sk.labels m X_scaled) (Sk.scores m X_scaled))
               (seq 0 (length (df_rows df))).
Proof.
  unfold predict, iter_feature_names. intros Hrun.
  destruct (model self) as [m|]; [|discriminate].
  destruct (feature_names self) as [| | | | |names| |]; try discriminate.
  run_result.
  destruct (forallb (Pd.in_columns df) names) eqn:Hall; [|discriminate].
  cbn [negb] in Hrun. rewrite (select_present _ _ Hall) in Hrun.
  destruct (Sk.transform _ _) as [X_scaled|] eqn:Htr; [|discriminate].
  apply transform_ok in Htr as (s & Hs & Hne & ->).
  rewrite predict_checked in Hrun. unfold Sk.score_samples in Hrun.
  destruct (Sk.check_array_float32 _); [|discriminate].
  injection Hrun as <-.
  exists m, s, names. repeat split; try assumption.
  intros Hnil. apply Hne. unfold Pd.values. now rewrite Hnil.
Qed.

(** What the library has checked when [predict] returns. *)
Lemma predict_ok_checked (self : t) (df : DataFrame) (rows : list ResultRow)
    (s : StandardScaler) (names : list string) :
  predict self df = Ok rows ->
  scaler self = Some s -> feature_names self = PyStrList names ->
  Sk.check_array_allow_nan (Pd.values df names) = true /\
  Sk.check_array_float32 (map (ss_transform_row s) (Pd.values df names)) = true.
Proof.
  unfold predict, iter_feature_names. intros Hrun Hs Hnames.
  destruct (model self) as [m|]; [|discriminate].
  rewrite Hnames, Hs in Hrun.
  run_result.
  destruct (forallb (Pd.in_columns df) names) eqn:Hall; [|discriminate].
  cbn [negb] in Hrun. rewrite (select_present _ _ Hall) in Hrun.
  unfold Sk.transform in Hrun.
  destruct (Sk.check_array_allow_nan _); [|discriminate].
  rewrite predict_checked in Hrun.
  destruct (Sk.check_array_float32 _); [|discriminate].
  split; reflexivity.
Qed.






Lemma all_present_iff (df : DataFrame) (F : list string) :
  forallb (Pd.in_columns df) F = true <-> (forall f, f ∈ F -> f ∈ df_columns df).
Proof.
  rewrite forallb_forall. split.
  - intros Hall f Hf. apply in_columns_elem_of, Hall. now apply list_elem_of_In.
  - intros Hall f Hf. apply in_columns_elem_of, Hall. now apply list_elem_of_In.
Qed.

Lemma some_absent_iff (df : DataFrame) (F : list string) :
  forallb (Pd.in_columns df) F = false <-> (exists f, f ∈ F /\ f ∉ df_columns df).
Proof.
  split.
  - intros Hnot. induction F as [|f F IH]; [discriminate|].
    cbn in Hnot. apply andb_false_iff in Hnot as [Hf|Hrest].
    + exists f. split; [apply list_elem_of_here|].
      intros Hin%in_columns_elem_of. congruence.
    + destruct (IH Hrest) as (g & Hg & Habs).
      exists g. split; [now apply list_elem_of_further|assumption].
  - intros (f & Hf & Habs).
    destruct (forallb (Pd.in_columns df) F) eqn:Hall; [|reflexivity].
    exfalso. apply Habs. now apply (proj1 (all_present_iff df F) Hall).
Qed.

(** The result of [predict] on a trained detector, by cases on the names. *)
Lemma predict_trained (self : t) (df : DataFrame) (m : IsolationForest)
    (F : list string) :
  model self = Some m -> feature_names self = PyStrList F ->
  predict self df =
    if forallb (Pd.in_columns df) F then
      X_scaled ← Sk.transform (scaler self)
                   (Pd.values df F);
      if Sk.check_array_float32 X_scaled then
        Ok (map (result_row (Pd.column df "timestamp") F
                   (Pd.values df F)
                   (Sk.labels m X_scaled) (Sk.scores m X_scaled))
                (seq 0 (length (df_rows df))))
      else Raise (LibraryError "IsolationForest.score_samples")
    else
      Raise (ValueError (MissingFeaturesMsg
               (filter (fun f => negb (Pd.in_columns df f)) F))).
Proof.
  intros Hm HF. unfold predict, iter_feature_names. rewrite Hm, HF.
  run_result.
  destruct (forallb (Pd.in_columns df) F) eqn:Hall; cbn [negb]; [|reflexivity].
  rewrite (select_present _ _ Hall).
  destruct (Sk.transform (scaler self) (Pd.values df F)) as [X_scaled|e];
    [|reflexivity].
  rewrite predict_checked. unfold Sk.score_samples.
  now destruct (Sk.check_array_float32 X_scaled).
Qed.

(** C5.  For a detector trained with the feature names [F] and any input
    table: [predict] raises the missing-features error if and only if some
    name of [F] is not a column of the table, and the error then lists
    exactly the absent names; when every name of [F] is a column, [predict]
    either returns or fails inside scikit-learn (an unfitted scaler, a
    table without rows, or cells the library does not accept), never on the
    feature names. *)
Theorem predict_feature_mismatch (self : t) (df : DataFrame) (m : IsolationForest)
    (F : list string) :
  model self = Some m -> feature_names self = PyStrList F ->
  ((exists missing, predict self df = Raise (ValueError (MissingFeaturesMsg missing)))
     <-> (exists f, f ∈ F /\ f ∉ df_columns df)) /\
  (forall missing, predict self df = Raise (ValueError (MissingFeaturesMsg missing)) ->
     forall f, f ∈ missing <-> f ∈ F /\ f ∉ df_columns df) /\
  ((forall f, f ∈ F -> f ∈ df_columns df) ->
     (exists rows, predict self df = Ok rows) \/
     (exists what, predict self df = Raise (LibraryError what))).
Proof.
  intros Hm HF.
  destruct (forallb (Pd.in_columns df) F) eqn:Hall.
  - assert (Hres : (exists rows, predict self df = Ok rows) \/
                   (exists what, predict self df = Raise (LibraryError what))).
    { rewrite (predict_trained self df m F Hm HF), Hall.
      unfold Sk.transform. run_result.
      destruct (scaler self); [|right; eauto].
      destruct (Sk.check_array_allow_nan _); [|right; eauto].
      destruct (Sk.check_array_float32 _); [left; eauto|right; eauto]. }
    split; [|split].
    + split.
      * intros (missing & Habs). destruct Hres as [(rows & Hr)|(what & Hr)];
          rewrite Hr in Habs; discriminate.
      * intros Hex%some_absent_iff. congruence.
    + intros missing Habs. destruct Hres as [(rows & Hr)|(what & Hr)];
        rewrite Hr in Habs; discriminate.
    + intros _. exact Hres.
  - rewrite (predict_trained self df m F Hm HF), Hall. split; [|split].
    + split; [intros _; now apply some_absent_iff|eauto].
    + intros missing [= <-] f. rewrite list_elem_of_filter.
      rewrite <- in_columns_elem_of.
      destruct (Pd.in_columns df f); cbn; intuition congruence.
    + intros Hall'%all_present_iff. congruence.
Qed.

(** A detector trained on cpu and memory usage, asked to score a table that
    has no memory column and then the table of two readings. *)
Lemma predict_feature_mismatch_witness :
  predict (Examples.detector_with_offset (-0.6)%float)
          {| df_columns := ["timestamp"; "cpu_usage"]; df_rows := [[0; 50]%float] |}
    = Raise (ValueError (MissingFeaturesMsg ["memory_usage_percent"])) /\
  ((exists rows,
      predict (Examples.detector_with_offset (-0.6)%float) Examples.two_readings = Ok rows) \/
   (exists what,
      predict (Examples.detector_with_offset (-0.6)%float) Examples.two_readings
        = Raise (LibraryError what))).
Proof.
  split; [vm_compute; reflexivity|].
  apply (proj2 (proj2 (predict_feature_mismatch
                  (Examples.detector_with_offset (-0.6)%float) Examples.two_readings
                  _ Examples.features eq_refl eq_refl))).
  apply all_present_iff. vm_compute. reflexivity.
Defined.

(** The stand-in library keeps the laws of the fitting routines. *)
Lemma toy_sklearn_laws : @SklearnLaws Examples.toy_sklearn.
Proof.
  split; cbn.
  - intros X. destruct (Sk.check_array_allow_nan X); split;
      intros Hyp; try reflexivity; try discriminate; [eauto|now destruct Hyp].
  - intros n c rng X m.
    destruct (Sk.check_array_float32 X); [reflexivity|].
    now rewrite andb_false_r.
  - intros n c rng X Hn Hc HX. apply Z.leb_le in Hn. rewrite Hn, Hc, HX. eauto.
  - intros values. destruct (Sk.check_column values); split;
      intros Hyp; try reflexivity; try discriminate; [eauto|now destruct Hyp].
Qed.

Section TrainingOutcomes.
Context `{Sklearn} `{Laws : !SklearnLaws}.
Variable cfg : Settings.

(** C6, as the code has it.  [train] on a table with fewer rows than the
    minimum number of training samples raises the not-enough-data error.
    Whenever [train] returns, the detector stores exactly the given name
    list and the row count.  On a table with at least the minimum number of
    rows and every given name a column, it is scikit-learn that decides:
    [train] fails in the scaler when the selected array has no column or an
    infinite cell, and in the ensemble when the scaled array has a cell
    that is not finite in float32 (a NaN, an infinity or too large a
    value), so a table with one missing cell cannot be trained on; with an
    array the scaler accepts, a positive number of
    estimators and a contamination in (0, 0.5], [train] returns if the
    scaled cells are all finite. *)
Theorem train_stores_feature_names (env : Env) (self : t) (df : DataFrame)
    (features : list string) :
  (Pd.nrows df < MIN_TRAINING_SAMPLES cfg ->
     train cfg env self df features
     = Raise (ValueError (NotEnoughDataMsg (MIN_TRAINING_SAMPLES cfg) (Pd.nrows df)))) /\
  (forall trained,
     train cfg env self df features = Ok trained ->
     feature_names trained = PyStrList features /\
     training_samples trained = PyInt (Pd.nrows df) /\
     contamination trained = contamination self) /\
  (MIN_TRAINING_SAMPLES cfg <= Pd.nrows df ->
   (forall f, f ∈ features -> f ∈ df_columns df) ->
   (Sk.check_array_allow_nan (Pd.values df features) = false ->
      train cfg env self df features
      = Raise (LibraryError "StandardScaler.fit_transform")) /\
   (forall s,
      StandardScaler_fit (Pd.values df features) = Some s ->
      Sk.check_array_float32 (map (ss_transform_row s) (Pd.values df features)) = false ->
      train cfg env self df features = Raise (LibraryError "IsolationForest.fit")) /\
   (Sk.check_array_allow_nan (Pd.values df features) = true ->
    1 <= ISOLATION_FOREST_N_ESTIMATORS cfg ->
    Sk.valid_contamination (contamination self) = true ->
    exists s,
      StandardScaler_fit (Pd.values df features) = Some s /\
      (Sk.check_array_float32 (map (ss_transform_row s) (Pd.values df features)) = true ->
       exists m trained,
         train cfg env self df features = Ok trained /\
         feature_names trained = PyStrList features /\
         model trained = Some m /\ scaler trained = Some s))).
Proof using Type Laws.
  unfold train. split; [|split].
  - intros Hlt. apply Z.ltb_lt in Hlt. now rewrite Hlt.
  - intros trained.
    destruct (Pd.nrows df <? MIN_TRAINING_SAMPLES cfg); [discriminate|].
    run_result.
    destruct (Pd.select df features) as [X|]; [|discriminate].
    destruct (StandardScaler_fit X) as [s|]; [|discriminate].
    destruct (IsolationForest_fit _ _ _ _) as [m|]; [|discriminate].
    intros [= <-]. repeat split.
  - intros Hge Hpresent.
    apply Z.ltb_ge in Hge. rewrite Hge.
    apply all_present_iff in Hpresent.
    rewrite (select_present _ _ Hpresent). run_result.
    cbn [Sk.check_random_state].
    split; [|split].
    + intros Hbad.
      destruct (StandardScaler_fit (Pd.values df features)) as [s|] eqn:Hs;
        [|reflexivity].
      assert (Hgood : Sk.check_array_allow_nan (Pd.values df features) = true)
        by (apply StandardScaler_fit_accepts; rewrite Hs; eauto).
      congruence.
    + intros s Hs Hbad. rewrite Hs.
      destruct (IsolationForest_fit _ _ _ _) as [m|] eqn:Hm; [|reflexivity].
      apply IsolationForest_fit_validates in Hm. congruence.
    + intros Hgood Hn Hc.
      destruct (proj2 (StandardScaler_fit_accepts (Pd.values df features)) Hgood)
        as (s & Hs).
      exists s. split; [exact Hs|]. intros Hgood32. rewrite Hs.
      destruct (IsolationForest_fit_accepts (ISOLATION_FOREST_N_ESTIMATORS cfg)
                  (contamination self) (RandomState 42)
                  (map (ss_transform_row s) (Pd.values df features)) Hn Hc Hgood32)
        as (m & Hm).
      rewrite Hm. eexists m, _. repeat split.
Qed.

End TrainingOutcomes.

Section Training.
Context `{Sklearn}.
Variable cfg : Settings.

(** C10.  Two [train] calls on the same table and feature list by detectors
    of equal contamination, at whatever time and with whatever state of the
    process-wide random generator, end alike: they raise the same exception,
    or they return detectors with the same ensemble, scaler and feature
    names, whose [predict] returns the same result on every table.  The
    ensemble is built from [RandomState 42], not from the ambient generator. *)
Theorem train_is_deterministic (env1 env2 : Env) (self1 self2 : t) (df : DataFrame)
    (features : list string) :
  contamination self1 = contamination self2 ->
  (forall e, train cfg env1 self1 df features = Raise e <->
             train cfg env2 self2 df features = Raise e) /\
  (forall d1 d2,
     train cfg env1 self1 df features = Ok d1 ->
     train cfg env2 self2 df features = Ok d2 ->
     model d1 = model d2 /\ scaler d1 = scaler d2 /\
     feature_names d1 = feature_names d2 /\
     forall table, predict d1 table = predict d2 table).
Proof.
  intros Hc. unfold train. rewrite <- Hc.
  destruct (Pd.nrows df <? MIN_TRAINING_SAMPLES cfg).
  { split; [reflexivity|discriminate]. }
  run_result.
  destruct (Pd.select df features) as [X|e0]; [|split; [reflexivity|discriminate]].
  destruct (StandardScaler_fit X) as [s|]; [|split; [reflexivity|discriminate]].
  cbn [Sk.check_random_state].
  destruct (IsolationForest_fit _ _ _ _) as [m|]; [|split; [reflexivity|discriminate]].
  split.
  - intros e. split; discriminate.
  - intros d1 d2 [= <-] [= <-]. cbn. repeat split.
Qed.

End Training.

(** [train] on one hundred readings with the stand-in library. *)
Lemma train_stores_feature_names_witness :
  exists trained,
    @train Examples.toy_sklearn settings Examples.env_a (init settings PyNone)
      (Examples.readings 100) Examples.features = Ok trained /\
    feature_names trained = PyStrList ["cpu_usage"; "memory_usage_percent"].
Proof.
  destruct (proj2 (proj2 (proj2 (proj2
              (@train_stores_feature_names Examples.toy_sklearn toy_sklearn_laws
                 settings Examples.env_a (init settings PyNone) (Examples.readings 100)
                 Examples.features))
              ltac:(vm_compute; discriminate)
              ltac:(apply all_present_iff; vm_compute; reflexivity)))
            ltac:(vm_compute; reflexivity) ltac:(vm_compute; discriminate)
            ltac:(vm_compute; reflexivity))
    as (s & Hs & Hreturns).
  vm_compute in Hs. injection Hs as <-.
  destruct Hreturns as (m & trained & Hrun & Hnames & _);
    [vm_compute; reflexivity|].
  exists trained. split; [exact Hrun|exact Hnames].
Defined.

(** C6 as stated fails: one hundred readings with the two usable features
    cpu and memory usage, the first reading without a memory value.  The
    scaler lets the NaN through and the ensemble refuses it. *)
Lemma nan_cell_stops_training :
  Pd.nrows MoreExamples.readings_with_gap = 100 /\
  AnomalyRouter.available_features MoreExamples.readings_with_gap = Examples.features /\
  @train Examples.toy_sklearn settings Examples.env_a (init settings PyNone)
    MoreExamples.readings_with_gap Examples.features
  = Raise (LibraryError "IsolationForest.fit").
Proof. repeat split; vm_compute; reflexivity. Qed.

(** Two trainings on the same hundred readings, an hour apart and with
    different ambient generator states. *)
Lemma train_is_deterministic_witness :
  exists d1 d2,
    @train Examples.toy_sklearn settings Examples.env_a (init settings PyNone)
      (Examples.readings 100) Examples.features = Ok d1 /\
    @train Examples.toy_sklearn settings Examples.env_b (init settings PyNone)
      (Examples.readings 100) Examples.features = Ok d2 /\
    trained_at d1 = PyDatetime 1700000000 /\
    trained_at d2 = PyDatetime 1700003600 /\
    forall table, predict d1 table = predict d2 table.
Proof.
  eexists. eexists.
  split; [vm_compute; reflexivity|].
  split; [vm_compute; reflexivity|].
  split; [reflexivity|]. split; [reflexivity|].
  exact (proj2 (proj2 (proj2 (proj2
           (@train_is_deterministic Examples.toy_sklearn settings
              Examples.env_a Examples.env_b (init settings PyNone) (init settings PyNone)
              (Examples.readings 100) Examples.features eq_refl)
           _ _ eq_refl eq_refl)))).
Defined.

(** ** The forecaster *)

Lemma len_map {A B} (f : A -> B) (l : list A) : len (map f l) = len l.
Proof. unfold len. now rewrite length_map. Qed.

Section ForecasterTraining.
Context `{Sklearn} `{Keras} `{Laws : !SklearnLaws}.
Variable cfg : Settings.

(** C7, as the code has it.  [train] fits the scaler on the series before
    it builds the windows: a series the scaler refuses (no value, or an
    infinite one) ends there, with the scaler's error.  On a series of [N]
    values that the scaler accepts, with a sequence length [L] and a horizon
    [Hz] that are not negative, the windower yields [max(0, N - L - Hz)]
    windows, and [train] raises the not-enough-data error exactly when that
    number is below the minimum number of training samples, whatever [N]
    itself is. *)
Theorem forecaster_train_counts_windows (env : Env) (self : LSTMForecaster.t)
    (df : DataFrame) (value_column : string) (values : list float) (L Hz : Z) :
  Pd.column df value_column = Some values ->
  LSTMForecaster.as_int (LSTMForecaster.sequence_length self) = Ok L ->
  LSTMForecaster.as_int (LSTMForecaster.forecast_horizon self) = Ok Hz ->
  0 <= L -> 0 <= Hz ->
  (Sk.check_column values = false ->
     LSTMForecaster.train cfg env self df value_column
     = Raise (LibraryError "MinMaxScaler.fit_transform")) /\
  (Sk.check_column values = true ->
     exists fitted,
       MinMaxScaler_fit values = Some fitted /\
       (exists X y,
          LSTMForecaster.prepare_sequences self (map (Sk.minmax_transform fitted) values)
          = Ok (X, y) /\
          len X = Z.max 0 (len values - L - Hz)) /\
       (Z.max 0 (len values - L - Hz) < MIN_TRAINING_SAMPLES cfg <->
        LSTMForecaster.train cfg env self df value_column
        = Raise (ValueError (NotEnoughDataMsg (MIN_TRAINING_SAMPLES cfg)
                               (Z.max 0 (len values - L - Hz))))) /\
       (forall need got,
          LSTMForecaster.train cfg env self df value_column
          = Raise (ValueError (NotEnoughDataMsg need got)) ->
          Z.max 0 (len values - L - Hz) < MIN_TRAINING_SAMPLES cfg)).
Proof using Type Laws.
  intros Hcol HL HH HL0 HH0.
  unfold LSTMForecaster.train, LSTMForecaster.prepare_sequences.
  rewrite Hcol. run_result. split.
  - intros Hbad.
    destruct (MinMaxScaler_fit values) as [fitted|] eqn:Hfit; [|reflexivity].
    assert (Hgood : Sk.check_column values = true)
      by (apply MinMaxScaler_fit_accepts; rewrite Hfit; eauto).
    congruence.
  - intros Hgood.
    destruct (proj2 (MinMaxScaler_fit_accepts values) Hgood) as (fitted & Hfit).
    exists fitted. split; [exact Hfit|].
    rewrite Hfit, HL, HH.
    rewrite !len_map, len_range.
    split; [eexists _, _; split; [reflexivity|now rewrite len_map, len_range]|].
    destruct (Z.ltb_spec (Z.max 0 (len values - L - Hz)) (MIN_TRAINING_SAMPLES cfg))
      as [Hlt|Hge].
    + split; [split; [reflexivity|intros _; exact Hlt]|intros _ _ _; exact Hlt].
    + destruct (Sequential_fit _ _ _ _ _ _ _ _) as [[network hist]|].
      * unfold LSTMForecaster.last_item.
        destruct (last (loss hist)), (last (val_loss hist));
          (split; [split; [lia|discriminate]|discriminate]).
      * split; [split; [lia|discriminate]|discriminate].
Qed.

End ForecasterTraining.

Section Forecasting.
Context `{Sklearn} `{Keras}.
Variable cfg : Settings.

(** C3, as the code has it.  When [predict] returns, it returns
    [max(0, Hz)] steps, and every step carries the same band around its
    predicted value, computed in the float32 of the prediction column: with
    [w] the float32 of 1.96 times the standard deviation of the value
    column of the whole table given to [predict] (NaN entries left out),
    the upper bound is the float32 of value plus [w] and the lower bound the
    float32 of value minus [w], raised to 0 when negative.  This is for a
    half-width that is not a finite number of magnitude 3.4e38 or more.
    The table's last [L] values are the whole column when the table has
    exactly [L] rows.  A predicted value 2.0 with deviation 5.0 gets the
    band from 0.0 to the float32 nearest to 11.8. *)
Theorem forecast_confidence_band (self : LSTMForecaster.t) (recent_data : DataFrame)
    (value_column : string) (rows : list LSTMForecaster.ForecastRow) :
  LSTMForecaster.predict self recent_data value_column = Ok rows ->
  (exists column L Hz,
     Pd.column recent_data value_column = Some column /\
     LSTMForecaster.as_int (LSTMForecaster.sequence_length self) = Ok L /\
     LSTMForecaster.as_int (LSTMForecaster.forecast_horizon self) = Ok Hz /\
     len rows = Z.max 0 Hz /\
     (len column = L -> slice_from column (- L) = column) /\
     (Np.keeps_float32 (1.96 * Np.std column) = true ->
      forall row, row ∈ rows ->
        LSTMForecaster.confidence_upper row
        = Np.float32 (LSTMForecaster.predicted_value row
                      + Np.float32 (1.96 * Np.std column))%float /\
        LSTMForecaster.confidence_lower row
        = Np.clip_lower 0
            (Np.float32 (LSTMForecaster.predicted_value row
                         - Np.float32 (1.96 * Np.std column)))%float)) /\
  LSTMForecaster.confidence_band 2.0 5.0 = (0.0, 11.800000190734863)%float /\
  Np.float32 11.8 = 11.800000190734863%float.
Proof.
  intros Hrun. split; [|split; reflexivity].
  unfold LSTMForecaster.predict in Hrun.
  destruct (LSTMForecaster.model self) as [network|]; [|discriminate].
  run_result.
  destruct (Pd.column recent_data value_column) as [column|]; [|discriminate].
  destruct (LSTMForecaster.as_int (LSTMForecaster.sequence_length self)) as [L|];
    [|discriminate].
  destruct (len (slice_from column (- L)) <? L); [discriminate|].
  destruct (LSTMForecaster.scaler self) as [fitted|]; [|discriminate].
  destruct (Sk.check_column (slice_from column (- L))); [|discriminate].
  destruct (len (map _ (slice_from column (- L))) =? L); [|discriminate].
  destruct (Sk.check_column (map Np.float32 _)); [|discriminate].
  destruct (Pd.column recent_data "timestamp") as [stamps|]; [|discriminate].
  destruct (LSTMForecaster.last_item stamps) as [last_timestamp|]; [|discriminate].
  destruct (LSTMForecaster.as_int (LSTMForecaster.forecast_horizon self)) as [Hz|];
    [|discriminate].
  destruct (Z.ltb_spec (Hz + 1) 0) as [|Hperiods]; [discriminate|].
  destruct (len (map _ (slice_from (range (Hz + 1)) 1)) =? len _) eqn:Hsame;
    [|discriminate].
  cbn [negb] in Hrun. injection Hrun as <-.
  apply Z.eqb_eq in Hsame.
  exists column, L, Hz.
  split; [reflexivity|]. split; [reflexivity|]. split; [reflexivity|].
  split; [|split; [|intros Hkeeps row Hrow; split]].
  - rewrite len_map. unfold len in *. rewrite length_combine.
    rewrite !length_map in *.
    assert (Hts : Z.of_nat (length (slice_from (range (Hz + 1)) 1)) = Z.max 0 Hz).
    { unfold slice_from, slice_bound.
      rewrite length_drop, length_range. cbn. lia. }
    lia.
  - intros Hlen. unfold slice_from, slice_bound, len in *.
    replace (Z.to_nat _) with 0%nat; [reflexivity|].
    destruct (Z.ltb_spec (- L) 0); lia.
  - apply list_elem_of_fmap in Hrow as ([ts p] & -> & _).
    cbn [LSTMForecaster.confidence_upper LSTMForecaster.predicted_value].
    unfold LSTMForecaster.confidence_band, Np.add_scalar32. cbn [snd].
    now rewrite Hkeeps.
  - apply list_elem_of_fmap in Hrow as ([ts p] & -> & _).
    cbn [LSTMForecaster.confidence_lower LSTMForecaster.predicted_value].
    unfold LSTMForecaster.confidence_band, Np.sub_scalar32. cbn [fst].
    now rewrite Hkeeps.
Qed.

End Forecasting.

(** A series of 120 points with the default [L = 50] and [Hz = 12]: 58
    windows, fewer than the 100 required, although the series itself has
    more than 100 points. *)
Lemma forecaster_train_counts_windows_witness :
  len (df_rows (Examples.series 120)) = 120 /\
  @LSTMForecaster.train Examples.toy_sklearn Examples.toy_keras settings Examples.env_a
     (LSTMForecaster.init settings PyNone PyNone) (Examples.series 120) "value"
  = Raise (ValueError (NotEnoughDataMsg 100 58)).
Proof.
  split; [reflexivity|].
  destruct (proj2 (@forecaster_train_counts_windows
              Examples.toy_sklearn Examples.toy_keras toy_sklearn_laws settings
              Examples.env_a (LSTMForecaster.init settings PyNone PyNone)
              (Examples.series 120) "value"
              (map (fun k => Np.float_of_Z (Z.of_nat k)) (seq 1 120)) 50 12
              ltac:(vm_compute; reflexivity) eq_refl eq_refl
              ltac:(lia) ltac:(lia))
            ltac:(vm_compute; reflexivity))
    as (fitted & _ & _ & Hiff & _).
  apply Hiff. vm_compute. reflexivity.
Defined.

(** C7 as stated fails: a series of 120 points of which the last is
    infinite yields 58 windows, fewer than the minimum of 100, and so does a
    series without points, which yields none; [train] ends with the
    scaler's error on both, not with the not-enough-data error. *)
Lemma refused_series_is_not_short :
  Z.max 0 (Pd.nrows MoreExamples.series_with_infinity - 50 - 12) = 58 /\
  @LSTMForecaster.train Examples.toy_sklearn Examples.toy_keras settings Examples.env_a
     (LSTMForecaster.init settings PyNone PyNone) MoreExamples.series_with_infinity "value"
  = Raise (LibraryError "MinMaxScaler.fit_transform") /\
  Z.max 0 (Pd.nrows (Examples.series 0) - 50 - 12) = 0 /\
  @LSTMForecaster.train Examples.toy_sklearn Examples.toy_keras settings Examples.env_a
     (LSTMForecaster.init settings PyNone PyNone) (Examples.series 0) "value"
  = Raise (LibraryError "MinMaxScaler.fit_transform").
Proof. repeat split; vm_compute; reflexivity. Qed.

(** The same series sent to the training endpoint passes the handler's own
    check of 100 rows and ends as a 500 response carrying the model's error. *)
Lemma train_forecaster_120_points :
  @Forecasts.train_forecaster Examples.toy_sklearn Examples.toy_keras settings
     Examples.env_a ∅ (Examples.store_with (Examples.series 120))
     "dev-1" "system.cpuUsage" 168
  = HttpError 500 (TrainingFailed (ValueError (NotEnoughDataMsg 100 58))).
Proof. vm_compute. reflexivity. Qed.

(** The forecaster with [L = 2], [Hz = 1] on exactly two recent points. *)
Lemma forecast_confidence_band_witness :
  exists rows,
    LSTMForecaster.predict Examples.small_forecaster
      {| df_columns := ["timestamp"; "value"]; df_rows := [[60; 1]; [120; 3]]%float |}
      "value" = Ok rows /\
    len rows = 1 /\
    forall row, row ∈ rows ->
      LSTMForecaster.confidence_upper row
      = Np.float32 (LSTMForecaster.predicted_value row
                    + Np.float32 (1.96 * Np.std [1; 3]))%float.
Proof.
  eexists. split; [vm_compute; reflexivity|].
  destruct (proj1 (forecast_confidence_band Examples.small_forecaster
              {| df_columns := ["timestamp"; "value"]; df_rows := [[60; 1]; [120; 3]]%float |}
              "value" _ eq_refl))
    as (column & L & Hz & Hcol & HL & HH & Hlen & _ & Hband).
  vm_compute in Hcol. injection Hcol as <-.
  vm_compute in HH. injection HH as <-.
  split; [exact Hlen|].
  intros row Hin. exact (proj1 (Hband eq_refl row Hin)).
Defined.

(** The prediction endpoint hands [predict] every row the store returns for
    the last two hours: for the forecaster with [L = 2] saved for "dev-1" and
    a store holding the three points 0, 1, 1, the band of the answer is the
    one of all three points. *)
Lemma predict_future_three_points :
  exists fs,
    LSTMForecaster.save settings Examples.small_forecaster "dev-1" "system.cpuUsage" ∅
      = Ok fs /\
    match Forecasts.predict_future settings fs (Examples.store_with Examples.three_points)
            "dev-1" "system.cpuUsage" with
    | Http200 r =>
        map Forecasts.p_confidence_upper (Forecasts.predictions r)
        = [Np.float32 (0.5 + Np.float32 (1.96 * Np.std [0; 1; 1]))%float]
    | HttpError _ _ => False
    end.
Proof. eexists. split; [reflexivity|]. vm_compute. reflexivity. Qed.

(** C3 as stated fails, in two ways.  Given three recent points 0, 1, 1,
    the forecaster with [L = 2] reads its input window from the last two,
    whose standard deviation is 0, but takes the band from all three: the
    upper bound is 1.63..., not 0.5 + 1.96 * 0.  And the band is a float32:
    for the value 2.0 and the deviation 5.0 the upper bound is not the
    Python float 11.8. *)
Lemma band_is_not_of_last_window :
  (exists rows row,
     LSTMForecaster.predict Examples.small_forecaster Examples.three_points "value"
       = Ok rows /\
     row ∈ rows /\
     slice_from [0; 1; 1]%float (- 2) = [1; 1]%float /\
     LSTMForecaster.predicted_value row = 0.5%float /\
     Np.std [1; 1]%float = 0%float /\
     LSTMForecaster.confidence_upper row = 1.6316065788269043%float) /\
  snd (LSTMForecaster.confidence_band 2.0 5.0) <> 11.8%float.
Proof.
  split.
  - eexists. eexists. split; [vm_compute; reflexivity|].
    split; [apply list_elem_of_here|].
    repeat split; vm_compute; reflexivity.
  - intros Heq. apply (f_equal Prim2SF) in Heq. vm_compute in Heq. discriminate.
Qed.

(** ** The model directory *)

(** Two artifact names of one key differ when their suffixes do. *)
Lemma join_suffix_inj (dir key r1 r2 : string) :
  Path.join dir (key +:+ String (Ascii.ascii_of_nat 95) r1)
  = Path.join dir (key +:+ String (Ascii.ascii_of_nat 95) r2) ->
  r1 = r2.
Proof.
  unfold Path.join. destruct key as [|c key].
  - cbn. intros Heq. apply (inj (String.app dir)) in Heq.
    now injection Heq.
  - change (String c key +:+ String (Ascii.ascii_of_nat 95) r1)
      with (String c (key +:+ String (Ascii.ascii_of_nat 95) r1)).
    change (String c key +:+ String (Ascii.ascii_of_nat 95) r2)
      with (String c (key +:+ String (Ascii.ascii_of_nat 95) r2)).
    cbv iota beta.
    destruct (Ascii.eqb c (Ascii.ascii_of_nat 47)).
    + intros [= Heq]. apply (inj (String.app key)) in Heq. now injection Heq.
    + intros Heq. apply (inj (String.app dir)) in Heq.
      injection Heq as Heq. apply (inj (String.app key)) in Heq. now injection Heq.
Qed.

Lemma exists_true (fs : filesystem) (p : string) (b : blob) :
  fs !! p = Some b -> Path.exists_ fs p = true.
Proof.
  intros Hp. unfold Path.exists_. apply bool_decide_eq_true. now rewrite Hp.
Qed.

Section Persistence.
Variable cfg : Settings.

Lemma detector_paths_differ (device_uuid : string) :
  model_path cfg device_uuid <> scaler_path cfg device_uuid /\
  model_path cfg device_uuid <> metadata_path cfg device_uuid /\
  scaler_path cfg device_uuid <> metadata_path cfg device_uuid.
Proof.
  unfold model_path, scaler_path, metadata_path.
  repeat split; intros Heq%join_suffix_inj; discriminate.
Qed.

Lemma detector_metadata_get (self : t) :
  dict_get (metadata_of self) "feature_names" PyNone = feature_names self /\
  dict_get (metadata_of self) "contamination" PyNone = contamination self /\
  dict_get (metadata_of self) "training_samples" (PyInt 0) = training_samples self /\
  dict_get (metadata_of self) "trained_at" PyNone = isoformat_or_none (trained_at self).
Proof. repeat split. Qed.

Lemma trained_at_roundtrip (stamp other : pyval) :
  exists restored,
    (if truthy (isoformat_or_none stamp) then fromisoformat (isoformat_or_none stamp)
     else Ok other) = Ok restored.
Proof. destruct stamp; cbn; eauto. Qed.

Lemma detector_save_load (self other : t) (device_uuid : string) (fs : filesystem)
    (F : list string) :
  feature_names self = PyStrList F ->
  exists loaded,
    load cfg other device_uuid (save cfg self device_uuid fs) = Ok loaded /\
    feature_names loaded = PyStrList F /\
    contamination loaded = contamination self /\
    training_samples loaded = training_samples self /\
    model loaded = model self /\
    scaler loaded = scaler self.
Proof.
  intros HF.
  destruct (detector_paths_differ device_uuid) as (Hms & Hmm & Hsm).
  destruct (detector_metadata_get self) as (Gf & Gc & Gs & Gt).
  destruct (trained_at_roundtrip (trained_at self) (trained_at other)) as (stamp & Hstamp).
  assert (Hmodel : save cfg self device_uuid fs !! model_path cfg device_uuid
                   = Some (BlobIsolationForest (model self))).
  { unfold save. rewrite !lookup_insert_ne by congruence. apply lookup_insert_eq. }
  assert (Hscaler : save cfg self device_uuid fs !! scaler_path cfg device_uuid
                    = Some (BlobStandardScaler (scaler self))).
  { unfold save. rewrite lookup_insert_ne by congruence. apply lookup_insert_eq. }
  assert (Hmeta : save cfg self device_uuid fs !! metadata_path cfg device_uuid
                  = Some (BlobDict (metadata_of self))).
  { unfold save. apply lookup_insert_eq. }
  unfold load, load_model, load_scaler, load_dict, iter_feature_names.
  rewrite (exists_true _ _ _ Hmodel), (exists_true _ _ _ Hmeta).
  rewrite Hmodel, Hscaler, Hmeta. run_result. cbn [negb].
  rewrite Gf, Gc, Gs, Gt, Hstamp. cbn. rewrite HF.
  eexists. repeat split.
Qed.

Lemma forecaster_paths_differ (device_uuid field : string) :
  LSTMForecaster.model_path cfg device_uuid field
    <> LSTMForecaster.scaler_path cfg device_uuid field /\
  LSTMForecaster.model_path cfg device_uuid field
    <> LSTMForecaster.metadata_path cfg device_uuid field /\
  LSTMForecaster.scaler_path cfg device_uuid field
    <> LSTMForecaster.metadata_path cfg device_uuid field.
Proof.
  unfold LSTMForecaster.model_path, LSTMForecaster.scaler_path,
    LSTMForecaster.metadata_path, LSTMForecaster.artifact_path.
  repeat split; intros Heq%join_suffix_inj;
    apply (inj (String.app (LSTMForecaster.sanitize field))) in Heq; discriminate.
Qed.

Lemma forecaster_save_load (self other : LSTMForecaster.t) (device_uuid field : string)
    (fs fs' : filesystem) :
  LSTMForecaster.save cfg self device_uuid field fs = Ok fs' ->
  exists loaded,
    LSTMForecaster.load cfg other device_uuid field fs' = Ok loaded /\
    LSTMForecaster.sequence_length loaded = LSTMForecaster.sequence_length self /\
    LSTMForecaster.forecast_horizon loaded = LSTMForecaster.forecast_horizon self /\
    LSTMForecaster.training_samples loaded = LSTMForecaster.training_samples self /\
    LSTMForecaster.model loaded = LSTMForecaster.model self /\
    LSTMForecaster.scaler loaded = LSTMForecaster.scaler self.
Proof.
  unfold LSTMForecaster.save.
  destruct (LSTMForecaster.model self) as [network|] eqn:Hnet; [|discriminate].
  intros [= <-].
  destruct (forecaster_paths_differ device_uuid field) as (Hms & Hmm & Hsm).
  destruct (trained_at_roundtrip (LSTMForecaster.trained_at self)
              (LSTMForecaster.trained_at other)) as (stamp & Hstamp).
  unfold LSTMForecaster.load, LSTMForecaster.load_network, LSTMForecaster.load_scaler,
    load_dict.
  erewrite (exists_true _ (LSTMForecaster.model_path cfg device_uuid field));
    [|rewrite !lookup_insert_ne by congruence; apply lookup_insert_eq].
  erewrite (exists_true _ (LSTMForecaster.metadata_path cfg device_uuid field));
    [|apply lookup_insert_eq].
  rewrite lookup_insert_eq.
  rewrite (lookup_insert_ne _ (LSTMForecaster.metadata_path cfg device_uuid field)
             (LSTMForecaster.scaler_path cfg device_uuid field)) by congruence.
  rewrite lookup_insert_eq.
  rewrite !lookup_insert_ne by congruence. rewrite lookup_insert_eq.
  run_result. cbn [negb].
  change (dict_get (LSTMForecaster.metadata_of self field) "trained_at" PyNone)
    with (isoformat_or_none (LSTMForecaster.trained_at self)).
  rewrite Hstamp.
  eexists. repeat split.
Qed.

(** C4.  Whatever the model directory held before: after [save] for a key,
    [load] for the same key into any detector returns, and the loaded
    detector has the saved feature-name list, contamination and sample
    count (and the saved ensemble and scaler), provided the saved detector
    has a name list, as every trained one has; and after a [save] of a
    forecaster that returns, as it does for every trained one, [load] for
    the same device and field into any forecaster returns, and the loaded
    forecaster has the saved sequence length and forecast horizon (and the
    saved sample count, network and scaler). *)
Theorem save_load_roundtrip :
  (forall (self other : t) (device_uuid : string) (fs : filesystem) (F : list string),
     feature_names self = PyStrList F ->
     exists loaded,
       load cfg other device_uuid (save cfg self device_uuid fs) = Ok loaded /\
       feature_names loaded = PyStrList F /\
       contamination loaded = contamination self /\
       training_samples loaded = training_samples self /\
       model loaded = model self /\
       scaler loaded = scaler self) /\
  (forall (self other : LSTMForecaster.t) (device_uuid field : string)
          (fs fs' : filesystem),
     LSTMForecaster.save cfg self device_uuid field fs = Ok fs' ->
     exists loaded,
       LSTMForecaster.load cfg other device_uuid field fs' = Ok loaded /\
       LSTMForecaster.sequence_length loaded = LSTMForecaster.sequence_length self /\
       LSTMForecaster.forecast_horizon loaded = LSTMForecaster.forecast_horizon self /\
       LSTMForecaster.training_samples loaded = LSTMForecaster.training_samples self /\
       LSTMForecaster.model loaded = LSTMForecaster.model self /\
       LSTMForecaster.scaler loaded = LSTMForecaster.scaler self).
Proof.
  split.
  - intros self other device_uuid fs F HF.
    exact (detector_save_load self other device_uuid fs F HF).
  - intros self other device_uuid field fs fs' Hsave.
    exact (forecaster_save_load self other device_uuid field fs fs' Hsave).
Qed.

End Persistence.

(** The detector saved for "dev-1" and a small forecaster, saved and loaded
    again into fresh objects. *)
Lemma save_load_roundtrip_witness :
  (exists loaded,
     load settings (init settings PyNone) "dev-1" Examples.saved_models = Ok loaded /\
     feature_names loaded = PyStrList ["cpu_usage"; "memory_usage_percent"] /\
     contamination loaded = PyFloat 0.01 /\
     training_samples loaded = PyInt 100) /\
  (exists fs' loaded,
     LSTMForecaster.save settings Examples.small_forecaster "dev-1" "system.cpuUsage" ∅
       = Ok fs' /\
     LSTMForecaster.load settings (LSTMForecaster.init settings PyNone PyNone)
       "dev-1" "system.cpuUsage" fs' = Ok loaded /\
     LSTMForecaster.sequence_length loaded = PyInt 2 /\
     LSTMForecaster.forecast_horizon loaded = PyInt 1).
Proof.
  split.
  - destruct (proj1 (save_load_roundtrip settings)
                (Examples.detector_with_offset 0) (init settings PyNone) "dev-1" ∅
                Examples.features eq_refl)
      as (loaded & Hload & Hnames & Hcont & Hsamples & _).
    exists loaded. repeat split; assumption.
  - destruct (proj2 (save_load_roundtrip settings)
                Examples.small_forecaster (LSTMForecaster.init settings PyNone PyNone)
                "dev-1" "system.cpuUsage" ∅ _ eq_refl)
      as (loaded & Hload & HL & HH & _).
    eexists. exists loaded. split; [reflexivity|]. repeat split; assumption.
Defined.

(** ** The detect endpoint *)

Import Anomalies.

Lemma mapM_ok {A B} (f : A -> result B) (l : list A) (l' : list B) :
  mapM f l = Ok l' -> Forall2 (fun a b => f a = Ok b) l l'.
Proof.
  revert l'. induction l as [|a l IH]; intros l'; cbn.
  - intros [= <-]. constructor.
  - run_result. destruct (f a) as [b|] eqn:Hfa; [|discriminate].
    destruct (mapM f l) as [k|]; [|discriminate].
    intros [= <-]. constructor; [assumption|now apply IH].
Qed.

Section Detect.
Variable cfg : Settings.

(** What a returning [detect_body] has computed. *)
Lemma detect_body_returned (fs : filesystem) (fetcher : DataFetcher)
    (device_uuid : string) (hours : Z) (resp : DetectResponse) :
  detect_body cfg fs fetcher device_uuid hours = Returned resp ->
  exists detector df results,
    load cfg (init cfg PyNone) device_uuid fs = Ok detector /\
    fetch_multi_metric_history fetcher device_uuid hours = Ok df /\
    predict detector df = Ok results /\
    analyzed_points resp = len results /\
    anomalies_detected resp = len (filter (fun row => is_anomaly row = true) results) /\
    mapM anomaly_point (firstn 100 (filter (fun row => is_anomaly row = true) results))
      = Ok (anomalies resp).
Proof.
  unfold detect_body, mbind, outcome_bind, call.
  destruct (load cfg (init cfg PyNone) device_uuid fs) as [detector|] eqn:Hload;
    [|discriminate].
  destruct (connect fetcher); [|discriminate].
  destruct (fetch_multi_metric_history fetcher device_uuid hours) as [df|] eqn:Hfetch;
    [|discriminate].
  destruct (Pd.nrows df =? 0); [discriminate|].
  destruct (predict detector df) as [results|] eqn:Hpredict; [|discriminate].
  destruct (mapM anomaly_point _) as [points|] eqn:Hpoints; [|discriminate].
  intros [= <-]. exists detector, df, results. cbn.
  repeat split; assumption.
Qed.

(** C8, as the code has it.  A detect request for a device whose model file
    is absent is answered 404 (model not trained); a request for a device
    whose model loads, when the telemetry fetch returns a table without
    rows, is answered 404 as well (no data found for the period). *)
Theorem detect_error_statuses (fs : filesystem) (fetcher : DataFetcher)
    (device_uuid : string) (hours : Z) :
  (fs !! model_path cfg device_uuid = None ->
     detect_anomalies cfg fs fetcher device_uuid hours = HttpError 404 ModelNotTrained) /\
  (forall detector df,
     load cfg (init cfg PyNone) device_uuid fs = Ok detector ->
     connect fetcher = Ok tt ->
     fetch_multi_metric_history fetcher device_uuid hours = Ok df ->
     Pd.nrows df = 0 ->
     detect_anomalies cfg fs fetcher device_uuid hours = HttpError 404 NoDataForPeriod).
Proof.
  unfold detect_anomalies, detect_body, mbind, outcome_bind, call. split.
  - intros Habsent. unfold load, Path.exists_. rewrite Habsent.
    rewrite bool_decide_eq_false_2; [reflexivity|].
    intros [b Hb]. discriminate.
  - intros detector df -> -> -> ->. reflexivity.
Qed.

(** A 200 response of the detect endpoint lists the first 100 flagged rows
    of the scored batch, in batch order, and so at most 100 entries, while
    [anomalies_detected] counts every flagged row. *)
Lemma detect_lists_first_hundred (fs : filesystem) (fetcher : DataFetcher)
    (device_uuid : string) (hours : Z) (resp : DetectResponse) :
  detect_anomalies cfg fs fetcher device_uuid hours = Http200 resp ->
  exists detector df results,
    load cfg (init cfg PyNone) device_uuid fs = Ok detector /\
    fetch_multi_metric_history fetcher device_uuid hours = Ok df /\
    predict detector df = Ok results /\
    analyzed_points resp = len results /\
    anomalies_detected resp = len (filter (fun row => is_anomaly row = true) results) /\
    Forall2 (fun row point => anomaly_point row = Ok point)
      (firstn 100 (filter (fun row => is_anomaly row = true) results))
      (anomalies resp) /\
    len (anomalies resp) = Z.min 100 (anomalies_detected resp) /\
    len (anomalies resp) <= 100.
Proof.
  unfold detect_anomalies.
  destruct (detect_body cfg fs fetcher device_uuid hours) as [r|e|s d] eqn:Hbody;
    [|destruct e; discriminate|discriminate].
  intros [= <-].
  apply detect_body_returned in Hbody
    as (detector & df & results & Hload & Hfetch & Hpredict & Hn & Hcount & Hpoints).
  apply mapM_ok in Hpoints.
  exists detector, df, results. repeat split; try assumption.
  - apply Forall2_length in Hpoints. unfold len in *.
    rewrite <- Hpoints, length_take, Hcount. lia.
  - apply Forall2_length in Hpoints. unfold len.
    rewrite <- Hpoints, length_take. lia.
Qed.

End Detect.

(** C9.  Every 200 response of the detect endpoint lists the first 100
    flagged rows of the scored batch in batch order, at most 100 entries,
    and reports in [anomalies_detected] the number of all flagged rows; the
    count can exceed the length of the list: on a batch of 101 flagged
    readings the response lists 100 anomalies and reports 101. *)
Theorem detect_response_is_capped :
  (forall (cfg : Settings) (fs : filesystem) (fetcher : DataFetcher)
          (device_uuid : string) (hours : Z) (resp : DetectResponse),
     detect_anomalies cfg fs fetcher device_uuid hours = Http200 resp ->
     exists detector df results,
       load cfg (init cfg PyNone) device_uuid fs = Ok detector /\
       fetch_multi_metric_history fetcher device_uuid hours = Ok df /\
       predict detector df = Ok results /\
       analyzed_points resp = len results /\
       anomalies_detected resp = len (filter (fun row => is_anomaly row = true) results) /\
       Forall2 (fun row point => anomaly_point row = Ok point)
         (firstn 100 (filter (fun row => is_anomaly row = true) results))
         (anomalies resp) /\
       len (anomalies resp) = Z.min 100 (anomalies_detected resp) /\
       len (anomalies resp) <= 100) /\
  (exists resp,
     detect_anomalies settings Examples.saved_models
       (Examples.store_with (Examples.readings 101)) "dev-1" 24 = Http200 resp /\
     anomalies_detected resp = 101 /\
     len (anomalies resp) = 100).
Proof.
  split.
  - exact detect_lists_first_hundred.
  - eexists. split; [vm_compute; reflexivity|]. split; reflexivity.
Qed.

(** A request for a device without a saved model, and a request for the
    device with a saved model when the store has no rows for the period. *)
Lemma detect_error_statuses_witness :
  detect_anomalies settings Examples.saved_models
    (Examples.store_with (Examples.readings 0)) "dev-2" 24
  = HttpError 404 ModelNotTrained /\
  detect_anomalies settings Examples.saved_models
    (Examples.store_with (Examples.readings 0)) "dev-1" 24
  = HttpError 404 NoDataForPeriod.
Proof.
  split.
  - apply (proj1 (detect_error_statuses settings Examples.saved_models
                    (Examples.store_with (Examples.readings 0)) "dev-2" 24)).
    vm_compute. reflexivity.
  - destruct (detector_save_load settings
                (Examples.detector_with_offset 0) (init settings PyNone) "dev-1" ∅
                Examples.features eq_refl) as (loaded & Hload & _).
    apply (proj2 (detect_error_statuses settings Examples.saved_models
                    (Examples.store_with (Examples.readings 0)) "dev-1" 24)
             loaded (Examples.readings 0) Hload eq_refl eq_refl eq_refl).
Defined.

(** C8 as stated fails: for the device with a saved, trained model, a fetch
    that returns no rows is answered with status 404, not 400. *)
Lemma no_data_is_answered_404 :
  (exists detector,
     load settings (init settings PyNone) "dev-1" Examples.saved_models = Ok detector /\
     is_Some (model detector)) /\
  fetch_multi_metric_history (Examples.store_with (Examples.readings 0)) "dev-1" 24
    = Ok (Examples.readings 0) /\
  Pd.nrows (Examples.readings 0) = 0 /\
  Http.status (detect_anomalies settings Examples.saved_models
                 (Examples.store_with (Examples.readings 0)) "dev-1" 24) = 404 /\
  Http.status (detect_anomalies settings Examples.saved_models
                 (Examples.store_with (Examples.readings 0)) "dev-1" 24) <> 400.
Proof.
  split.
  { eexists. split; [vm_compute; reflexivity|]. eexists. reflexivity. }
  split; [reflexivity|]. split; [reflexivity|].
  split; [vm_compute; reflexivity|].
  vm_compute. discriminate.
Qed.

(** The response to a batch of 101 flagged readings. *)
Lemma detect_response_is_capped_witness :
  exists resp,
    detect_anomalies settings Examples.saved_models
      (Examples.store_with (Examples.readings 101)) "dev-1" 24 = Http200 resp /\
    anomalies_detected resp = 101 /\
    len (anomalies resp) = Z.min 100 (anomalies_detected resp) /\
    len (anomalies resp) <= 100.
Proof.
  destruct (detect_anomalies settings Examples.saved_models
              (Examples.store_with (Examples.readings 101)) "dev-1" 24)
    as [resp|code d] eqn:Hrun; [|vm_compute in Hrun; discriminate].
  exists resp.
  destruct (proj1 detect_response_is_capped settings Examples.saved_models
              (Examples.store_with (Examples.readings 101)) "dev-1" 24 resp Hrun)
    as (detector & df & results & _ & _ & _ & _ & _ & _ & Hmin & Hle).
  split; [reflexivity|].
  split; [|split; [exact Hmin|exact Hle]].
  vm_compute in Hrun. injection Hrun as <-. reflexivity.
Defined.

(* ===================================================================== *)
(** * Further properties *)
(* ===================================================================== *)

(** ** The detector: what [predict] returns *)

Lemma lookup_map {A B} (f : A -> B) (l : list A) (i : nat) :
  map f l !! i = f <$> (l !! i).
Proof. exact (list_lookup_fmap f l i). Qed.






(** ** The detector: construction and training *)

(** X2.  A detector or forecaster constructed with [None] or with a zero takes
    the configured default in its place (a zero is falsy, so [x or default]
    drops it); any other contamination, sequence length or horizon is kept. *)
Theorem init_replaces_zero_by_default (cfg : Settings) :
  contamination (init cfg PyNone) = PyFloat (ISOLATION_FOREST_CONTAMINATION cfg) /\
  contamination (init cfg (PyFloat 0%float))
    = PyFloat (ISOLATION_FOREST_CONTAMINATION cfg) /\
  (forall x, PrimFloat.eqb x 0%float = false ->
     contamination (init cfg (PyFloat x)) = PyFloat x) /\
  LSTMForecaster.init cfg (PyInt 0) (PyInt 0) = LSTMForecaster.init cfg PyNone PyNone /\
  LSTMForecaster.sequence_length (LSTMForecaster.init cfg PyNone PyNone)
    = PyInt (LSTM_SEQUENCE_LENGTH cfg) /\
  LSTMForecaster.forecast_horizon (LSTMForecaster.init cfg PyNone PyNone)
    = PyInt (LSTM_FORECAST_HORIZON cfg) /\
  (forall L Hz, L <> 0 -> Hz <> 0 ->
     LSTMForecaster.sequence_length (LSTMForecaster.init cfg (PyInt L) (PyInt Hz)) = PyInt L /\
     LSTMForecaster.forecast_horizon (LSTMForecaster.init cfg (PyInt L) (PyInt Hz))
       = PyInt Hz).
Proof.
  repeat split.
  - intros x Hx. unfold init, py_or, truthy. cbn. now rewrite Hx.
  - unfold LSTMForecaster.init, py_or, truthy. cbn.
    destruct (Z.eqb_spec L 0); [contradiction|reflexivity].
  - unfold LSTMForecaster.init, py_or, truthy. cbn.
    destruct (Z.eqb_spec Hz 0); [contradiction|reflexivity].
Qed.

(** A contamination of 0.05 and a window of 24 points are kept. *)
Lemma init_replaces_zero_by_default_witness :
  contamination (init settings (PyFloat 0.05%float)) = PyFloat 0.05%float /\
  LSTMForecaster.sequence_length (LSTMForecaster.init settings (PyInt 24) (PyInt 6))
    = PyInt 24.
Proof.
  split.
  - exact (proj1 (proj2 (proj2 (init_replaces_zero_by_default settings)))
             0.05%float eq_refl).
  - exact (proj1 (proj2 (proj2 (proj2 (proj2 (proj2 (proj2
             (init_replaces_zero_by_default settings))))))
             24 6 ltac:(lia) ltac:(lia))).
Defined.

Section MoreTraining.
Context `{Sklearn}.
Variable cfg : Settings.

(** What a returning [train] has done. *)
Lemma train_ok (env : Env) (self : t) (df : DataFrame) (features : list string)
    (trained : t) :
  train cfg env self df features = Ok trained ->
  MIN_TRAINING_SAMPLES cfg <= Pd.nrows df /\
  forallb (Pd.in_columns df) features = true /\
  exists s m,
    StandardScaler_fit (Pd.values df features) = Some s /\
    IsolationForest_fit (ISOLATION_FOREST_N_ESTIMATORS cfg) (contamination self)
      (RandomState 42) (map (ss_transform_row s) (Pd.values df features)) = Some m /\
    trained = {| contamination := contamination self;
                 model := Some m;
                 scaler := Some s;
                 feature_names := PyStrList features;
                 trained_at := PyDatetime (now env);
                 training_samples := PyInt (Pd.nrows df) |}.
Proof.
  unfold train.
  destruct (Z.ltb_spec (Pd.nrows df) (MIN_TRAINING_SAMPLES cfg)) as [|Hge]; [discriminate|].
  destruct (forallb (Pd.in_columns df) features) eqn:Hall.
  - rewrite (select_present _ _ Hall). run_result.
    destruct (StandardScaler_fit _) as [s|] eqn:Hs; [|discriminate].
    cbn [Sk.check_random_state].
    destruct (IsolationForest_fit _ _ _ _) as [m|] eqn:Hm; [|discriminate].
    intros [= <-]. split; [assumption|]. split; [reflexivity|].
    exists s, m. repeat split; assumption.
  - unfold Pd.select.
    destruct (filter _ features) as [|f rest] eqn:Hfilter; [|discriminate].
    exfalso. apply some_absent_iff in Hall as (f & Hf & Habs).
    assert (Hin : f ∈ filter (fun f => negb (Pd.in_columns df f)) features).
    { apply list_elem_of_filter. split; [|assumption].
      destruct (Pd.in_columns df f) eqn:Hc; [|exact I].
      exfalso. apply Habs. now apply in_columns_elem_of. }
    rewrite Hfilter in Hin. inversion Hin.
Qed.

(** The result of [predict] on a detector with an ensemble, a scaler and a
    name list, on a table that has every named column and that the library
    accepts. *)
Lemma predict_returns (self : t) (df : DataFrame) (m : IsolationForest)
    (s : StandardScaler) (names : list string) :
  model self = Some m -> scaler self = Some s ->
  feature_names self = PyStrList names ->
  forallb (Pd.in_columns df) names = true ->
  Sk.check_array_allow_nan (Pd.values df names) = true ->
  Sk.check_array_float32 (map (ss_transform_row s) (Pd.values df names)) = true ->
  predict self df
  = Ok (map (result_row (Pd.column df "timestamp") names (Pd.values df names)
               (Sk.labels m (map (ss_transform_row s) (Pd.values df names)))
               (Sk.scores m (map (ss_transform_row s) (Pd.values df names))))
            (seq 0 (length (df_rows df)))).
Proof.
  intros Hm Hs Hn Hall Hgood Hgood32.
  rewrite (predict_trained self df m names Hm Hn), Hall, Hs.
  unfold Sk.transform. rewrite Hgood. run_result. now rewrite Hgood32.
Qed.

(** ... and on a table that the library refuses. *)
Lemma predict_refused (self : t) (df : DataFrame) (m : IsolationForest)
    (s : StandardScaler) (names : list string) :
  model self = Some m -> scaler self = Some s ->
  feature_names self = PyStrList names ->
  forallb (Pd.in_columns df) names = true ->
  Sk.check_array_allow_nan (Pd.values df names)
  && Sk.check_array_float32 (map (ss_transform_row s) (Pd.values df names)) = false ->
  exists what, predict self df = Raise (LibraryError what).
Proof.
  intros Hm Hs Hn Hall Hbad.
  rewrite (predict_trained self df m names Hm Hn), Hall, Hs.
  unfold Sk.transform. run_result.
  destruct (Sk.check_array_allow_nan _); [|eauto].
  cbn [andb] in Hbad. rewrite Hbad. eauto.
Qed.

Lemma checked_has_rows (df : DataFrame) (names : list string) :
  Sk.check_array_allow_nan (Pd.values df names) = true -> df_rows df <> [].
Proof. intros Hgood Hnil. unfold Pd.values in Hgood. now rewrite Hnil in Hgood. Qed.

End MoreTraining.

Section TrainedDetectors.
Context `{Sklearn} `{Laws : !SklearnLaws}.
Variable cfg : Settings.

(** X3.  A detector that [train] returned scores a table that has a column
    for each training feature exactly when scikit-learn accepts the table:
    the selected array has a row, a column and no infinite cell, and every
    scaled cell is finite in float32.  It then returns one row per input
    row.  The training table itself is among the tables it scores. *)
Theorem trained_detector_scores (env : Env) (self : t) (df : DataFrame)
    (features : list string) (trained : t) :
  train cfg env self df features = Ok trained ->
  exists s,
    scaler trained = Some s /\
    (forall table,
       (forall f, f ∈ features -> f ∈ df_columns table) ->
       ((exists rows, predict trained table = Ok rows) <->
        Sk.check_array_allow_nan (Pd.values table features) = true /\
        Sk.check_array_float32
          (map (ss_transform_row s) (Pd.values table features)) = true) /\
       (forall rows, predict trained table = Ok rows ->
                     length rows = length (df_rows table))) /\
    exists rows, predict trained df = Ok rows /\ length rows = length (df_rows df).
Proof using Type Laws.
  intros Htrain.
  apply train_ok in Htrain as (Hge & Hall & s & m & Hs & Hm & ->).
  exists s. split; [reflexivity|].
  set (trained := {| contamination := contamination self; model := Some m;
                     scaler := Some s; feature_names := PyStrList features;
                     trained_at := PyDatetime (now env);
                     training_samples := PyInt (Pd.nrows df) |}).
  assert (Hreturns : forall table,
     forallb (Pd.in_columns table) features = true ->
     Sk.check_array_allow_nan (Pd.values table features) = true ->
     Sk.check_array_float32 (map (ss_transform_row s) (Pd.values table features)) = true ->
     exists rows, predict trained table = Ok rows /\
                  length rows = length (df_rows table)).
  { intros table Hpresent Hgood Hgood32. eexists. split.
    - now apply (predict_returns trained table m s features).
    - now rewrite length_map, length_seq. }
  split.
  - intros table Hpresent. apply all_present_iff in Hpresent. split; [split|].
    + intros (rows & Hrows).
      exact (predict_ok_checked trained table rows s features Hrows eq_refl eq_refl).
    + intros (Hgood & Hgood32).
      destruct (Hreturns table Hpresent Hgood Hgood32) as (rows & Hrows & _). eauto.
    + intros rows Hrows.
      apply predict_ok in Hrows as (m' & s' & names' & _ & _ & _ & _ & _ & Hrows).
      cbv zeta in Hrows. subst rows. now rewrite length_map, length_seq.
  - apply Hreturns; [assumption| |].
    + apply StandardScaler_fit_accepts. rewrite Hs. eauto.
    + exact (IsolationForest_fit_validates _ _ _ _ _ Hm).
Qed.

End TrainedDetectors.

Section MoreTrainingErrors.
Context `{Sklearn}.
Variable cfg : Settings.

(** X4.  With enough rows, a feature name that is not a column of the training
    table makes [train] raise [KeyError], for a name of the list that is
    absent from the table, before anything is fitted. *)
Theorem train_unknown_feature (env : Env) (self : t) (df : DataFrame)
    (features : list string) :
  MIN_TRAINING_SAMPLES cfg <= Pd.nrows df ->
  (exists f, f ∈ features /\ f ∉ df_columns df) ->
  exists f,
    train cfg env self df features = Raise (KeyError f) /\
    f ∈ features /\ f ∉ df_columns df.
Proof.
  intros Hge Habsent. unfold train.
  apply Z.ltb_ge in Hge. rewrite Hge.
  unfold Pd.select.
  destruct (filter (fun f => negb (Pd.in_columns df f)) features) as [|f rest] eqn:Hfilter.
  - exfalso. destruct Habsent as (f & Hf & Habs).
    assert (Hin : f ∈ filter (fun f => negb (Pd.in_columns df f)) features).
    { apply list_elem_of_filter. split; [|assumption].
      destruct (Pd.in_columns df f) eqn:Hc; [|exact I].
      exfalso. apply Habs. now apply in_columns_elem_of. }
    rewrite Hfilter in Hin. inversion Hin.
  - exists f. split; [reflexivity|].
    assert (Hin : f ∈ filter (fun f => negb (Pd.in_columns df f)) features).
    { rewrite Hfilter. apply list_elem_of_here. }
    apply list_elem_of_filter in Hin as [Hneg Hf]. split; [assumption|].
    intros Hcol%in_columns_elem_of. rewrite Hcol in Hneg. exact Hneg.
Qed.

End MoreTrainingErrors.

(** Training on one hundred readings, then scoring the two readings and the
    readings trained on. *)
Lemma trained_detector_scores_witness :
  exists trained rows,
    @train Examples.toy_sklearn settings Examples.env_a (init settings PyNone)
      (Examples.readings 100) Examples.features = Ok trained /\
    predict trained (Examples.readings 100) = Ok rows /\
    length rows = 100%nat.
Proof.
  destruct (@train Examples.toy_sklearn settings Examples.env_a (init settings PyNone)
              (Examples.readings 100) Examples.features) as [trained|e] eqn:Htrain;
    [|vm_compute in Htrain; discriminate].
  destruct (@trained_detector_scores Examples.toy_sklearn toy_sklearn_laws settings
              _ _ _ _ _ Htrain) as (s & _ & _ & rows & Hrows & Hlen).
  exists trained, rows. split; [reflexivity|]. split; [exact Hrows|].
  rewrite Hlen. vm_compute. reflexivity.
Defined.

(** Training on one hundred readings with a feature the table lacks. *)
Lemma train_unknown_feature_witness :
  exists f,
    @train Examples.toy_sklearn settings Examples.env_a (init settings PyNone)
      (Examples.readings 100) ["cpu_usage"; "temperature"] = Raise (KeyError f) /\
    f ∈ ["cpu_usage"; "temperature"] /\
    f ∉ df_columns (Examples.readings 100).
Proof.
  apply (@train_unknown_feature Examples.toy_sklearn settings).
  - vm_compute. discriminate.
  - exists "temperature". split.
    + apply list_elem_of_further, list_elem_of_here.
    + intros Hin%in_columns_elem_of. vm_compute in Hin. discriminate.
Defined.

(** ** The detector: loading *)

Section MoreLoading.
Variable cfg : Settings.

Lemma exists_false (fs : filesystem) (p : string) :
  fs !! p = None -> Path.exists_ fs p = false.
Proof.
  intros Hp. unfold Path.exists_. apply bool_decide_eq_false. rewrite Hp.
  intros [b Hb]. discriminate.
Qed.

(** X5.  A device is only known once both its ensemble file and its scaler file
    exist: [load] raises [FileNotFoundError] for the ensemble file when that
    is absent, and for the scaler file when only that is absent; the detect
    and model-info endpoints answer 404 in both cases. *)
Theorem load_missing_files (self : t) (device_uuid : string) (fs : filesystem)
    (fetcher : DataFetcher) (hours : Z) :
  (fs !! model_path cfg device_uuid = None ->
     load cfg self device_uuid fs = Raise (FileNotFoundError (model_path cfg device_uuid)) /\
     AnomalyRouter.get_model_info cfg fs device_uuid
       = Handlers.HttpError 404 Handlers.NotTrainedForDevice) /\
  (forall m,
     fs !! model_path cfg device_uuid = Some (BlobIsolationForest m) ->
     fs !! scaler_path cfg device_uuid = None ->
     load cfg self device_uuid fs = Raise (FileNotFoundError (scaler_path cfg device_uuid)) /\
     detect_anomalies cfg fs fetcher device_uuid hours = HttpError 404 ModelNotTrained /\
     AnomalyRouter.get_model_info cfg fs device_uuid
       = Handlers.HttpError 404 Handlers.NotTrainedForDevice).
Proof.
  split.
  - intros Habsent.
    assert (Hload : forall d, load cfg d device_uuid fs
                              = Raise (FileNotFoundError (model_path cfg device_uuid))).
    { intros d. unfold load. now rewrite (exists_false _ _ Habsent). }
    split; [apply Hload|].
    unfold AnomalyRouter.get_model_info. now rewrite Hload.
  - intros m Hmodel Hscaler.
    assert (Hload : forall d, load cfg d device_uuid fs
                              = Raise (FileNotFoundError (scaler_path cfg device_uuid))).
    { intros d. unfold load, load_model, load_scaler.
      rewrite (exists_true _ _ _ Hmodel), Hmodel, Hscaler. reflexivity. }
    split; [apply Hload|]. split.
    + unfold detect_anomalies, detect_body, mbind, Http.outcome_bind, Http.call.
      now rewrite Hload.
    + unfold AnomalyRouter.get_model_info. now rewrite Hload.
Qed.

(** X6.  With the ensemble and scaler files present but no metadata file, [load]
    keeps the attributes of the detector it is called on: a detector that
    already has a name list gets the stored ensemble and scaler, while a
    freshly constructed one ends in [TypeError] at the closing [print],
    which joins the (absent) feature names; the detect and model-info
    endpoints, which load into a fresh detector, then answer 500. *)
Theorem load_without_metadata (self : t) (device_uuid : string) (fs : filesystem)
    (m : option IsolationForest) (s : option StandardScaler)
    (fetcher : DataFetcher) (hours : Z) :
  fs !! model_path cfg device_uuid = Some (BlobIsolationForest m) ->
  fs !! scaler_path cfg device_uuid = Some (BlobStandardScaler s) ->
  fs !! metadata_path cfg device_uuid = None ->
  (forall F, feature_names self = PyStrList F ->
     load cfg self device_uuid fs
     = Ok {| contamination := contamination self;
             model := m;
             scaler := s;
             feature_names := PyStrList F;
             trained_at := trained_at self;
             training_samples := training_samples self |}) /\
  (forall c, load cfg (init cfg c) device_uuid fs = Raise TypeError) /\
  detect_anomalies cfg fs fetcher device_uuid hours
    = HttpError 500 (DetectionFailed TypeError) /\
  AnomalyRouter.get_model_info cfg fs device_uuid
    = Handlers.HttpError 500 (Handlers.Str TypeError).
Proof.
  intros Hmodel Hscaler Hmeta.
  assert (Hload : forall d,
            load cfg d device_uuid fs
            = (_ ← iter_feature_names d;
               Ok {| contamination := contamination d; model := m; scaler := s;
                     feature_names := feature_names d; trained_at := trained_at d;
                     training_samples := training_samples d |})).
  { intros d. unfold load, load_model, load_scaler.
    rewrite (exists_true _ _ _ Hmodel), (exists_false _ _ Hmeta), Hmodel, Hscaler.
    reflexivity. }
  assert (Hfresh : forall c, load cfg (init cfg c) device_uuid fs = Raise TypeError).
  { intros c. rewrite Hload. reflexivity. }
  split; [|split; [exact Hfresh|split]].
  - intros F HF. rewrite Hload. unfold iter_feature_names. rewrite HF. reflexivity.
  - unfold detect_anomalies, detect_body, mbind, Http.outcome_bind, Http.call.
    now rewrite Hfresh.
  - unfold AnomalyRouter.get_model_info. now rewrite Hfresh.
Qed.

End MoreLoading.

(** ** Paths of different devices *)

Lemma list_ascii_app (a b : string) :
  list_ascii_of_string (a +:+ b) = list_ascii_of_string a ++ list_ascii_of_string b.
Proof.
  induction a as [|c a IH]; [reflexivity|].
  simpl. f_equal. exact IH.
Qed.

Lemma list_ascii_inj (a b : string) :
  list_ascii_of_string a = list_ascii_of_string b -> a = b.
Proof.
  intros Heq. rewrite <- (string_of_list_ascii_of_string a),
    <- (string_of_list_ascii_of_string b). now rewrite Heq.
Qed.

(** The characters of [key +:+ suffix], last first. *)
Lemma rev_chars_app (key suffix : string) :
  rev (list_ascii_of_string (key +:+ suffix))
  = rev (list_ascii_of_string suffix) ++ rev (list_ascii_of_string key).
Proof. now rewrite list_ascii_app, rev_app_distr. Qed.

Lemma rev_chars_inj (a b : string) :
  rev (list_ascii_of_string a) = rev (list_ascii_of_string b) -> a = b.
Proof.
  intros Heq. apply list_ascii_inj.
  rewrite <- (rev_involutive (list_ascii_of_string a)), Heq. apply rev_involutive.
Qed.

Lemma join_relative (dir key rest : string) :
  relative key ->
  Path.join dir (key +:+ String (Ascii.ascii_of_nat 95) rest)
  = dir +:+ "/" +:+ key +:+ String (Ascii.ascii_of_nat 95) rest.
Proof.
  unfold Path.join, relative. destruct key as [|c key]; [reflexivity|].
  intros Hrel.
  change (String c key +:+ String (Ascii.ascii_of_nat 95) rest)
    with (String c (key +:+ String (Ascii.ascii_of_nat 95) rest)).
  cbv iota beta. now rewrite Hrel.
Qed.

(** Artifact names of two different keys differ, whatever the two suffixes
    among the three the detector uses. *)
Ltac suffix_clash H :=
  apply (f_equal (fun s => rev (list_ascii_of_string s))) in H;
  rewrite !rev_chars_app in H; cbn in H;
  first [ discriminate H
        | injection H as H; apply rev_chars_inj in H; congruence ].

Lemma no_slash_relative (key : string) : no_slash key -> relative key.
Proof.
  unfold no_slash, relative. destruct key as [|c key]; [trivial|].
  cbn. intros [Hc _]%andb_true_iff. now apply negb_true_iff in Hc.
Qed.

Section OtherDevices.
Variable cfg : Settings.

Lemma detector_paths_of_other_device (d1 d2 : string) :
  d1 <> d2 -> relative d1 -> relative d2 ->
  Forall (fun p1 =>
            Forall (fun p2 => p1 <> p2)
              [model_path cfg d2; scaler_path cfg d2; metadata_path cfg d2])
    [model_path cfg d1; scaler_path cfg d1; metadata_path cfg d1].
Proof.
  intros Hne H1 H2. unfold model_path, scaler_path, metadata_path.
  repeat (once constructor).
  all: rewrite !join_relative by assumption.
  all: intros Heq; apply (inj (String.app _)) in Heq.
  all: injection Heq as Heq.
  all: change ("" +:+ ?x) with x in Heq.
  all: suffix_clash Heq.
Qed.

(** X7.  Saving a model for one device changes nothing for another: for two
    different device ids that contain no slash, so that each file name built
    from them is a single path component, [load] for the first returns
    after a [save] for the second exactly what it returned before. *)
Theorem save_keeps_other_devices (self other : t) (d1 d2 : string) (fs : filesystem) :
  d1 <> d2 -> no_slash d1 -> no_slash d2 ->
  load cfg other d1 (save cfg self d2 fs) = load cfg other d1 fs.
Proof.
  intros Hne H1%no_slash_relative H2%no_slash_relative.
  pose proof (detector_paths_of_other_device d1 d2 Hne H1 H2) as Hpaths.
  repeat match goal with
         | H : Forall _ (_ :: _) |- _ => apply Forall_cons in H as [? H]
         | H : Forall _ [] |- _ => clear H
         end.
  assert (Hmodel : save cfg self d2 fs !! model_path cfg d1 = fs !! model_path cfg d1).
  { unfold save. rewrite !lookup_insert_ne by congruence. reflexivity. }
  assert (Hscaler : save cfg self d2 fs !! scaler_path cfg d1 = fs !! scaler_path cfg d1).
  { unfold save. rewrite !lookup_insert_ne by congruence. reflexivity. }
  assert (Hmeta : save cfg self d2 fs !! metadata_path cfg d1
                  = fs !! metadata_path cfg d1).
  { unfold save. rewrite !lookup_insert_ne by congruence. reflexivity. }
  unfold load, load_model, load_scaler, load_dict, Path.exists_.
  rewrite Hmodel, Hscaler, Hmeta. reflexivity.
Qed.

End OtherDevices.

(** The directory with only the two artifact files of "dev-9". *)
Lemma load_without_metadata_witness :
  load settings (init settings PyNone) "dev-9"
    (<[scaler_path settings "dev-9" := BlobStandardScaler None]>
       (<[model_path settings "dev-9" := BlobIsolationForest None]> ∅))
  = Raise TypeError.
Proof.
  refine (proj1 (proj2 (load_without_metadata settings (init settings PyNone) "dev-9"
            _ None None (Examples.store_with (Examples.readings 0)) 24 _ _ _)) PyNone);
    vm_compute; reflexivity.
Defined.

(** The saved models of the examples hold no scaler for "dev-2" once its
    ensemble alone is written. *)
Lemma load_missing_files_witness :
  load settings (init settings PyNone) "dev-2"
    (<[model_path settings "dev-2" := BlobIsolationForest None]> Examples.saved_models)
  = Raise (FileNotFoundError (scaler_path settings "dev-2")).
Proof.
  refine (proj1 (proj2 (load_missing_files settings (init settings PyNone) "dev-2" _
            (Examples.store_with (Examples.readings 0)) 24) None _ _));
    vm_compute; reflexivity.
Defined.

(** Saving for "dev-2" leaves the model of "dev-1" as it was. *)
Lemma save_keeps_other_devices_witness :
  load settings (init settings PyNone) "dev-1"
    (save settings (Examples.detector_with_offset (-0.6)%float) "dev-2" Examples.saved_models)
  = load settings (init settings PyNone) "dev-1" Examples.saved_models.
Proof.
  apply (save_keeps_other_devices settings); [discriminate|reflexivity|reflexivity].
Defined.

(** ** The forecaster: what [predict] returns *)

Lemma map_fst_combine {A B} (l : list A) (k : list B) :
  length l = length k -> map fst (combine l k) = l.
Proof.
  revert k. induction l as [|a l IH]; intros [|b k]; cbn; try discriminate;
    [reflexivity|].
  intros [= Hlen]. now rewrite IH.
Qed.

Lemma map_snd_combine {A B} (l : list A) (k : list B) :
  length l = length k -> map snd (combine l k) = k.
Proof.
  revert k. induction l as [|a l IH]; intros [|b k]; cbn; try discriminate;
    [reflexivity|].
  intros [= Hlen]. now rewrite IH.
Qed.

(** [range(n)[1:]] counts from 1 to [n - 1]. *)
Lemma range_tail (n : Z) :
  slice_from (range n) 1 = map Z.of_nat (seq 1 (Z.to_nat n - 1)).
Proof.
  unfold slice_from, slice_bound, range. cbn [Z.ltb Z.compare].
  rewrite length_map, length_seq.
  destruct (Z.to_nat n) as [|k] eqn:Hn.
  - reflexivity.
  - replace (Z.to_nat (Z.max 0 (Z.min (Z.of_nat (S k)) 1))) with 1%nat by lia.
    cbn. now rewrite Nat.sub_0_r.
Qed.

(** [l[-L:]] of a list with at least [L > 0] items: the last [L]. *)
Lemma slice_from_last {A} (l : list A) (L : Z) :
  0 < L -> L <= len l ->
  slice_from l (- L) = skipn (length l - Z.to_nat L) l.
Proof.
  intros HL Hlen. unfold slice_from, slice_bound, len in *.
  destruct (Z.ltb_spec (- L) 0); [|lia].
  f_equal. lia.
Qed.

(** [l[-L:]] of a list with fewer than [L] items: all of it. *)
Lemma slice_from_short {A} (l : list A) (L : Z) :
  len l < L -> slice_from l (- L) = l.
Proof.
  intros Hlen. unfold slice_from, slice_bound, len in *.
  destruct (Z.ltb_spec (- L) 0); [|lia].
  replace (Z.to_nat _) with 0%nat by lia. reflexivity.
Qed.

Lemma clip_lower_zero (x : float) :
  PrimFloat.ltb (Np.clip_lower 0 x) 0 = false.
Proof.
  unfold Np.clip_lower. destruct (PrimFloat.ltb x 0) eqn:Hx; [reflexivity|exact Hx].
Qed.

(** What a returning [predict] of the forecaster has computed. *)
Lemma forecast_ok (self : LSTMForecaster.t) (recent_data : DataFrame)
    (value_column : string) (rows : list LSTMForecaster.ForecastRow) :
  LSTMForecaster.predict self recent_data value_column = Ok rows ->
  exists network fitted column L Hz stamps last_timestamp,
    LSTMForecaster.model self = Some network /\
    LSTMForecaster.scaler self = Some fitted /\
    Pd.column recent_data value_column = Some column /\
    LSTMForecaster.as_int (LSTMForecaster.sequence_length self) = Ok L /\
    LSTMForecaster.as_int (LSTMForecaster.forecast_horizon self) = Ok Hz /\
    Pd.column recent_data "timestamp" = Some stamps /\
    last stamps = Some last_timestamp /\
    0 <= Hz + 1 /\
    0 < L /\ len (slice_from column (- L)) = L /\
    Sk.check_column (slice_from column (- L)) = true /\
    length (map (fun k => (last_timestamp + Np.float_of_Z (60 * k))%float)
                (slice_from (range (Hz + 1)) 1))
    = length (map (Sk.minmax_inverse_transform32 fitted)
                  (map Np.float32
                     (forward network
                        (map (Sk.minmax_transform fitted) (slice_from column (- L)))))) /\
    rows = map (fun '(ts, p) =>
                  {| LSTMForecaster.timestamp := ts;
                     LSTMForecaster.predicted_value := p;
                     LSTMForecaster.confidence_lower :=
                       fst (LSTMForecaster.confidence_band p (Np.std column));
                     LSTMForecaster.confidence_upper :=
                       snd (LSTMForecaster.confidence_band p (Np.std column)) |})
               (combine
                  (map (fun k => (last_timestamp + Np.float_of_Z (60 * k))%float)
                       (slice_from (range (Hz + 1)) 1))
                  (map (Sk.minmax_inverse_transform32 fitted)
                       (map Np.float32
                          (forward network
                             (map (Sk.minmax_transform fitted)
                                  (slice_from column (- L))))))).
Proof.
  intros Hrun. unfold LSTMForecaster.predict in Hrun.
  destruct (LSTMForecaster.model self) as [network|]; [|discriminate].
  run_result.
  destruct (Pd.column recent_data value_column) as [column|]; [|discriminate].
  destruct (LSTMForecaster.as_int (LSTMForecaster.sequence_length self)) as [L|];
    [|discriminate].
  destruct (len (slice_from column (- L)) <? L); [discriminate|].
  destruct (LSTMForecaster.scaler self) as [fitted|]; [|discriminate].
  destruct (Sk.check_column (slice_from column (- L))) eqn:Hchecked; [|discriminate].
  destruct (Z.eqb_spec (len (map (Sk.minmax_transform fitted) (slice_from column (- L)))) L)
    as [HlenL|]; [|discriminate].
  destruct (Sk.check_column (map Np.float32 _)); [|discriminate].
  destruct (Pd.column recent_data "timestamp") as [stamps|]; [|discriminate].
  unfold LSTMForecaster.last_item in Hrun.
  destruct (last stamps) as [last_timestamp|] eqn:Hlast; [|discriminate].
  destruct (LSTMForecaster.as_int (LSTMForecaster.forecast_horizon self)) as [Hz|];
    [|discriminate].
  destruct (Z.ltb_spec (Hz + 1) 0) as [|Hperiods]; [discriminate|].
  destruct (Z.eqb_spec
              (len (map (fun k => (last_timestamp + Np.float_of_Z (60 * k))%float)
                        (slice_from (range (Hz + 1)) 1)))
              (len (map (Sk.minmax_inverse_transform32 fitted)
                        (map Np.float32
                           (forward network
                              (map (Sk.minmax_transform fitted)
                                   (slice_from column (- L))))))))
    as [Hsame|]; [|discriminate].
  cbn [negb] in Hrun. rewrite len_map in HlenL.
  assert (Hpos : 0 < L).
  { rewrite <- HlenL. unfold len.
    destruct (slice_from column (- L)); [discriminate Hchecked|cbn [length]; lia]. }
  injection Hrun as <-.
  exists network, fitted, column, L, Hz, stamps, last_timestamp.
  repeat split; try reflexivity; try assumption.
  apply Nat2Z.inj. exact Hsame.
Qed.

(** X8.  The steps of a forecast are stamped one minute apart, the first one a
    minute after the last timestamp of the table given to [predict]: step
    [k] of [Hz] carries that timestamp plus [60 * k] seconds. *)
Theorem forecast_timestamps (self : LSTMForecaster.t) (recent_data : DataFrame)
    (value_column : string) (rows : list LSTMForecaster.ForecastRow) :
  LSTMForecaster.predict self recent_data value_column = Ok rows ->
  exists stamps last_timestamp Hz,
    Pd.column recent_data "timestamp" = Some stamps /\
    last stamps = Some last_timestamp /\
    LSTMForecaster.as_int (LSTMForecaster.forecast_horizon self) = Ok Hz /\
    map LSTMForecaster.timestamp rows
    = map (fun k => (last_timestamp + Np.float_of_Z (60 * Z.of_nat k))%float)
          (seq 1 (Z.to_nat Hz)).
Proof.
  intros Hrun.
  apply forecast_ok in Hrun
    as (network & fitted & column & L & Hz & stamps & last_timestamp
        & _ & _ & _ & _ & HH & Hst & Hlast & Hper & _ & _ & _ & Hlen & ->).
  exists stamps, last_timestamp, Hz. repeat split; try assumption.
  rewrite map_map.
  rewrite (map_ext _ fst) by (intros [ts p]; reflexivity).
  rewrite (map_fst_combine _ _ Hlen).
  rewrite range_tail, map_map.
  replace (Z.to_nat (Hz + 1) - 1)%nat with (Z.to_nat Hz) by lia.
  reflexivity.
Qed.

(** X9.  The network sees exactly the last [L] values of the value column,
    scaled, and none of them is infinite: the predicted values of a forecast
    are the outputs of one forward pass on them, which are float32 numbers,
    scaled back in float32 (the shift and the division are each rounded to
    float32), whatever else the table holds. *)
Theorem forecast_reads_last_window (self : LSTMForecaster.t) (recent_data : DataFrame)
    (value_column : string) (rows : list LSTMForecaster.ForecastRow) :
  LSTMForecaster.predict self recent_data value_column = Ok rows ->
  exists network fitted column L,
    LSTMForecaster.model self = Some network /\
    LSTMForecaster.scaler self = Some fitted /\
    Pd.column recent_data value_column = Some column /\
    LSTMForecaster.as_int (LSTMForecaster.sequence_length self) = Ok L /\
    0 < L <= len column /\
    length (skipn (length column - Z.to_nat L) column) = Z.to_nat L /\
    Sk.check_column (skipn (length column - Z.to_nat L) column) = true /\
    map LSTMForecaster.predicted_value rows
    = map (Sk.minmax_inverse_transform32 fitted)
          (map Np.float32
             (forward network
                (map (Sk.minmax_transform fitted)
                     (skipn (length column - Z.to_nat L) column)))).
Proof.
  intros Hrun.
  apply forecast_ok in Hrun
    as (network & fitted & column & L & Hz & stamps & last_timestamp
        & Hm & Hs & Hc & HL & _ & _ & _ & _ & Hpos & HlenL & Hchecked & Hlen & ->).
  assert (Hle : L <= len column).
  { destruct (Z.le_gt_cases L (len column)) as [|Hgt]; [assumption|].
    rewrite slice_from_short in HlenL by lia. lia. }
  rewrite (slice_from_last _ _ Hpos Hle) in *.
  exists network, fitted, column, L. repeat split; try assumption.
  - unfold len in HlenL. lia.
  - rewrite map_map.
    rewrite (map_ext _ snd) by (intros [ts p]; reflexivity).
    apply (map_snd_combine _ _ Hlen).
Qed.

Lemma forecast_lower_bound_rows (self : LSTMForecaster.t)
    (recent_data : DataFrame) (value_column : string)
    (rows : list LSTMForecaster.ForecastRow) :
  LSTMForecaster.predict self recent_data value_column = Ok rows ->
  forall row, row ∈ rows ->
    PrimFloat.ltb (LSTMForecaster.confidence_lower row) 0 = false.
Proof.
  intros Hrun row Hrow.
  apply forecast_ok in Hrun
    as (network & fitted & column & L & Hz & stamps & last_timestamp
        & _ & _ & _ & _ & _ & _ & _ & _ & _ & _ & _ & _ & ->).
  apply list_elem_of_fmap in Hrow as ([ts p] & -> & _).
  apply clip_lower_zero.
Qed.

(** X10.  The lower confidence bound of a forecast step is never below zero. *)
Theorem forecast_lower_bound_not_negative (self : LSTMForecaster.t)
    (recent_data : DataFrame) (value_column : string)
    (rows : list LSTMForecaster.ForecastRow) :
  LSTMForecaster.predict self recent_data value_column = Ok rows ->
  forall row, row ∈ rows ->
    PrimFloat.ltb (LSTMForecaster.confidence_lower row) 0 = false.
Proof.
  exact (forecast_lower_bound_rows self recent_data value_column rows).
Qed.

(** Three points given to the forecaster with [L = 2], [Hz = 1]: one step,
    stamped 180, predicted from the last two points. *)
Lemma forecast_timestamps_witness :
  exists rows,
    LSTMForecaster.predict Examples.small_forecaster Examples.three_points "value"
      = Ok rows /\
    map LSTMForecaster.timestamp rows = [(120 + 60)%float].
Proof.
  destruct (LSTMForecaster.predict Examples.small_forecaster Examples.three_points "value")
    as [rows|e] eqn:Hrun; [|vm_compute in Hrun; discriminate].
  exists rows. split; [reflexivity|].
  destruct (forecast_timestamps _ _ _ _ Hrun)
    as (stamps & last_timestamp & Hz & Hst & Hlast & HH & ->).
  vm_compute in Hst. injection Hst as <-.
  vm_compute in Hlast. injection Hlast as <-.
  vm_compute in HH. injection HH as <-.
  vm_compute. reflexivity.
Defined.

Lemma forecast_reads_last_window_witness :
  exists rows,
    LSTMForecaster.predict Examples.small_forecaster Examples.three_points "value"
      = Ok rows /\
    map LSTMForecaster.predicted_value rows = [0.5%float].
Proof.
  destruct (LSTMForecaster.predict Examples.small_forecaster Examples.three_points "value")
    as [rows|e] eqn:Hrun; [|vm_compute in Hrun; discriminate].
  exists rows. split; [reflexivity|].
  destruct (forecast_reads_last_window _ _ _ _ Hrun)
    as (network & fitted & column & L & Hm & Hs & Hc & HL & _ & _ & _ & ->).
  vm_compute in Hm. injection Hm as <-.
  vm_compute in Hs. injection Hs as <-.
  vm_compute. reflexivity.
Defined.

Lemma forecast_lower_bound_not_negative_witness :
  exists rows,
    LSTMForecaster.predict Examples.small_forecaster Examples.three_points "value"
      = Ok rows /\
    forall row, row ∈ rows ->
      PrimFloat.ltb (LSTMForecaster.confidence_lower row) 0 = false.
Proof.
  destruct (LSTMForecaster.predict Examples.small_forecaster Examples.three_points "value")
    as [rows|e] eqn:Hrun; [|vm_compute in Hrun; discriminate].
  exists rows. split; [reflexivity|].
  exact (forecast_lower_bound_not_negative _ _ _ _ Hrun).
Defined.

(** ** The forecaster: too little data, training, keys *)

Section MoreForecasting.
Context `{Sklearn} `{Keras}.
Variable cfg : Settings.

(** X11.  A table with fewer rows than the sequence length cannot be forecast
    from: [predict] of a trained forecaster raises the need-recent-points
    error, and the prediction endpoint, which compares the row count itself
    before calling [predict], answers 400. *)
Theorem forecast_needs_full_window (self : LSTMForecaster.t) (recent_data : DataFrame)
    (column : list float) (network : KerasModel) (L : Z) :
  LSTMForecaster.model self = Some network ->
  Pd.column recent_data "value" = Some column ->
  LSTMForecaster.as_int (LSTMForecaster.sequence_length self) = Ok L ->
  len column < L ->
  LSTMForecaster.predict self recent_data "value"
    = Raise (ValueError (NeedRecentPointsMsg L (len column))) /\
  forall fs fetcher device_uuid field,
    LSTMForecaster.load cfg (LSTMForecaster.init cfg PyNone PyNone) device_uuid field fs
      = Ok self ->
    connect fetcher = Ok tt ->
    fetch_device_history fetcher device_uuid field (Z.max 2 (L / 60 + 1)) = Ok recent_data ->
    Forecasts.predict_future cfg fs fetcher device_uuid field
    = HttpError 400
        (NotEnoughRecentData (LSTMForecaster.sequence_length self) (Pd.nrows recent_data)).
Proof.
  intros Hm Hc HL Hshort. split.
  - unfold LSTMForecaster.predict. rewrite Hm, Hc. run_result. rewrite HL.
    rewrite (slice_from_short _ _ Hshort).
    apply Z.ltb_lt in Hshort. now rewrite Hshort.
  - intros fs fetcher device_uuid field Hload Hconn Hfetch.
    unfold Forecasts.predict_future, Forecasts.predict_body, mbind,
      Http.outcome_bind, Http.call.
    rewrite Hload, HL, Hconn, Hfetch.
    assert (Hrows : Pd.nrows recent_data = len column).
    { unfold Pd.nrows. unfold Pd.column in Hc.
      destruct (Pd.in_columns recent_data "value"); [|discriminate].
      injection Hc as <-. now rewrite len_map. }
    rewrite Hrows. apply Z.ltb_lt in Hshort. now rewrite Hshort.
Qed.

Lemma slice_partition {A} (l : list A) (k : Z) :
  slice l 0 k ++ slice_from l k = l.
Proof.
  unfold slice, slice_from.
  replace (slice_bound (Z.of_nat (length l)) 0) with 0.
  - rewrite Z.sub_0_r. cbn [Z.to_nat skipn]. apply firstn_skipn.
  - unfold slice_bound. cbn. lia.
Qed.

(** X12.  What a returning [train] of the forecaster has done: the scaler was
    fitted on the whole value column; the windows of the scaled series, at
    least the minimum number, were cut at 80 % into a training part and a
    validation part that together are all windows in their order; the
    network was fitted on those parts; the forecaster records the window
    count as its sample count and keeps its sequence length and horizon.
    Such a forecaster can always be saved. *)
Theorem forecaster_train_result (env : Env) (self trained : LSTMForecaster.t)
    (df : DataFrame) (value_column : string) :
  LSTMForecaster.train cfg env self df value_column = Ok trained ->
  exists values fitted L Hz X y network hist,
    Pd.column df value_column = Some values /\
    MinMaxScaler_fit values = Some fitted /\
    LSTMForecaster.as_int (LSTMForecaster.sequence_length self) = Ok L /\
    LSTMForecaster.as_int (LSTMForecaster.forecast_horizon self) = Ok Hz /\
    LSTMForecaster.prepare_sequences self (map (Sk.minmax_transform fitted) values)
      = Ok (X, y) /\
    MIN_TRAINING_SAMPLES cfg <= len X /\
    (let split_idx := LSTMForecaster.int_of_float (Np.float_of_Z (len X) * 0.8)%float in
     Sequential_fit L Hz (LSTM_EPOCHS cfg) (LSTM_BATCH_SIZE cfg)
       (slice X 0 split_idx) (slice y 0 split_idx)
       (slice_from X split_idx) (slice_from y split_idx) = Some (network, hist) /\
     slice X 0 split_idx ++ slice_from X split_idx = X /\
     slice y 0 split_idx ++ slice_from y split_idx = y) /\
    trained = {| LSTMForecaster.sequence_length := LSTMForecaster.sequence_length self;
                 LSTMForecaster.forecast_horizon := LSTMForecaster.forecast_horizon self;
                 LSTMForecaster.model := Some network;
                 LSTMForecaster.scaler := Some fitted;
                 LSTMForecaster.trained_at := PyDatetime (now env);
                 LSTMForecaster.training_samples := PyInt (len X);
                 LSTMForecaster.history := Some hist |} /\
    forall device_uuid field fs,
      exists fs', LSTMForecaster.save cfg trained device_uuid field fs = Ok fs'.
Proof.
  unfold LSTMForecaster.train. intros Hrun.
  destruct (Pd.column df value_column) as [values|]; [|discriminate].
  run_result.
  destruct (MinMaxScaler_fit values) as [fitted|] eqn:Hfitted; [|discriminate].
  destruct (LSTMForecaster.prepare_sequences self _) as [[X y]|] eqn:Hprep;
    [|discriminate].
  destruct (Z.ltb_spec (len X) (MIN_TRAINING_SAMPLES cfg)) as [|Hge]; [discriminate|].
  destruct (LSTMForecaster.as_int (LSTMForecaster.sequence_length self)) as [L|];
    [|discriminate].
  destruct (LSTMForecaster.as_int (LSTMForecaster.forecast_horizon self)) as [Hz|];
    [|discriminate].
  destruct (Sequential_fit _ _ _ _ _ _ _ _) as [[network hist]|] eqn:Hfit;
    [|discriminate].
  unfold LSTMForecaster.last_item in Hrun.
  destruct (last (loss hist)); [|discriminate].
  destruct (last (val_loss hist)); [|discriminate].
  injection Hrun as <-.
  exists values, fitted, L, Hz, X, y, network, hist.
  split; [reflexivity|]. split; [exact Hfitted|]. split; [reflexivity|].
  split; [reflexivity|]. split; [exact Hprep|]. split; [assumption|].
  split; [|split; [reflexivity|]].
  - cbv zeta. split; [exact Hfit|]. split; apply slice_partition.
  - intros device_uuid field fs. unfold LSTMForecaster.save. cbn. eauto.
Qed.

(** X13.  The file names of a forecaster depend on the field only through its
    sanitised form: two fields that differ only in dots and underscores
    share their files, so after a [save] for one of them [load] for the
    other returns the saved model. *)
Theorem fields_share_files (self other : LSTMForecaster.t) (device_uuid f1 f2 : string)
    (fs fs' : filesystem) :
  LSTMForecaster.sanitize f1 = LSTMForecaster.sanitize f2 ->
  LSTMForecaster.save cfg self device_uuid f2 fs = Ok fs' ->
  exists loaded,
    LSTMForecaster.load cfg other device_uuid f1 fs' = Ok loaded /\
    LSTMForecaster.model loaded = LSTMForecaster.model self /\
    LSTMForecaster.scaler loaded = LSTMForecaster.scaler self /\
    LSTMForecaster.sequence_length loaded = LSTMForecaster.sequence_length self /\
    LSTMForecaster.forecast_horizon loaded = LSTMForecaster.forecast_horizon self.
Proof.
  intros Hsame Hsave.
  destruct (forecaster_save_load cfg self other device_uuid f2 fs fs' Hsave)
    as (loaded & Hload & HL & HH & _ & Hm & Hs).
  exists loaded. split; [|repeat split; assumption].
  rewrite <- Hload.
  unfold LSTMForecaster.load, LSTMForecaster.model_path, LSTMForecaster.scaler_path,
    LSTMForecaster.metadata_path, LSTMForecaster.artifact_path.
  now rewrite Hsame.
Qed.

End MoreForecasting.

(** X14.  [sanitize] keeps the length of the field name, leaves no dot in it,
    changes nothing when applied again, and leaves a name without dots as it
    is. *)
Theorem sanitize_properties (field : string) :
  String.length (LSTMForecaster.sanitize field) = String.length field /\
  ~ In (Ascii.ascii_of_nat 46) (list_ascii_of_string (LSTMForecaster.sanitize field)) /\
  LSTMForecaster.sanitize (LSTMForecaster.sanitize field) = LSTMForecaster.sanitize field /\
  (~ In (Ascii.ascii_of_nat 46) (list_ascii_of_string field) ->
   LSTMForecaster.sanitize field = field).
Proof.
  induction field as [|c field (IHlen & IHdot & IHidem & IHid)].
  - repeat split; cbn; tauto.
  - cbn [LSTMForecaster.sanitize String.length list_ascii_of_string].
    destruct (Ascii.eqb_spec c (Ascii.ascii_of_nat 46)) as [->|Hc].
    + repeat split.
      * now rewrite IHlen.
      * intros [Hhead|Htail]; [discriminate Hhead|contradiction].
      * cbn [LSTMForecaster.sanitize]. now rewrite IHidem.
      * intros Hno. exfalso. apply Hno. now left.
    + repeat split.
      * now rewrite IHlen.
      * intros [Hhead|Htail]; [congruence|contradiction].
      * cbn [LSTMForecaster.sanitize].
        destruct (Ascii.eqb_spec c (Ascii.ascii_of_nat 46)); [contradiction|].
        now rewrite IHidem.
      * intros Hno. rewrite IHid; [reflexivity|].
        intros Hin. apply Hno. now right.
Qed.

(** A forecaster with [L = 2] given a single point. *)
Lemma forecast_needs_full_window_witness :
  LSTMForecaster.predict Examples.small_forecaster
    {| df_columns := ["timestamp"; "value"]; df_rows := [[60; 1]]%float |} "value"
  = Raise (ValueError (NeedRecentPointsMsg 2 1)).
Proof.
  refine (proj1 (@forecast_needs_full_window settings Examples.small_forecaster
            {| df_columns := ["timestamp"; "value"]; df_rows := [[60; 1]]%float |}
            [1%float] {| forward := fun _ => [0.5%float] |} 2 eq_refl _ eq_refl _)).
  - vm_compute. reflexivity.
  - vm_compute. reflexivity.
Defined.

(** Training on 162 points with the default [L = 50], [Hz = 12]: one hundred
    windows; the trained forecaster is saved. *)
Lemma forecaster_train_result_witness :
  exists trained fs',
    @LSTMForecaster.train Examples.toy_sklearn Examples.toy_keras settings Examples.env_a
       (LSTMForecaster.init settings PyNone PyNone) (Examples.series 162) "value"
    = Ok trained /\
    LSTMForecaster.training_samples trained = PyInt 100 /\
    LSTMForecaster.save settings trained "dev-1" "system.cpuUsage" ∅ = Ok fs'.
Proof.
  destruct (@LSTMForecaster.train Examples.toy_sklearn Examples.toy_keras settings
              Examples.env_a (LSTMForecaster.init settings PyNone PyNone)
              (Examples.series 162) "value") as [trained|e] eqn:Htrain;
    [|vm_compute in Htrain; discriminate].
  destruct (@forecaster_train_result Examples.toy_sklearn Examples.toy_keras settings
              _ _ _ _ _ Htrain)
    as (values & fitted & L & Hz & X & y & network & hist & Hfacts).
  destruct Hfacts as (_ & _ & _ & _ & _ & _ & _ & _ & Hsave).
  destruct (Hsave "dev-1" "system.cpuUsage" ∅) as (fs' & Hfs).
  exists trained, fs'. split; [reflexivity|]. split; [|exact Hfs].
  vm_compute in Htrain. injection Htrain as <-. reflexivity.
Defined.

(** "system.cpuUsage" and "system_cpuUsage" name the same files. *)
Lemma fields_share_files_witness :
  exists fs' loaded,
    LSTMForecaster.save settings Examples.small_forecaster "dev-1" "system.cpuUsage" ∅
      = Ok fs' /\
    LSTMForecaster.load settings (LSTMForecaster.init settings PyNone PyNone)
      "dev-1" "system_cpuUsage" fs' = Ok loaded /\
    LSTMForecaster.sequence_length loaded = PyInt 2.
Proof.
  destruct (fields_share_files settings Examples.small_forecaster
              (LSTMForecaster.init settings PyNone PyNone)
              "dev-1" "system_cpuUsage" "system.cpuUsage" ∅ _ eq_refl eq_refl)
    as (loaded & Hload & _ & _ & HL & _).
  eexists. exists loaded. split; [reflexivity|]. split; [exact Hload|exact HL].
Defined.

(** A field without dots. *)
Lemma sanitize_properties_witness :
  LSTMForecaster.sanitize "temperature" = "temperature".
Proof.
  apply (proj2 (proj2 (proj2 (sanitize_properties "temperature")))).
  vm_compute. intuition discriminate.
Defined.

(** ** The training endpoint of the anomaly router *)

Lemma mapM_total {A B} (f : A -> result B) (l : list A) :
  (forall a, a ∈ l -> exists b, f a = Ok b) -> exists l', mapM f l = Ok l'.
Proof.
  induction l as [|a l IH]; intros Hall; cbn.
  - eexists. reflexivity.
  - destruct (Hall a) as (b & Hb); [apply list_elem_of_here|].
    destruct IH as (l' & Hl').
    { intros x Hx. apply Hall. now apply list_elem_of_further. }
    run_result. rewrite Hb, Hl'. eexists. reflexivity.
Qed.

(** The rows [predict] builds for a table with a timestamp column and at
    least one row all carry a timestamp and a severity. *)
Lemma result_rows_complete (df : DataFrame) (names : list string) (X : matrix)
    (predictions : list Z) (scores : list float) (row : ResultRow) :
  Pd.in_columns df "timestamp" = true ->
  length scores = length (df_rows df) ->
  row ∈ map (result_row (Pd.column df "timestamp") names X predictions scores)
            (seq 0 (length (df_rows df))) ->
  exists point, anomaly_point row = Ok point.
Proof.
  intros Hts Hlen Hrow.
  apply list_elem_of_fmap in Hrow as (i & -> & Hi).
  apply list_elem_of_In, in_seq in Hi.
  unfold anomaly_point, required. run_result.
  cbn [result_row timestamp severity].
  unfold Pd.column. rewrite Hts. cbn.
  destruct (lookup_lt_is_Some_2 (df_rows df) i) as (input & Hinput); [lia|].
  rewrite lookup_map, Hinput. cbn.
  assert (Hpos : (0 <? len scores) = true).
  { apply Z.ltb_lt. unfold len. lia. }
  rewrite Hpos. eexists. reflexivity.
Qed.

Section MoreEndpoints.
Context `{Sklearn}.
Variable cfg : Settings.

(** X15.  The responses of the training endpoint once the telemetry is fetched:
    fewer than 100 rows are answered 400; at least 100 rows with fewer than
    two usable features are answered 400; and a 200 answer means that there
    were at least 100 rows and at least the configured minimum, that the
    model was trained on every usable feature, and that the returned model
    directory is the old one with the trained detector saved for the
    device. *)
Theorem train_anomaly_detector_responses (env : Env) (fs : filesystem)
    (fetcher : DataFetcher) (device_uuid : string) (hours : Z)
    (contamination : option float) (df : DataFrame) :
  connect fetcher = Ok tt ->
  fetch_multi_metric_history fetcher device_uuid hours = Ok df ->
  (Pd.nrows df < 100 ->
     AnomalyRouter.train_anomaly_detector cfg env fs fetcher device_uuid hours contamination
     = Handlers.HttpError 400 (Handlers.NotEnoughSamples (Pd.nrows df))) /\
  (100 <= Pd.nrows df -> len (AnomalyRouter.available_features df) < 2 ->
     AnomalyRouter.train_anomaly_detector cfg env fs fetcher device_uuid hours contamination
     = Handlers.HttpError 400
         (Handlers.NotEnoughFeatures (len (AnomalyRouter.available_features df))
            (AnomalyRouter.available_features df))) /\
  (forall r fs',
     AnomalyRouter.train_anomaly_detector cfg env fs fetcher device_uuid hours contamination
     = Handlers.Http200 (r, fs') ->
     100 <= Pd.nrows df /\ MIN_TRAINING_SAMPLES cfg <= Pd.nrows df /\
     AnomalyRouter.tr_features r = AnomalyRouter.available_features df /\
     2 <= len (AnomalyRouter.tr_features r) /\
     AnomalyRouter.tr_training_samples r = Pd.nrows df /\
     exists trained,
       train cfg env
         (init cfg (match contamination with Some c => PyFloat c | None => PyNone end))
         df (AnomalyRouter.available_features df) = Ok trained /\
       fs' = save cfg trained device_uuid fs).
Proof.
  intros Hconn Hfetch.
  unfold AnomalyRouter.train_anomaly_detector, AnomalyRouter.train_body, mbind,
    Handlers.outcome_bind, Handlers.call.
  rewrite Hconn, Hfetch.
  destruct (Z.ltb_spec (Pd.nrows df) 100) as [Hlt|Hge].
  { split; [reflexivity|]. split; [lia|discriminate]. }
  split; [lia|].
  destruct (Z.ltb_spec (len (AnomalyRouter.available_features df)) 2) as [Hfew|Hmany].
  { split; [reflexivity|discriminate]. }
  split; [lia|].
  intros r fs'.
  destruct (train cfg env _ df (AnomalyRouter.available_features df))
    as [trained|e] eqn:Htrain; [|discriminate].
  intros [= <- <-].
  apply train_ok in Htrain as Hfacts. destruct Hfacts as (Hmin & _).
  cbn. repeat split; try assumption.
  exists trained. split; reflexivity.
Qed.

(** X16.  After the training endpoint has answered 200, the device is served from
    the model directory it left: the model-info endpoint answers 200 and
    reports the model as trained on the features of the training answer, and
    the detector loads from that directory with its scaler.  For a fetched
    table that has a timestamp column and a column for each of those
    features, the detect endpoint answers 200, with every row analysed, when
    scikit-learn accepts the table (a row, no infinite feature cell, every
    scaled cell finite in float32); for a table with a row that scikit-learn
    refuses, it answers 500. *)
Theorem trained_device_is_served (env : Env) (fs fs' : filesystem)
    (fetcher : DataFetcher) (device_uuid : string) (hours : Z)
    (contamination : option float) (r : AnomalyRouter.TrainResponse) :
  AnomalyRouter.train_anomaly_detector cfg env fs fetcher device_uuid hours contamination
    = Handlers.Http200 (r, fs') ->
  (exists info,
     AnomalyRouter.get_model_info cfg fs' device_uuid = Handlers.Http200 info /\
     AnomalyRouter.mi_model_info info !! "trained" = Some (PyBool true) /\
     AnomalyRouter.mi_model_info info !! "features"
       = Some (PyStrList (AnomalyRouter.tr_features r)) /\
     AnomalyRouter.mi_model_info info !! "training_samples"
       = Some (PyInt (AnomalyRouter.tr_training_samples r))) /\
  exists detector s,
    load cfg (init cfg PyNone) device_uuid fs' = Ok detector /\
    scaler detector = Some s /\
    forall (reader : DataFetcher) (hours' : Z) (table : DataFrame),
      connect reader = Ok tt ->
      fetch_multi_metric_history reader device_uuid hours' = Ok table ->
      "timestamp" ∈ df_columns table ->
      (forall f, f ∈ AnomalyRouter.tr_features r -> f ∈ df_columns table) ->
      (Sk.check_array_allow_nan (Pd.values table (AnomalyRouter.tr_features r)) = true ->
       Sk.check_array_float32
         (map (ss_transform_row s) (Pd.values table (AnomalyRouter.tr_features r)))
       = true ->
       exists resp,
         detect_anomalies cfg fs' reader device_uuid hours' = Http200 resp /\
         analyzed_points resp = Pd.nrows table) /\
      (df_rows table <> [] ->
       Sk.check_array_allow_nan (Pd.values table (AnomalyRouter.tr_features r))
       && Sk.check_array_float32
            (map (ss_transform_row s) (Pd.values table (AnomalyRouter.tr_features r)))
       = false ->
       exists what,
         detect_anomalies cfg fs' reader device_uuid hours'
         = HttpError 500 (DetectionFailed (LibraryError what))).
Proof.
  intros Hanswer.
  unfold AnomalyRouter.train_anomaly_detector, AnomalyRouter.train_body, mbind,
    Handlers.outcome_bind, Handlers.call in Hanswer.
  destruct (connect fetcher); [|discriminate].
  destruct (fetch_multi_metric_history fetcher device_uuid hours) as [df|]; [|discriminate].
  destruct (Pd.nrows df <? 100); [discriminate|].
  destruct (len (AnomalyRouter.available_features df) <? 2); [discriminate|].
  destruct (train cfg env _ df (AnomalyRouter.available_features df))
    as [trained|e] eqn:Htrain; [|discriminate].
  injection Hanswer as <- <-. cbn [AnomalyRouter.tr_features AnomalyRouter.tr_training_samples].
  apply train_ok in Htrain as (_ & _ & s & m & _ & _ & Htrained).
  set (features := AnomalyRouter.available_features df) in *.
  assert (Hnames : feature_names trained = PyStrList features) by now subst trained.
  destruct (detector_save_load cfg trained (init cfg PyNone) device_uuid fs features Hnames)
    as (loaded & Hload & Hlf & _ & Hls & Hlm & Hlsc).
  assert (Hm : model loaded = Some m) by (rewrite Hlm; now subst trained).
  assert (Hs : scaler loaded = Some s) by (rewrite Hlsc; now subst trained).
  assert (Hn : training_samples loaded = PyInt (Pd.nrows df))
    by (rewrite Hls; now subst trained).
  split.
  - unfold AnomalyRouter.get_model_info. rewrite Hload.
    eexists. split; [reflexivity|].
    cbn [AnomalyRouter.mi_model_info]. unfold get_model_info.
    rewrite Hm, Hlf, Hn. repeat split.
  - exists loaded, s. split; [exact Hload|]. split; [exact Hs|].
    intros reader hours' table Hconn Hfetch Hts Hcols.
    apply in_columns_elem_of in Hts. apply all_present_iff in Hcols.
    assert (Hrows : df_rows table <> [] -> (Pd.nrows table =? 0) = false).
    { intros Hne. apply Z.eqb_neq. unfold Pd.nrows, len.
      destruct (df_rows table); [congruence|]. cbn. lia. }
    split; [|intros Hne Hbad;
             destruct (predict_refused loaded table m s features Hm Hs Hlf Hcols Hbad)
               as (what & Hrefused);
             exists what;
             unfold detect_anomalies, detect_body, mbind, Http.outcome_bind, Http.call;
             now rewrite Hload, Hconn, Hfetch, (Hrows Hne), Hrefused].
    intros Hgood Hgood32.
    pose proof (predict_returns loaded table m s features Hm Hs Hlf Hcols Hgood Hgood32)
      as Hpredict.
    unfold detect_anomalies, detect_body, mbind, Http.outcome_bind, Http.call.
    rewrite Hload, Hconn, Hfetch.
    rewrite (Hrows (checked_has_rows table features Hgood)), Hpredict.
    destruct (mapM_total anomaly_point
                (firstn 100
                   (filter (fun row => is_anomaly row = true)
                      (map (result_row (Pd.column table "timestamp") features
                              (Pd.values table features)
                              (Sk.labels m (map (ss_transform_row s)
                                               (Pd.values table features)))
                              (Sk.scores m (map (ss_transform_row s)
                                                     (Pd.values table features))))
                           (seq 0 (length (df_rows table)))))))
      as (points & Hpoints).
    { intros row Hrow. apply elem_of_take in Hrow as (i & Hi & _).
      apply list_elem_of_lookup_2, list_elem_of_filter in Hi as [_ Hrow].
      eapply (result_rows_complete table features); [exact Hts| |exact Hrow].
      unfold Sk.scores, Pd.values. now rewrite !length_map. }
    rewrite Hpoints. eexists. split; [reflexivity|].
    cbn [analyzed_points]. unfold Pd.nrows, len.
    now rewrite length_map, length_seq.
Qed.

(** X17.  A fetched table that lacks a column the model was trained on is not
    answered as a client error: [predict] raises the missing-features
    error, and the detect endpoint turns it into a 500. *)
Theorem detect_feature_mismatch_is_500 (fs : filesystem) (fetcher : DataFetcher)
    (device_uuid : string) (hours : Z) (detector : t) (m : IsolationForest)
    (F : list string) (df : DataFrame) :
  load cfg (init cfg PyNone) device_uuid fs = Ok detector ->
  model detector = Some m -> feature_names detector = PyStrList F ->
  connect fetcher = Ok tt ->
  fetch_multi_metric_history fetcher device_uuid hours = Ok df ->
  df_rows df <> [] ->
  (exists f, f ∈ F /\ f ∉ df_columns df) ->
  detect_anomalies cfg fs fetcher device_uuid hours
  = HttpError 500
      (DetectionFailed
         (ValueError (MissingFeaturesMsg (filter (fun f => negb (Pd.in_columns df f)) F)))).
Proof.
  intros Hload Hm HF Hconn Hfetch Hne Habsent.
  unfold detect_anomalies, detect_body, mbind, Http.outcome_bind, Http.call.
  rewrite Hload, Hconn, Hfetch.
  assert (Hrows : (Pd.nrows df =? 0) = false).
  { apply Z.eqb_neq. unfold Pd.nrows, len. destruct (df_rows df); [congruence|].
    cbn. lia. }
  rewrite Hrows, (predict_trained detector df m F Hm HF).
  apply some_absent_iff in Habsent. rewrite Habsent. reflexivity.
Qed.

End MoreEndpoints.

(** One hundred readings sent to the training endpoint; ninety-nine are
    refused. *)
Lemma train_anomaly_detector_responses_witness :
  @AnomalyRouter.train_anomaly_detector Examples.toy_sklearn settings Examples.env_a ∅
     (Examples.store_with (Examples.readings 99)) "dev-1" 168 None
  = Handlers.HttpError 400 (Handlers.NotEnoughSamples 99).
Proof.
  apply (proj1 (@train_anomaly_detector_responses Examples.toy_sklearn settings
                  Examples.env_a ∅ (Examples.store_with (Examples.readings 99))
                  "dev-1" 168 None (Examples.readings 99) eq_refl eq_refl)).
  vm_compute. reflexivity.
Defined.

(** Training "dev-1" on one hundred readings, then detecting on the two
    readings of the examples. *)
Lemma trained_device_is_served_witness :
  MoreExamples.training_answer
  = Handlers.Http200 (MoreExamples.trained_response, MoreExamples.trained_models) /\
  exists resp,
    detect_anomalies settings MoreExamples.trained_models
      (Examples.store_with Examples.two_readings) "dev-1" 24
    = Http200 resp /\
    analyzed_points resp = Pd.nrows Examples.two_readings.
Proof.
  assert (Hanswer : MoreExamples.training_answer
                    = Handlers.Http200 (MoreExamples.trained_response,
                                        MoreExamples.trained_models)).
  { vm_cast_no_check
      (eq_refl (Handlers.Http200 (MoreExamples.trained_response,
                                  MoreExamples.trained_models))). }
  assert (Hfeatures : AnomalyRouter.tr_features MoreExamples.trained_response
                      = Examples.features) by (vm_compute; reflexivity).
  assert (Haccepted :
    match load settings (init settings PyNone) "dev-1" MoreExamples.trained_models with
    | Ok detector =>
        match scaler detector with
        | Some s => Sk.check_array_float32
                      (map (ss_transform_row s)
                           (Pd.values Examples.two_readings Examples.features))
        | None => false
        end
    | Raise _ => false
    end = true) by (vm_compute; reflexivity).
  split; [exact Hanswer|].
  destruct (proj2 (@trained_device_is_served Examples.toy_sklearn settings Examples.env_a
                     ∅ MoreExamples.trained_models
                     (Examples.store_with (Examples.readings 100)) "dev-1" 168 None
                     MoreExamples.trained_response Hanswer))
    as (detector & s & Hload & Hs & Hserved).
  rewrite Hload, Hs in Haccepted.
  apply (proj1 (Hserved (Examples.store_with Examples.two_readings) 24
                  Examples.two_readings eq_refl eq_refl
                  ltac:(apply in_columns_elem_of; reflexivity)
                  ltac:(intros f; rewrite Hfeatures; intros Hin;
                        apply in_columns_elem_of;
                        unfold Examples.features in Hin; rewrite !elem_of_cons in Hin;
                        destruct Hin as [->|[->|Hin]];
                        [reflexivity|reflexivity|inversion Hin]))).
  - rewrite Hfeatures. vm_compute. reflexivity.
  - rewrite Hfeatures. exact Haccepted.
Defined.

(** The saved model of "dev-1" asked to score a table without the memory
    column. *)
Lemma detect_feature_mismatch_is_500_witness :
  detect_anomalies settings Examples.saved_models
    (Examples.store_with
       {| df_columns := ["timestamp"; "cpu_usage"]; df_rows := [[0; 50]%float] |})
    "dev-1" 24
  = HttpError 500
      (DetectionFailed (ValueError (MissingFeaturesMsg ["memory_usage_percent"]))).
Proof.
  destruct (detector_save_load settings (Examples.detector_with_offset 0)
              (init settings PyNone) "dev-1" ∅ Examples.features eq_refl)
    as (loaded & Hload & Hnames & _ & _ & Hmodel & _).
  apply (detect_feature_mismatch_is_500 settings Examples.saved_models
           (Examples.store_with
              {| df_columns := ["timestamp"; "cpu_usage"]; df_rows := [[0; 50]%float] |})
           "dev-1" 24 loaded
           {| if_score_sample := fun row => (nth 0 row nan / (-100))%float;
              offset_ := 0%float |}
           Examples.features
           {| df_columns := ["timestamp"; "cpu_usage"]; df_rows := [[0; 50]%float] |}
           Hload Hmodel Hnames eq_refl eq_refl).
  - discriminate.
  - exists "memory_usage_percent". split.
    + apply list_elem_of_further, list_elem_of_here.
    + intros Hin%in_columns_elem_of. vm_compute in Hin. discriminate.
Defined.

(** ** The forecast router *)

Section MoreForecastEndpoints.
Context `{Sklearn} `{Keras}.
Variable cfg : Settings.

(** X18.  A 200 answer of the prediction endpoint: the model was loaded, at least
    two hours of history were requested ([max(2, L // 60 + 1)]), the fetched
    table had at least [L] rows, and the answer lists exactly [Hz]
    predictions, none with a negative lower bound. *)
Theorem predict_future_answer (fs : filesystem) (fetcher : DataFetcher)
    (device_uuid field : string) (resp : Forecasts.ForecastResponse) :
  Forecasts.predict_future cfg fs fetcher device_uuid field = Http200 resp ->
  exists forecaster L Hz df,
    LSTMForecaster.load cfg (LSTMForecaster.init cfg PyNone PyNone) device_uuid field fs
      = Ok forecaster /\
    LSTMForecaster.as_int (LSTMForecaster.sequence_length forecaster) = Ok L /\
    LSTMForecaster.as_int (LSTMForecaster.forecast_horizon forecaster) = Ok Hz /\
    2 <= Z.max 2 (L / 60 + 1) /\
    fetch_device_history fetcher device_uuid field (Z.max 2 (L / 60 + 1)) = Ok df /\
    L <= Pd.nrows df /\
    length (Forecasts.predictions resp) = Z.to_nat Hz /\
    forall p, p ∈ Forecasts.predictions resp ->
      PrimFloat.ltb (Forecasts.p_confidence_lower p) 0 = false.
Proof.
  unfold Forecasts.predict_future.
  destruct (Forecasts.predict_body cfg fs fetcher device_uuid field)
    as [r|e|code d] eqn:Hbody; [|destruct e; discriminate|discriminate].
  intros [= <-].
  unfold Forecasts.predict_body, mbind, Http.outcome_bind, Http.call in Hbody.
  destruct (LSTMForecaster.load cfg _ device_uuid field fs) as [forecaster|] eqn:Hload;
    [|discriminate].
  destruct (LSTMForecaster.as_int (LSTMForecaster.sequence_length forecaster))
    as [L|] eqn:HL; [|discriminate].
  destruct (connect fetcher); [|discriminate].
  destruct (fetch_device_history fetcher device_uuid field _) as [df|] eqn:Hfetch;
    [|discriminate].
  destruct (Z.ltb_spec (Pd.nrows df) L) as [|Hge]; [discriminate|].
  destruct (LSTMForecaster.predict forecaster df "value") as [rows|] eqn:Hpredict;
    [|discriminate].
  injection Hbody as <-. cbn [Forecasts.predictions].
  pose proof (forecast_lower_bound_rows _ _ _ _ Hpredict) as Hlower.
  apply forecast_ok in Hpredict
    as (network & fitted & column & L' & Hz & stamps & last_timestamp
        & _ & _ & _ & HL' & HH & _ & _ & Hper & _ & _ & _ & Hlen & Hrows).
  exists forecaster, L, Hz, df.
  split; [reflexivity|]. split; [exact HL|]. split; [exact HH|].
  split; [lia|]. split; [exact Hfetch|]. split; [exact Hge|]. split.
  - rewrite length_map, Hrows, length_map, length_combine, <- Hlen, Nat.min_id.
    rewrite length_map, range_tail, length_map, length_seq. lia.
  - intros p Hp. apply list_elem_of_fmap in Hp as (row & -> & Hrow).
    cbn [Forecasts.p_confidence_lower]. now apply Hlower.
Qed.


(** X20.  The model-info endpoint of the forecast router answers 404 when the
    network file of the device and field is absent, and after a [save] it
    answers 200 and reports the saved sequence length, horizon and sample
    count of a trained model. *)
Theorem forecast_model_info (self : LSTMForecaster.t) (device_uuid field : string)
    (fs fs' : filesystem) :
  (fs !! LSTMForecaster.model_path cfg device_uuid field = None ->
     ForecastRouter.get_model_info cfg fs device_uuid field
     = Handlers.HttpError 404 Handlers.NotTrainedForDeviceField) /\
  (LSTMForecaster.save cfg self device_uuid field fs = Ok fs' ->
   exists info,
     ForecastRouter.get_model_info cfg fs' device_uuid field = Handlers.Http200 info /\
     ForecastRouter.mi_model_info info !! "trained" = Some (PyBool true) /\
     ForecastRouter.mi_model_info info !! "sequence_length"
       = Some (LSTMForecaster.sequence_length self) /\
     ForecastRouter.mi_model_info info !! "forecast_horizon"
       = Some (LSTMForecaster.forecast_horizon self) /\
     ForecastRouter.mi_model_info info !! "training_samples"
       = Some (LSTMForecaster.training_samples self)).
Proof.
  split.
  - intros Habsent. unfold ForecastRouter.get_model_info, LSTMForecaster.load.
    now rewrite (exists_false _ _ Habsent).
  - intros Hsave.
    destruct (forecaster_save_load cfg self (LSTMForecaster.init cfg PyNone PyNone)
                device_uuid field fs fs' Hsave)
      as (loaded & Hload & HL & HH & Hn & Hm & _).
    unfold ForecastRouter.get_model_info. rewrite Hload.
    eexists. split; [reflexivity|].
    cbn [ForecastRouter.mi_model_info]. unfold LSTMForecaster.get_model_info.
    rewrite HL, HH, Hn, Hm.
    unfold LSTMForecaster.save in Hsave.
    destruct (LSTMForecaster.model self); [|discriminate].
    repeat split.
Qed.

End MoreForecastEndpoints.

(** The small forecaster, saved for "dev-1", asked for a forecast from the
    three points of the examples. *)
Lemma predict_future_answer_witness :
  exists resp Hz,
    Forecasts.predict_future settings MoreExamples.saved_forecasters
      (Examples.store_with Examples.three_points) "dev-1" "system.cpuUsage"
    = Http200 resp /\
    length (Forecasts.predictions resp) = Z.to_nat Hz /\
    forall p, p ∈ Forecasts.predictions resp ->
      PrimFloat.ltb (Forecasts.p_confidence_lower p) 0 = false.
Proof.
  destruct (Forecasts.predict_future settings MoreExamples.saved_forecasters
              (Examples.store_with Examples.three_points) "dev-1" "system.cpuUsage")
    as [resp|code d] eqn:Hrun; [|vm_compute in Hrun; discriminate].
  destruct (predict_future_answer settings _ _ _ _ _ Hrun)
    as (forecaster & L & Hz & df & _ & _ & _ & _ & _ & _ & Hlen & Hlower).
  exists resp, Hz. split; [reflexivity|]. split; [exact Hlen|exact Hlower].
Defined.


(** The model-info endpoint after the small forecaster was saved. *)
Lemma forecast_model_info_witness :
  exists info,
    ForecastRouter.get_model_info settings MoreExamples.saved_forecasters
      "dev-1" "system.cpuUsage" = Handlers.Http200 info /\
    ForecastRouter.mi_model_info info !! "sequence_length" = Some (PyInt 2) /\
    ForecastRouter.mi_model_info info !! "forecast_horizon" = Some (PyInt 1).
Proof.
  destruct (proj2 (forecast_model_info settings
                     Examples.small_forecaster "dev-1" "system.cpuUsage" ∅
                     MoreExamples.saved_forecasters)
              eq_refl)
    as (info & Hinfo & _ & HL & HH & _).
  exists info. split; [exact Hinfo|]. split; [exact HL|exact HH].
Defined.

(** ** The data fetcher *)

Lemma index_of_Some (f : string) (cols : list string) (i : nat) :
  Pd.index_of f cols = Some i -> cols !! i = Some f.
Proof.
  revert i. induction cols as [|c cols IH]; intros i; cbn; [discriminate|].
  destruct (String.eqb_spec f c) as [->|Hne].
  - now intros [= <-].
  - destruct (Pd.index_of f cols) as [j|]; [|discriminate].
    intros [= <-]. now apply IH.
Qed.

Lemma index_of_None (f : string) (cols : list string) :
  Pd.index_of f cols = None -> f ∉ cols.
Proof.
  induction cols as [|c cols IH]; cbn; [intros _ Hin; inversion Hin|].
  destruct (String.eqb_spec f c) as [->|Hne]; [discriminate|].
  destruct (Pd.index_of f cols); [discriminate|].
  intros _ Hin. apply elem_of_cons in Hin as [->|Hin]; [congruence|]. now apply IH.
Qed.

Lemma assign_columns (df : DataFrame) (name : string) (values : list float) (f : string) :
  f ∈ df_columns (Fetcher.assign df name values) <-> f ∈ df_columns df \/ f = name.
Proof.
  unfold Fetcher.assign.
  destruct (Pd.index_of name (df_columns df)) as [i|] eqn:Hindex; cbn [df_columns].
  - apply index_of_Some, list_elem_of_lookup_2 in Hindex.
    split; [now left|]. now intros [Hin| ->].
  - rewrite elem_of_app, list_elem_of_singleton. reflexivity.
Qed.

Lemma assign_nrows (df : DataFrame) (name : string) (values : list float) :
  length values = length (df_rows df) ->
  length (df_rows (Fetcher.assign df name values)) = length (df_rows df).
Proof.
  intros Hlen. unfold Fetcher.assign.
  destruct (Pd.index_of name (df_columns df)); cbn [df_rows];
    rewrite length_zip_with; lia.
Qed.

Lemma with_percent_columns (df : DataFrame) (name used total f : string) :
  f ∈ df_columns (Fetcher.with_percent df name used total)
  <-> f ∈ df_columns df \/ f = name.
Proof. unfold Fetcher.with_percent. destruct (_ && _); apply assign_columns. Qed.

Lemma with_percent_nrows (df : DataFrame) (name used total : string) :
  length (df_rows (Fetcher.with_percent df name used total)) = length (df_rows df).
Proof.
  unfold Fetcher.with_percent, Fetcher.percent_of.
  destruct (_ && _); apply assign_nrows; now rewrite length_map.
Qed.

Lemma is_nan_default (o : option float) :
  Np.is_nan (default nan o) = false -> exists v, o = Some v /\ Np.is_nan v = false.
Proof.
  destruct o as [v|]; cbn.
  - intros Hv. now exists v.
  - intros Hnan. vm_compute in Hnan. discriminate.
Qed.

(** X21.  What [fetch_multi_metric_history] returns, for every table the driver
    hands back: the fetcher was connected; the returned table has the
    columns of the query result and the two usage percentages; it has no
    more rows than the query result; and every row of it has a cpu usage
    that is not NaN. *)
Theorem fetched_table_is_clean (self : Fetcher.t) (device_uuid : string) (hours : Z)
    (df : DataFrame) :
  Fetcher.fetch_multi_metric_history self device_uuid hours = Fetcher.Fetched df ->
  exists c raw,
    Fetcher.connection self = Some c /\
    Fetcher.read_sql_query c (Fetcher.MultiMetricHistory device_uuid hours) = Some raw /\
    (forall f, f ∈ df_columns df <->
               f ∈ df_columns raw \/ f = "memory_usage_percent" \/ f = "disk_usage_percent") /\
    Pd.nrows df <= Pd.nrows raw /\
    forall row, row ∈ df_rows df ->
      exists v, Pd.cell df row "cpu_usage" = Some v /\ Np.is_nan v = false.
Proof.
  unfold Fetcher.fetch_multi_metric_history.
  destruct (Fetcher.connection self) as [c|]; [|discriminate].
  destruct (Fetcher.read_sql_query c _) as [raw|] eqn:Hread; [|discriminate].
  set (df1 := Fetcher.with_percent raw "memory_usage_percent" "memory_used" "memory_total").
  set (df2 := Fetcher.with_percent df1 "disk_usage_percent" "disk_used" "disk_total").
  unfold Fetcher.dropna.
  destruct (Pd.in_columns df2 "cpu_usage") eqn:Hcpu; [|discriminate].
  intros [= <-]. exists c, raw.
  split; [reflexivity|]. split; [exact Hread|]. split; [|split].
  - intros f. cbn [df_columns]. subst df2 df1.
    rewrite !with_percent_columns. tauto.
  - unfold Pd.nrows, len. cbn [df_rows].
    pose proof (length_filter
                  (fun row => negb (Np.is_nan (default nan (Pd.cell df2 row "cpu_usage"))))
                  (df_rows df2)) as Hle.
    subst df2 df1. rewrite !with_percent_nrows in Hle. lia.
  - intros row Hrow. cbn [df_rows] in Hrow.
    apply list_elem_of_filter in Hrow as [Hkeep _].
    apply Is_true_true, negb_true_iff, is_nan_default in Hkeep.
    exact Hkeep.
Qed.

Lemma cell_at (cols : list string) (rows : list (list float)) (row : list float)
    (f : string) (i : nat) :
  Pd.index_of f cols = Some i ->
  default nan (Pd.cell {| df_columns := cols; df_rows := rows |} row f) = nth i row nan.
Proof.
  intros Hindex. unfold Pd.cell. cbn [df_columns]. rewrite Hindex. cbn.
  symmetry. apply nth_lookup.
Qed.

Lemma zip_with_map_self {A B C} (f : A -> B -> C) (g : A -> B) (l : list A) :
  zip_with f l (map g l) = map (fun a => f a (g a)) l.
Proof. induction l as [|a l IH]; cbn; [reflexivity|now rewrite IH]. Qed.

Lemma filter_map_bool {A B} (p : B -> bool) (g : A -> B) (l : list A) :
  filter (fun b => p b) (map g l) = map g (filter (fun a => p (g a)) l).
Proof.
  induction l as [|a l IH]; [reflexivity|].
  cbn [map]. destruct (p (g a)) eqn:Hp.
  - rewrite !filter_cons_True by (cbn beta; now rewrite Hp). cbn [map]. now rewrite IH.
  - rewrite !filter_cons_False by (cbn beta; now rewrite Hp). exact IH.
Qed.

(** The columns of the multi-metric query, in its order. *)
Lemma query_rows_extended (rows : list (list float)) :
  Forall (fun row => length row = 8%nat) rows ->
  map (fun row : list float =>
         (row ++ [nth 2 row nan / nth 3 row nan * 100])
         ++ [nth 4 (row ++ [nth 2 row nan / nth 3 row nan * 100]) nan
             / nth 5 (row ++ [nth 2 row nan / nth 3 row nan * 100]) nan * 100])%float
      rows
  = map (fun row : list float =>
           row ++ [nth 2 row nan / nth 3 row nan * 100;
                   nth 4 row nan / nth 5 row nan * 100])%float
        rows.
Proof.
  induction 1 as [|row rows Hrow _ IH]; [reflexivity|].
  cbn [map]. rewrite IH. f_equal.
  do 9 (destruct row as [|? row]; try discriminate Hrow). reflexivity.
Qed.

Lemma query_rows_filtered (rows : list (list float)) :
  Forall (fun row => length row = 8%nat) rows ->
  filter (fun row : list float =>
            negb (Np.is_nan
                    (nth 1 (row ++ [nth 2 row nan / nth 3 row nan * 100;
                                    nth 4 row nan / nth 5 row nan * 100])%float nan)))
         rows
  = filter (fun row : list float => negb (Np.is_nan (nth 1 row nan))) rows.
Proof.
  induction 1 as [|row rows Hrow _ IH]; [reflexivity|].
  rewrite !filter_cons, IH.
  do 9 (destruct row as [|? row]; try discriminate Hrow). reflexivity.
Qed.

(** X22.  On a query result of the shape the multi-metric query selects (its
    eight columns, every row with eight cells), the fetch returns exactly
    the rows whose cpu usage is not NaN, in order, each followed by memory
    used / memory total * 100 and disk used / disk total * 100. *)
Theorem fetch_multi_metric_on_query_shape (self : Fetcher.t) (c : Fetcher.Connection)
    (device_uuid : string) (hours : Z) (raw : DataFrame) :
  Fetcher.connection self = Some c ->
  Fetcher.read_sql_query c (Fetcher.MultiMetricHistory device_uuid hours) = Some raw ->
  df_columns raw = ["timestamp"; "cpu_usage"; "memory_used"; "memory_total";
                    "disk_used"; "disk_total"; "uptime"; "temperature"] ->
  Forall (fun row => length row = 8%nat) (df_rows raw) ->
  Fetcher.fetch_multi_metric_history self device_uuid hours
  = Fetcher.Fetched {|
      df_columns := df_columns raw ++ ["memory_usage_percent"; "disk_usage_percent"];
      df_rows :=
        map (fun row : list float =>
               row ++ [nth 2 row nan / nth 3 row nan * 100;
                       nth 4 row nan / nth 5 row nan * 100])%float
            (filter (fun row : list float => negb (Np.is_nan (nth 1 row nan)))
                    (df_rows raw))
    |}.
Proof.
  intros Hconn Hread Hcols Hrows.
  unfold Fetcher.fetch_multi_metric_history. rewrite Hconn, Hread.
  destruct raw as [cols rows]. cbn [df_columns df_rows] in *. subst cols.
  set (cols := ["timestamp"; "cpu_usage"; "memory_used"; "memory_total";
                "disk_used"; "disk_total"; "uptime"; "temperature"]).
  assert (Hfirst :
    Fetcher.with_percent {| df_columns := cols; df_rows := rows |}
      "memory_usage_percent" "memory_used" "memory_total"
    = {| df_columns := cols ++ ["memory_usage_percent"];
         df_rows := map (fun row : list float =>
                           row ++ [nth 2 row nan / nth 3 row nan * 100])%float rows |}).
  { unfold Fetcher.with_percent, Fetcher.assign, Fetcher.percent_of.
    change (Pd.in_columns {| df_columns := cols; df_rows := rows |} "memory_used") with true.
    change (Pd.in_columns {| df_columns := cols; df_rows := rows |} "memory_total") with true.
    cbn [andb df_columns df_rows].
    change (Pd.index_of "memory_usage_percent" cols) with (@None nat).
    f_equal. rewrite zip_with_map_self. apply map_ext. intros row.
    now rewrite (cell_at cols rows row "memory_used" 2),
                (cell_at cols rows row "memory_total" 3). }
  rewrite Hfirst. clear Hfirst.
  set (rows1 := map _ rows).
  set (cols1 := cols ++ ["memory_usage_percent"]).
  assert (Hsecond :
    Fetcher.with_percent {| df_columns := cols1; df_rows := rows1 |}
      "disk_usage_percent" "disk_used" "disk_total"
    = {| df_columns := cols1 ++ ["disk_usage_percent"];
         df_rows := map (fun row : list float =>
                           row ++ [nth 4 row nan / nth 5 row nan * 100])%float rows1 |}).
  { unfold Fetcher.with_percent, Fetcher.assign, Fetcher.percent_of.
    change (Pd.in_columns {| df_columns := cols1; df_rows := rows1 |} "disk_used") with true.
    change (Pd.in_columns {| df_columns := cols1; df_rows := rows1 |} "disk_total") with true.
    cbn [andb df_columns df_rows].
    change (Pd.index_of "disk_usage_percent" cols1) with (@None nat).
    f_equal. rewrite zip_with_map_self. apply map_ext. intros row.
    now rewrite (cell_at cols1 rows1 row "disk_used" 4),
                (cell_at cols1 rows1 row "disk_total" 5). }
  rewrite Hsecond. clear Hsecond.
  subst rows1. rewrite map_map, (query_rows_extended rows Hrows).
  set (rows2 := map _ rows).
  set (cols2 := cols1 ++ ["disk_usage_percent"]).
  unfold Fetcher.dropna.
  change (Pd.in_columns {| df_columns := cols2; df_rows := rows2 |} "cpu_usage") with true.
  cbn [df_columns df_rows].
  f_equal. f_equal.
  rewrite (list_filter_iff _
             (fun row : list float => negb (Np.is_nan (nth 1 row nan))) rows2).
  2:{ intros row. now rewrite (cell_at cols2 rows2 row "cpu_usage" 1). }
  subst rows2.
  rewrite (filter_map_bool (fun row : list float => negb (Np.is_nan (nth 1 row nan)))).
  now rewrite (query_rows_filtered rows Hrows).
Qed.

Lemma char_of_concat (s : string) :
  list_ascii_of_string (String.concat "," (Fetcher.split_dots s))
  = map (fun c => if Ascii.eqb c (Ascii.ascii_of_nat 46) then Ascii.ascii_of_nat 44 else c)
        (list_ascii_of_string s)
  /\ Fetcher.split_dots s <> [].
Proof.
  induction s as [|c s [IH Hne]]; [split; [reflexivity|discriminate]|].
  cbn [Fetcher.split_dots list_ascii_of_string map].
  destruct (Ascii.eqb c (Ascii.ascii_of_nat 46)) eqn:Hc.
  - split; [|discriminate].
    destruct (Fetcher.split_dots s) as [|part parts] eqn:Hsplit; [contradiction|].
    cbn [String.concat] in *. cbn. now rewrite <- IH.
  - destruct (Fetcher.split_dots s) as [|part parts] eqn:Hsplit; [contradiction|].
    split; [|discriminate].
    destruct parts as [|part' parts]; cbn [String.concat] in *; cbn; now rewrite <- IH.
Qed.

Lemma split_dots_join (s : string) :
  String.concat "." (Fetcher.split_dots s) = s.
Proof.
  induction s as [|c s IH]; [reflexivity|].
  cbn [Fetcher.split_dots].
  destruct (Fetcher.split_dots s) as [|part parts] eqn:Hsplit;
    [now destruct (proj2 (char_of_concat s))|].
  destruct (Ascii.eqb_spec c (Ascii.ascii_of_nat 46)) as [->|Hc].
  - change (String (Ascii.ascii_of_nat 46) (String.concat "." (part :: parts))
            = String (Ascii.ascii_of_nat 46) s).
    now rewrite IH.
  - destruct parts as [|part' parts].
    + change (String c (String.concat "." [part]) = String c s). now rewrite IH.
    + change (String c (String.concat "." (part :: part' :: parts)) = String c s).
      now rewrite IH.
Qed.

(** X23.  The JSONB path of a field is the field with every dot replaced by a
    comma, between braces; and joining the parts the field is split into
    with dots gives the field back. *)
Theorem jsonb_path_replaces_dots (field : string) :
  list_ascii_of_string (Fetcher.jsonb_path field)
  = Ascii.ascii_of_nat 123
    :: map (fun c => if Ascii.eqb c (Ascii.ascii_of_nat 46) then Ascii.ascii_of_nat 44 else c)
           (list_ascii_of_string field)
    ++ [Ascii.ascii_of_nat 125] /\
  String.concat "." (Fetcher.split_dots field) = field.
Proof.
  split; [|apply split_dots_join].
  unfold Fetcher.jsonb_path.
  change ("{" +:+ ?x) with (String (Ascii.ascii_of_nat 123) x).
  cbn [list_ascii_of_string]. f_equal.
  rewrite list_ascii_app. cbn [list_ascii_of_string].
  now rewrite (proj1 (char_of_concat field)).
Qed.

(** The telemetry of the examples: the second of its three rows has no cpu
    usage and is dropped. *)
Lemma fetched_table_is_clean_witness :
  exists df,
    Fetcher.fetch_multi_metric_history MoreExamples.connected "dev-1" 24 = Fetcher.Fetched df /\
    Pd.nrows df <= Pd.nrows MoreExamples.telemetry /\
    forall row, row ∈ df_rows df ->
      exists v, Pd.cell df row "cpu_usage" = Some v /\ Np.is_nan v = false.
Proof.
  destruct (Fetcher.fetch_multi_metric_history MoreExamples.connected "dev-1" 24)
    as [df| |e] eqn:Hfetch; [|vm_compute in Hfetch; discriminate..].
  destruct (fetched_table_is_clean MoreExamples.connected "dev-1" 24 df Hfetch)
    as (c & raw & Hconn & Hread & _ & Hrows & Hcpu).
  exists df. split; [reflexivity|]. split; [|exact Hcpu].
  vm_compute in Hconn. injection Hconn as <-.
  vm_compute in Hread. injection Hread as <-.
  exact Hrows.
Defined.

Lemma fetch_multi_metric_on_query_shape_witness :
  Fetcher.fetch_multi_metric_history MoreExamples.connected "dev-1" 24
  = Fetcher.Fetched {|
      df_columns := df_columns MoreExamples.telemetry
                    ++ ["memory_usage_percent"; "disk_usage_percent"];
      df_rows :=
        map (fun row : list float =>
               row ++ [nth 2 row nan / nth 3 row nan * 100;
                       nth 4 row nan / nth 5 row nan * 100])%float
            (filter (fun row : list float => negb (Np.is_nan (nth 1 row nan)))
                    (df_rows MoreExamples.telemetry))
    |}.
Proof.
  apply (fetch_multi_metric_on_query_shape MoreExamples.connected MoreExamples.database
           "dev-1" 24 MoreExamples.telemetry eq_refl eq_refl eq_refl).
  repeat (constructor; [reflexivity|]). constructor.
Defined.

(** ** The MAX31855 reader *)

Lemma land_pow2_testbit (x k : Z) :
  0 <= k -> (Z.land x (2 ^ k) =? 0) = negb (Z.testbit x k).
Proof.
  intros Hk.
  assert (Hland : Z.land x (2 ^ k) = if Z.testbit x k then 2 ^ k else 0).
  { apply Z.bits_inj'. intros n Hn.
    rewrite Z.land_spec, Z.pow2_bits_eqb by assumption.
    destruct (Z.eqb_spec k n) as [->|Hne].
    - destruct (Z.testbit x n); [now rewrite Z.pow2_bits_true|now rewrite Z.bits_0].
    - rewrite andb_false_r.
      destruct (Z.testbit x k); [now rewrite Z.pow2_bits_false|now rewrite Z.bits_0]. }
  rewrite Hland. destruct (Z.testbit x k); cbn [negb].
  - apply Z.eqb_neq. pose proof (Z.pow_pos_nonneg 2 k). lia.
  - reflexivity.
Qed.

Lemma signed_field (v width : Z) :
  0 < width -> 0 <= v < 2 ^ width ->
  (if negb (Z.land v (2 ^ (width - 1)) =? 0)
   then (Z.land (Z.lnot v) (Z.ones (width - 1)) + 1) * -1
   else v)
  = if v <? 2 ^ (width - 1) then v else v - 2 ^ width.
Proof.
  intros Hw Hv.
  assert (Hpow : 2 ^ width = 2 * 2 ^ (width - 1)).
  { rewrite <- Z.pow_succ_r by lia. f_equal. lia. }
  assert (Hpos : 0 < 2 ^ (width - 1)) by (apply Z.pow_pos_nonneg; lia).
  rewrite land_pow2_testbit, negb_involutive by lia.
  destruct (Z.ltb_spec v (2 ^ (width - 1))) as [Hlow|Hhigh].
  - assert (Hbit : Z.testbit v (width - 1) = false).
    { apply Z.testbit_false; [lia|]. rewrite Z.div_small by lia. reflexivity. }
    now rewrite Hbit.
  - assert (Hbit : Z.testbit v (width - 1) = true).
    { apply Z.testbit_true; [lia|].
      replace (v / 2 ^ (width - 1)) with 1; [reflexivity|].
      apply (Z.div_unique v (2 ^ (width - 1)) 1 (v - 2 ^ (width - 1))); lia. }
    rewrite Hbit, Z.land_ones by lia.
    replace (Z.lnot v) with (- v - 1) by (unfold Z.lnot; lia).
    rewrite <- (Z.mod_unique (- v - 1) (2 ^ (width - 1)) (-2) (2 ^ width - 1 - v)); lia.
Qed.

Lemma field_range (x shift width : Z) :
  0 <= shift -> 0 <= width ->
  Z.land (Z.shiftr x shift) (Z.ones width) = (x / 2 ^ shift) mod 2 ^ width /\
  0 <= (x / 2 ^ shift) mod 2 ^ width < 2 ^ width.
Proof.
  intros Hs Hw. rewrite Z.land_ones, Z.shiftr_div_pow2 by assumption.
  split; [reflexivity|]. apply Z.mod_pos_bound, Z.pow_pos_nonneg; lia.
Qed.

(** X24.  Both temperature fields of a frame are decoded as two's complement
    numbers, for every integer frame: the thermocouple field is bits 18 to
    31, fourteen bits wide, counted in quarters of a degree, and the
    reference-junction field is bits 4 to 15, twelve bits wide, counted in
    sixteenths; the counts lie in [-8192, 8192) and [-2048, 2048). *)
Theorem temperature_fields_are_twos_complement (data_32 : Z) :
  (exists counts,
     MAX31855.data_to_tc_temperature data_32 = (Np.float_of_Z counts * 0.25)%float /\
     counts = (if (data_32 / 2 ^ 18) mod 2 ^ 14 <? 2 ^ 13
               then (data_32 / 2 ^ 18) mod 2 ^ 14
               else (data_32 / 2 ^ 18) mod 2 ^ 14 - 2 ^ 14) /\
     - 8192 <= counts < 8192) /\
  (exists counts,
     MAX31855.data_to_rj_temperature data_32 = (Np.float_of_Z counts * 0.0625)%float /\
     counts = (if (data_32 / 2 ^ 4) mod 2 ^ 12 <? 2 ^ 11
               then (data_32 / 2 ^ 4) mod 2 ^ 12
               else (data_32 / 2 ^ 4) mod 2 ^ 12 - 2 ^ 12) /\
     - 2048 <= counts < 2048).
Proof.
  split.
  - destruct (field_range data_32 18 14) as [Hfield Hrange]; [lia|lia|].
    eexists. split; [|split; [reflexivity|]].
    + unfold MAX31855.data_to_tc_temperature, MAX31855.convert_tc_data, MAX31855.tc_counts.
      change 16383 with (Z.ones 14). rewrite Hfield.
      change 8192 with (2 ^ (14 - 1)). change 8191 with (Z.ones (14 - 1)).
      rewrite (signed_field _ 14) by (assumption || lia). reflexivity.
    + destruct (Z.ltb_spec ((data_32 / 2 ^ 18) mod 2 ^ 14) (2 ^ 13)); lia.
  - destruct (field_range data_32 4 12) as [Hfield Hrange]; [lia|lia|].
    eexists. split; [|split; [reflexivity|]].
    + unfold MAX31855.data_to_rj_temperature, MAX31855.convert_rj_data, MAX31855.rj_counts.
      change 4095 with (Z.ones 12). rewrite Hfield.
      change 2048 with (2 ^ (12 - 1)). change 2047 with (Z.ones (12 - 1)).
      rewrite (signed_field _ 12) by (assumption || lia). reflexivity.
    + destruct (Z.ltb_spec ((data_32 / 2 ^ 4) mod 2 ^ 12) (2 ^ 11)); lia.
Qed.

(** One clock pulse of [read]. *)
Lemma pulse_value (acc : Z) (b : bool) :
  0 <= acc ->
  (if b then Z.lor (Z.shiftl acc 1) 1 else Z.shiftl acc 1) = 2 * acc + Z.b2z b.
Proof.
  intros Hacc. destruct acc as [|p|p]; [| |lia]; destruct b; reflexivity.
Qed.

Lemma pulse_bit (acc : Z) (b : bool) (k : nat) :
  Z.testbit (if b then Z.lor (Z.shiftl acc 1) 1 else Z.shiftl acc 1) (Z.of_nat k)
  = match k with
    | O => b
    | S k' => Z.testbit acc (Z.of_nat k')
    end.
Proof.
  assert (Hshift : Z.testbit (Z.shiftl acc 1) (Z.of_nat k)
                   = match k with O => false | S k' => Z.testbit acc (Z.of_nat k') end).
  { rewrite Z.shiftl_spec by lia. destruct k as [|k'].
    - apply Z.testbit_neg_r. lia.
    - f_equal. lia. }
  destruct b; [|now rewrite Hshift; destruct k].
  rewrite Z.lor_spec, Hshift. change 1 with (2 ^ 0). rewrite Z.pow2_bits_eqb by lia.
  destruct k as [|k']; [reflexivity|].
  rewrite orb_false_r. reflexivity.
Qed.

Lemma pulses_bits (level : nat -> bool) (l : list nat) (acc : Z) (k : nat) :
  Z.testbit
    (fold_left (fun bytesin i =>
                  let bytesin := Z.shiftl bytesin 1 in
                  if level i then Z.lor bytesin 1 else bytesin) l acc)
    (Z.of_nat k)
  = if (k <? length l)%nat
    then level (nth (length l - 1 - k) l 0%nat)
    else Z.testbit acc (Z.of_nat (k - length l)).
Proof.
  revert acc. induction l as [|i l IH]; intros acc.
  - cbn. f_equal. lia.
  - cbn [fold_left length]. rewrite IH. cbv zeta.
    destruct (Nat.ltb_spec k (length l)) as [Hlt|Hge].
    + destruct (Nat.ltb_spec k (S (length l))); [|lia].
      replace (S (length l) - 1 - k)%nat with (S (length l - 1 - k)) by lia.
      reflexivity.
    + rewrite pulse_bit.
      destruct (Nat.ltb_spec k (S (length l))) as [Hlast|Hpast].
      * replace (k - length l)%nat with 0%nat by lia.
        replace (S (length l) - 1 - k)%nat with 0%nat by lia. reflexivity.
      * replace (k - length l)%nat with (S (k - S (length l))) by lia. reflexivity.
Qed.

Lemma pulses_range (level : nat -> bool) (l : list nat) (acc : Z) (n : Z) :
  0 <= n -> 0 <= acc < 2 ^ n ->
  0 <= fold_left (fun bytesin i =>
                    let bytesin := Z.shiftl bytesin 1 in
                    if level i then Z.lor bytesin 1 else bytesin) l acc
    < 2 ^ (n + Z.of_nat (length l)).
Proof.
  revert acc n. induction l as [|i l IH]; intros acc n Hn Hacc.
  - cbn. now rewrite Z.add_0_r.
  - cbn [fold_left length]. cbv zeta. rewrite pulse_value by lia.
    replace (n + Z.of_nat (S (length l))) with ((n + 1) + Z.of_nat (length l)) by lia.
    apply IH; [lia|].
    rewrite Z.pow_add_r, Z.pow_1_r by lia.
    destruct (level i); cbn [Z.b2z]; lia.
Qed.

(** X25.  The frame [read] assembles from the 32 clock pulses is a 32-bit
    number whose bits are the levels of the data pin, first pulse in the
    highest bit: bit [k] is the level at pulse [31 - k]. *)
Theorem read_frame_bits (level : nat -> bool) :
  0 <= MAX31855.read_frame level < 2 ^ 32 /\
  forall k : nat, (k < 32)%nat ->
    Z.testbit (MAX31855.read_frame level) (Z.of_nat k) = level (31 - k)%nat.
Proof.
  unfold MAX31855.read_frame. split.
  - apply (pulses_range level (seq 0 32) 0 0); lia.
  - intros k Hk. rewrite pulses_bits, length_seq.
    destruct (Nat.ltb_spec k 32); [|lia].
    rewrite seq_nth by lia. f_equal.
Qed.

Lemma checkErrors_raises (data_32 : Z) :
  (exists v, MAX31855.checkErrors data_32 = MAX31855.MAX31855Error v) <->
  Z.testbit data_32 16 = true /\ Z.testbit data_32 0 = false /\ Z.testbit data_32 1 = false.
Proof.
  unfold MAX31855.checkErrors.
  change 65536 with (2 ^ 16). change (Z.land data_32 1) with (Z.land data_32 (2 ^ 0)).
  change (Z.land data_32 2) with (Z.land data_32 (2 ^ 1)).
  change (Z.land data_32 4) with (Z.land data_32 (2 ^ 2)).
  rewrite !land_pow2_testbit, !negb_involutive by lia.
  destruct (Z.testbit data_32 16), (Z.testbit data_32 0), (Z.testbit data_32 1),
    (Z.testbit data_32 2); split;
    try (intros (v & Hv); discriminate Hv);
    try (intros (H16 & H0 & H1); discriminate);
    try (intros _; eexists; reflexivity);
    try (intros _; repeat split).
Qed.

(** X26.  [get] raises [MAX31855Error] exactly when the fault bit (16) of the
    frame is set while neither the open-circuit bit (0) nor the
    short-to-ground bit (1) is; with one of those two set it returns the
    converted thermocouple field, fault bit or not, when the reader's unit
    is one it can convert to; and [get_rj], which does not check the frame,
    never raises [MAX31855Error]. *)
Theorem get_fault_handling (self : MAX31855.t) (level : nat -> bool) :
  ((exists v, MAX31855.get self level = MAX31855.MAX31855Error v) <->
   Z.testbit (MAX31855.read_frame level) 16 = true /\
   Z.testbit (MAX31855.read_frame level) 0 = false /\
   Z.testbit (MAX31855.read_frame level) 1 = false) /\
  (forall convert,
     MAX31855.to_units self = MAX31855.Done convert ->
     Z.testbit (MAX31855.read_frame level) 0 = true \/
     Z.testbit (MAX31855.read_frame level) 1 = true ->
     MAX31855.get self level
     = MAX31855.Done (convert (MAX31855.data_to_tc_temperature (MAX31855.read_frame level)))) /\
  (forall v, MAX31855.get_rj self level <> MAX31855.MAX31855Error v).
Proof.
  assert (Hunits : forall v, MAX31855.to_units self <> MAX31855.MAX31855Error v).
  { intros v. unfold MAX31855.to_units.
    destruct (String.eqb _ "c"); [discriminate|].
    destruct (String.eqb _ "k"); [discriminate|].
    destruct (String.eqb _ "f"); discriminate. }
  unfold MAX31855.get, MAX31855.get_rj. cbv zeta.
  generalize (MAX31855.read_frame level). intros frame.
  pose proof (checkErrors_raises frame) as Hcheck.
  split; [|split].
  - rewrite <- Hcheck.
    destruct (MAX31855.checkErrors frame) as [printed|v|e].
    + split; intros (v & Hv); [|discriminate Hv].
      destruct (MAX31855.to_units self) as [convert|v'|e] eqn:Hto;
        [discriminate Hv| |discriminate Hv].
      now destruct (Hunits v').
    + split; intros _; eexists; reflexivity.
    + split; intros (v & Hv); discriminate Hv.
  - intros convert Hconvert Hreported.
    destruct (MAX31855.checkErrors frame) as [printed|v|e] eqn:Hrun.
    + now rewrite Hconvert.
    + destruct (proj1 Hcheck) as (_ & H0 & H1); [now exists v|].
      destruct Hreported; congruence.
    + unfold MAX31855.checkErrors in Hrun.
      repeat (destruct (negb _) in Hrun); discriminate Hrun.
  - intros v.
    destruct (MAX31855.to_units self) as [convert|v'|e] eqn:Hto; [discriminate| |discriminate].
    now destruct (Hunits v').
Qed.

(** A frame with the fault bit and the open-circuit bit set: [get] returns
    0 degrees instead of raising. *)
Lemma get_fault_handling_witness :
  MAX31855.get MoreExamples.celsius_reader MoreExamples.open_circuit
  = MAX31855.Done
      (MAX31855.to_c
         (MAX31855.data_to_tc_temperature
            (MAX31855.read_frame MoreExamples.open_circuit))).
Proof.
  apply (proj1 (proj2 (get_fault_handling MoreExamples.celsius_reader
                         MoreExamples.open_circuit))).
  - reflexivity.
  - left. vm_compute. reflexivity.
Defined.

(** ** CAN messages *)

Lemma byte_of_land (n shift : Z) :
  0 <= shift ->
  Z.land (Z.shiftr n shift) 255 = (n / 2 ^ shift) mod 256 /\
  0 <= Z.land (Z.shiftr n shift) 255 < 256.
Proof.
  intros Hs. change 255 with (Z.ones 8).
  rewrite Z.land_ones, Z.shiftr_div_pow2 by lia. change (2 ^ 8) with 256.
  split; [reflexivity|]. apply Z.mod_pos_bound. lia.
Qed.

Lemma le32_bytes (n : Z) :
  Forall (fun x => 0 <= x < 256) (CANMessage.le32 n) /\
  (0 <= n < 4294967296 ->
   nth 0 (CANMessage.le32 n) 0 + 256 * nth 1 (CANMessage.le32 n) 0
   + 65536 * nth 2 (CANMessage.le32 n) 0 + 16777216 * nth 3 (CANMessage.le32 n) 0 = n).
Proof.
  unfold CANMessage.le32.
  change (Z.land n 255) with (Z.land (Z.shiftr n 0) 255).
  destruct (byte_of_land n 0) as [E0 R0]; [lia|].
  destruct (byte_of_land n 8) as [E1 R1]; [lia|].
  destruct (byte_of_land n 16) as [E2 R2]; [lia|].
  destruct (byte_of_land n 24) as [E3 R3]; [lia|].
  split; [do 4 (constructor; [assumption|]); constructor|].
  intros Hn. cbn [nth]. rewrite E0, E1, E2, E3.
  change (2 ^ 0) with 1. change (2 ^ 8) with 256. change (2 ^ 16) with 65536.
  change (2 ^ 24) with 16777216.
  Z.div_mod_to_equations. lia.
Qed.

Lemma field_8s_short (b : list Z) :
  (length b <= 8)%nat -> CANMessage.field_8s b = b ++ repeat 0 (8 - length b).
Proof.
  intros Hlen. unfold CANMessage.field_8s.
  apply firstn_all2. rewrite length_app, repeat_length. lia.
Qed.

Lemma field_8s_long (b : list Z) :
  (8 <= length b)%nat -> CANMessage.field_8s b = firstn 8 b.
Proof.
  intros Hlen. unfold CANMessage.field_8s.
  replace (8 - length b)%nat with 0%nat by lia. cbn [repeat].
  now rewrite app_nil_r.
Qed.

Lemma length_field_8s (b : list Z) : length (CANMessage.field_8s b) = 8%nat.
Proof.
  unfold CANMessage.field_8s.
  rewrite length_take, length_app, repeat_length. lia.
Qed.

Lemma data_in_range (data : list Z) :
  forallb (fun x => (0 <=? x) && (x <? 256)) data = true <->
  Forall (fun x => 0 <= x < 256) data.
Proof.
  rewrite forallb_forall, Forall_forall. split; intros Hall x Hx.
  - apply list_elem_of_In, Hall in Hx. lia.
  - apply list_elem_of_In, Hall in Hx. lia.
Qed.

(** X27.  How [to_bytes] ends.  It raises the [ValueError] of [bytes()] exactly
    when some data element is outside 0..255; otherwise it raises
    [struct.error] exactly when the identifier is outside 0..2^32-1 or the
    data has more than 255 elements; otherwise it returns 13 bytes, each in
    0..255. *)
Theorem to_bytes_outcomes (self : CANMessage.t) :
  (CANMessage.to_bytes self = CANMessage.BytesValueError <->
   ~ Forall (fun x => 0 <= x < 256) (CANMessage.data self)) /\
  (CANMessage.to_bytes self = CANMessage.StructError <->
   Forall (fun x => 0 <= x < 256) (CANMessage.data self) /\
   ~ (0 <= CANMessage.can_id self < 4294967296 /\ len (CANMessage.data self) <= 255)) /\
  (forall b, CANMessage.to_bytes self = CANMessage.Bytes b ->
     length b = 13%nat /\ Forall (fun x => 0 <= x < 256) b).
Proof.
  unfold CANMessage.to_bytes. cbv zeta.
  pose proof (data_in_range (CANMessage.data self)) as Hdata.
  destruct (forallb _ (CANMessage.data self)); cbn [negb].
  2:{ assert (Hbad : ~ Forall (fun x => 0 <= x < 256) (CANMessage.data self)).
      { intros Hall. apply Hdata in Hall. discriminate. }
      split; [tauto|]. split; [|discriminate].
      split; [discriminate|tauto]. }
  assert (Hgood : Forall (fun x => 0 <= x < 256) (CANMessage.data self))
    by now apply Hdata.
  destruct (Z.leb_spec 0 (CANMessage.can_id self)),
    (Z.ltb_spec (CANMessage.can_id self) 4294967296); cbn [andb negb];
    try (split; [split; [discriminate|tauto]|];
         split; [split; [intros _; split; [assumption|lia]|reflexivity]|discriminate]).
  destruct (Z.ltb_spec (len (CANMessage.data self)) 256); cbn [negb].
  - split; [split; [discriminate|tauto]|].
    split; [split; [discriminate|lia]|].
    intros b [= <-]. split.
    + unfold CANMessage.le32. cbn [app length]. now rewrite length_field_8s.
    + change (Forall (fun x => 0 <= x < 256)
                (CANMessage.le32 (CANMessage.can_id self)
                 ++ len (CANMessage.data self)
                    :: CANMessage.field_8s (CANMessage.data self))).
      apply Forall_app. split; [apply le32_bytes|].
      apply Forall_cons. split; [unfold len in *; lia|].
      unfold CANMessage.field_8s. apply Forall_take, Forall_app.
      split; [assumption|]. apply Forall_forall. intros x Hx%list_elem_of_In.
      apply repeat_spec in Hx. lia.
  - split; [split; [discriminate|tauto]|].
    split; [split; [intros _; split; [assumption|lia]|reflexivity]|discriminate].
Qed.

(** X28.  The layout of the bytes [to_bytes] returns: the first four hold the
    identifier, least significant byte first; the fifth is the number of
    data elements; the last eight are the data followed by zeros when there
    are at most eight elements, and the first eight elements when there are
    more, although the fifth byte still counts them all. *)
Theorem to_bytes_layout (self : CANMessage.t) (b : list Z) :
  CANMessage.to_bytes self = CANMessage.Bytes b ->
  nth 0 b 0 + 256 * nth 1 b 0 + 65536 * nth 2 b 0 + 16777216 * nth 3 b 0
    = CANMessage.can_id self /\
  nth 4 b 0 = len (CANMessage.data self) /\
  (len (CANMessage.data self) <= 8 ->
     skipn 5 b = CANMessage.data self
                 ++ repeat 0 (8 - length (CANMessage.data self))) /\
  (8 <= len (CANMessage.data self) -> skipn 5 b = firstn 8 (CANMessage.data self)).
Proof.
  unfold CANMessage.to_bytes. cbv zeta.
  destruct (forallb _ (CANMessage.data self)); cbn [negb]; [|discriminate].
  destruct (Z.leb_spec 0 (CANMessage.can_id self)) as [Hlo|],
    (Z.ltb_spec (CANMessage.can_id self) 4294967296) as [Hhi|]; cbn [andb negb];
    try discriminate.
  destruct (Z.ltb_spec (len (CANMessage.data self)) 256); cbn [negb]; [|discriminate].
  intros [= <-].
  destruct (le32_bytes (CANMessage.can_id self)) as [_ Hid].
  split; [exact (Hid (conj Hlo Hhi))|].
  split; [reflexivity|].
  split; intros Hlen; cbn [CANMessage.le32 app skipn].
  - apply field_8s_short. unfold len in Hlen. lia.
  - apply field_8s_long. unfold len in Hlen. lia.
Qed.

(** The engine-speed message of the simulator at 2000 rpm. *)
Lemma to_bytes_layout_witness :
  exists b,
    CANMessage.to_bytes MoreExamples.engine_rpm = CANMessage.Bytes b /\
    nth 0 b 0 + 256 * nth 1 b 0 + 65536 * nth 2 b 0 + 16777216 * nth 3 b 0 = 256 /\
    nth 4 b 0 = 8 /\
    skipn 5 b = [7; 208; 0; 0; 0; 0; 0; 0].
Proof.
  destruct (CANMessage.to_bytes MoreExamples.engine_rpm) as [b| |] eqn:Hb;
    [|vm_compute in Hb; discriminate..].
  destruct (to_bytes_layout MoreExamples.engine_rpm b Hb) as (Hid & Hdlc & Hshort & _).
  exists b. split; [reflexivity|]. split; [exact Hid|]. split; [exact Hdlc|].
  apply Hshort. vm_compute. discriminate.
Defined.
